(** * Vacancy statistics: the aggregation pipeline of [code_Fail.py]

    A shallow embedding of the classes [Salary], [Vacancy] and [DataSet],
    of the cell values and column widths of [Report] and of the Python
    run-time operations they rely on, followed by the properties of the
    pipeline.

    Conventions of the embedding.
    - A Python [dict] is an association list in insertion order with
      pairwise distinct keys: assignment to a present key replaces the
      value in place, assignment to an absent key appends.
    - A Python [int] is a [Z].  The numbers are modelled twice.  In the
      first part a [float] is an exact rational kept in lowest terms:
      this part gives the keys, the counts and the order of the
      aggregates, on which rounding has no bearing.  In the module
      [Binary64] a [float] is an IEEE 754 binary64 number: an operation
      rounds to the nearest float, the even one of two, overflows to an
      infinity, and a conversion of an [int] beyond the floats raises
      [OverflowError]; the numeric results and the failures of [Salary],
      [Vacancy], [tryToAdd], [getAverageSalary], [getKey] and
      [csv_filter] are stated there.
    - A Python [str] is a [string] of bytes.  [int()], [float()] and the
      slice [[:4]] are modelled on ASCII text, in which a character is a
      byte; the statements that depend on them say so.
    - An exception is the [Raise] branch of [result]. *)

From Stdlib Require Import ZArith QArith Qround Qreduction Qpower Qabs Lqa.
From Stdlib Require Import List String Ascii Bool Lia.
From Stdlib Require Import Permutation Sorted.
Import ListNotations.

Close Scope Q_scope.
Local Open Scope Z_scope.

(** ** Exceptions *)

Inductive exn : Type :=
| KeyError
| ValueError
| TypeError
| OverflowError
| ZeroDivisionError
| AttributeError
| StopIteration
| SystemExit.

Inductive result (A : Type) : Type :=
| Ok (a : A)
| Raise (e : exn).

Arguments Ok {A} a.
Arguments Raise {A} e.

Definition bind {A B : Type} (m : result A) (k : A -> result B) : result B :=
  match m with
  | Ok a => k a
  | Raise e => Raise e
  end.

Notation "x <- m ;; k" := (bind m (fun x => k))
  (at level 61, m at next level, right associativity).

Fixpoint mapM {A B : Type} (f : A -> result B) (l : list A) : result (list B) :=
  match l with
  | [] => Ok []
  | x :: l' => y <- f x ;; ys <- mapM f l' ;; Ok (y :: ys)
  end.

Fixpoint foldM {A B : Type} (f : A -> B -> result A) (l : list B) (a : A) : result A :=
  match l with
  | [] => Ok a
  | x :: l' => a' <- f a x ;; foldM f l' a'
  end.

Fixpoint filterM {A : Type} (p : A -> result bool) (l : list A) : result (list A) :=
  match l with
  | [] => Ok []
  | x :: l' =>
      b <- p x ;; ys <- filterM p l' ;; Ok (if b then x :: ys else ys)
  end.

(** ** Numbers *)

Inductive pynum : Type :=
| PInt (z : Z)
| PFloat (q : Q).

Definition num_to_Q (a : pynum) : Q :=
  match a with
  | PInt z => inject_Z z
  | PFloat q => q
  end.

(** [a + b] *)
Definition py_add (a b : pynum) : pynum :=
  match a, b with
  | PInt x, PInt y => PInt (x + y)
  | _, _ => PFloat (Qred (num_to_Q a + num_to_Q b))
  end.

(** [a * b] *)
Definition py_mul (a b : pynum) : pynum :=
  match a, b with
  | PInt x, PInt y => PInt (x * y)
  | _, _ => PFloat (Qred (num_to_Q a * num_to_Q b))
  end.

(** [a == b] *)
Definition py_eqb (a b : pynum) : bool := Qeq_bool (num_to_Q a) (num_to_Q b).

(** [a < b] *)
Definition py_ltb (a b : pynum) : bool := negb (Qle_bool (num_to_Q b) (num_to_Q a)).

(** [a > b] *)
Definition py_gtb (a b : pynum) : bool := py_ltb b a.

(** [a / b]: true division, always a float. *)
Definition py_truediv (a b : pynum) : result pynum :=
  if py_eqb b (PInt 0) then Raise ZeroDivisionError
  else Ok (PFloat (Qred (num_to_Q a / num_to_Q b))).

(** [math.floor(a)]: an int. *)
Definition math_floor (a : pynum) : Z :=
  match a with
  | PInt z => z
  | PFloat q => Qfloor q
  end.

(** ** Strings and the builtins [int] and [float] *)

(** ASCII white space, as skipped by [int()] and [float()]. *)
Definition is_space (c : ascii) : bool :=
  let n := N_of_ascii c in
  ((9 <=? n) && (n <=? 13) || (n =? 32))%N.

Definition digit_of (c : ascii) : option Z :=
  let n := Z.of_N (N_of_ascii c) in
  if (48 <=? n) && (n <=? 57) then Some (n - 48) else None.

Definition lower (c : ascii) : ascii :=
  let n := N_of_ascii c in
  if ((65 <=? n) && (n <=? 90))%N then ascii_of_N (n + 32) else c.

Fixpoint lstrip (l : list ascii) : list ascii :=
  match l with
  | c :: l' => if is_space c then lstrip l' else l
  | [] => []
  end.

Definition strip (l : list ascii) : list ascii :=
  rev (lstrip (rev (lstrip l))).

(** Reads the rest of a digit group, [(["_"] digit)*], after its first
    digit: the value so far, the number of digits so far, the text left. *)
Fixpoint digits_tail (acc : Z) (n : nat) (l : list ascii) : Z * nat * list ascii :=
  match l with
  | c :: l' =>
      match digit_of c with
      | Some d => digits_tail (10 * acc + d) (S n) l'
      | None =>
          if Ascii.eqb c "_"%char then
            match l' with
            | c2 :: l'' =>
                match digit_of c2 with
                | Some d => digits_tail (10 * acc + d) (S n) l''
                | None => (acc, n, l)
                end
            | [] => (acc, n, l)
            end
          else (acc, n, l)
      end
  | [] => (acc, n, l)
  end.

(** A digit group: [digit (["_"] digit)*]. *)
Definition digitpart (l : list ascii) : option (Z * nat * list ascii) :=
  match l with
  | c :: l' =>
      match digit_of c with
      | Some d => Some (digits_tail d 1%nat l')
      | None => None
      end
  | [] => None
  end.

Definition opt_digitpart (l : list ascii) : Z * nat * list ascii :=
  match digitpart l with
  | Some r => r
  | None => (0, 0%nat, l)
  end.

(** An optional sign: whether it is a minus, and the text after it. *)
Definition read_sign (l : list ascii) : bool * list ascii :=
  match l with
  | c :: r =>
      if Ascii.eqb c "-"%char then (true, r)
      else if Ascii.eqb c "+"%char then (false, r)
      else (false, l)
  | [] => (false, l)
  end.

(** [int(s)] for a string [s], base 10. *)
Definition int_of_str (s : string) : result Z :=
  let (neg, l) := read_sign (strip (list_ascii_of_string s)) in
  match digitpart l with
  | Some (v, _, []) => Ok (if neg then - v else v)
  | _ => Raise ValueError
  end.

(** What [float()] reads. *)
Inductive pyfloat : Type :=
| Finite (q : Q)
| Infinite (negative : bool)
| NaN.

(** [m * 10 ^ e] *)
Definition scale10 (m : Z) (e : Z) : Q :=
  if 0 <=? e then Qred (inject_Z (m * 10 ^ e))
  else Qred (Qmake m (Z.to_pos (10 ^ (- e)))).

(** The decimal part of the grammar of [float()]:
    [digitpart ["." [digitpart]] [exponent]] or ["." digitpart [exponent]]. *)
Definition float_number (l : list ascii) : option Q :=
  let '(ip, ni, l1) := opt_digitpart l in
  let '(fp, nf, l2) :=
    match l1 with
    | c :: r => if Ascii.eqb c "."%char then opt_digitpart r else (0, 0%nat, l1)
    | [] => (0, 0%nat, l1)
    end in
  if (ni + nf =? 0)%nat then None
  else
    let mant := ip * 10 ^ Z.of_nat nf + fp in
    match l2 with
    | [] => Some (scale10 mant (- Z.of_nat nf))
    | c :: r =>
        if Ascii.eqb (lower c) "e"%char then
          let (eneg, r1) := read_sign r in
          match digitpart r1 with
          | Some (ex, _, []) =>
              Some (scale10 mant ((if eneg then - ex else ex) - Z.of_nat nf))
          | _ => None
          end
        else None
    end.

(** [float(s)] for a string [s]. *)
Definition float_of_str (s : string) : result pyfloat :=
  let (neg, l) := read_sign (strip (list_ascii_of_string s)) in
  let name := string_of_list_ascii (map lower l) in
  if String.eqb name "inf" || String.eqb name "infinity" then Ok (Infinite neg)
  else if String.eqb name "nan" then Ok NaN
  else
    match float_number l with
    | Some q => Ok (Finite (if neg then Qred (- q) else q))
    | None => Raise ValueError
    end.

(** [math.floor(x)] for a float as read by [float()]. *)
Definition float_floor (x : pyfloat) : result Z :=
  match x with
  | Finite q => Ok (math_floor (PFloat q))
  | Infinite _ => Raise OverflowError
  | NaN => Raise ValueError
  end.

Local Open Scope string_scope.
Local Open Scope list_scope.
Local Open Scope Z_scope.

(** [s[:n]] *)
Fixpoint str_take (n : nat) (s : string) : string :=
  match n, s with
  | S n', String c s' => String c (str_take n' s')
  | _, _ => EmptyString
  end.

(** [s.find(sub)]: the lowest index where [sub] occurs in [s], or [-1]. *)
Fixpoint str_find_from (i : Z) (s sub : string) : Z :=
  if String.prefix sub s then i
  else
    match s with
    | EmptyString => -1
    | String _ s' => str_find_from (i + 1) s' sub
    end.

Definition str_find (s sub : string) : Z := str_find_from 0 s sub.

(** ** Dictionaries *)

Class PyHashable (K : Type) : Type := {
  key_eqb : K -> K -> bool;
  key_eqb_eq : forall a b, key_eqb a b = true <-> a = b
}.

Section Dict.
Context {K V : Type} `{PyHashable K}.

Definition dict : Type := list (K * V).

(** [d.keys()] and [d.items()] *)
Definition keys (d : dict) : list K := map fst d.
Definition items (d : dict) : list (K * V) := d.

Fixpoint dict_get (d : dict) (k : K) : option V :=
  match d with
  | [] => None
  | (k', v) :: d' => if key_eqb k k' then Some v else dict_get d' k
  end.

(** [k in d] *)
Definition dict_contains (d : dict) (k : K) : bool :=
  match dict_get d k with
  | Some _ => true
  | None => false
  end.

(** [d[k]] *)
Definition dict_getitem (d : dict) (k : K) : result V :=
  match dict_get d k with
  | Some v => Ok v
  | None => Raise KeyError
  end.

(** [d[k] = v] *)
Fixpoint dict_setitem (d : dict) (k : K) (v : V) : dict :=
  match d with
  | [] => [(k, v)]
  | (k', v') :: d' =>
      if key_eqb k k' then (k', v) :: d' else (k', v') :: dict_setitem d' k v
  end.

(** [dict(pairs)] *)
Definition dict_of (pairs : list (K * V)) : dict :=
  fold_left (fun d kv => dict_setitem d (fst kv) (snd kv)) pairs [].
End Dict.

Arguments dict K V : clear implicits.

(** ** [sorted] and [list.sort] *)

Section Sorted.
Context {A B : Type} (ltb : B -> B -> bool) (key : A -> B) (reverse : bool).

(** [precedes y x]: [y] has to come strictly before [x] in the result. *)
Definition precedes (y x : A) : bool :=
  if reverse then ltb (key x) (key y) else ltb (key y) (key x).

(** [in_order a b]: [a] may stand before [b] in the result. *)
Definition in_order (a b : A) : Prop := precedes b a = false.

(** Puts [x], which came before every element of [l] in the input, at
    its place in the sorted list [l]. *)
Fixpoint sorted_insert (x : A) (l : list A) : list A :=
  match l with
  | [] => [x]
  | y :: l' => if precedes y x then y :: sorted_insert x l' else x :: l
  end.

(** [sorted(l, key=key, reverse=reverse)]: a stable sort. *)
Fixpoint py_sorted (l : list A) : list A :=
  match l with
  | [] => []
  | x :: l' => sorted_insert x (py_sorted l')
  end.
End Sorted.

(** ** Values of a row, keys of an aggregate *)

Inductive pyval : Type :=
| VStr (s : string)
| VInt (z : Z)
| VBool (b : bool).

Inductive pykey : Type :=
| KInt (z : Z)
| KStr (s : string).

Definition pykey_eqb (a b : pykey) : bool :=
  match a, b with
  | KInt x, KInt y => x =? y
  | KStr x, KStr y => String.eqb x y
  | _, _ => false
  end.

(** The key under which a value is found in a dict: [True == 1] and
    [False == 0] hash alike. *)
Definition hash_key (v : pyval) : pykey :=
  match v with
  | VStr s => KStr s
  | VInt z => KInt z
  | VBool b => KInt (Z.b2z b)
  end.

(** [a < b] on keys of one type. *)
Definition pykey_ltb (a b : pykey) : bool :=
  match a, b with
  | KInt x, KInt y => x <? y
  | KStr x, KStr y => String.ltb x y
  | _, _ => false
  end.

Definition is_KInt (k : pykey) : bool :=
  match k with KInt _ => true | KStr _ => false end.

Definition is_KStr (k : pykey) : bool :=
  match k with KInt _ => false | KStr _ => true end.

(** [l.sort()]: ints and strings do not compare. *)
Definition list_sort (l : list pykey) : result (list pykey) :=
  if forallb is_KInt l || forallb is_KStr l
  then Ok (py_sorted pykey_ltb (fun k => k) false l)
  else Raise TypeError.

Definition pykey_eq_dec (a b : pykey) : {a = b} + {a <> b}.
Proof.
  decide equality; [apply Z.eq_dec | apply string_dec].
Defined.

(** [float(v)] *)
Definition py_float (v : pyval) : result pyfloat :=
  match v with
  | VStr s => float_of_str s
  | VInt z => Ok (Finite (inject_Z z))
  | VBool b => Ok (Finite (inject_Z (Z.b2z b)))
  end.

(** [int(v)] *)
Definition py_int (v : pyval) : result Z :=
  match v with
  | VStr s => int_of_str s
  | VInt z => Ok z
  | VBool b => Ok (Z.b2z b)
  end.

(** [v[:n]] *)
Definition py_slice_to (n : nat) (v : pyval) : result pyval :=
  match v with
  | VStr s => Ok (VStr (str_take n s))
  | _ => Raise TypeError
  end.

(** [v.find(sub)] *)
Definition py_find (v : pyval) (sub : string) : result Z :=
  match v with
  | VStr s => Ok (str_find s sub)
  | _ => Raise AttributeError
  end.

(** Truth value of [v]. *)
Definition py_truthy (v : pyval) : bool :=
  match v with
  | VStr s => negb (String.eqb s EmptyString)
  | VInt z => negb (z =? 0)
  | VBool b => b
  end.

#[export] Instance string_hashable : PyHashable string :=
  {| key_eqb := String.eqb; key_eqb_eq := String.eqb_eq |}.

Definition pykey_eqb_eq (a b : pykey) : pykey_eqb a b = true <-> a = b.
Proof.
  destruct a as [x|x], b as [y|y]; simpl.
  - rewrite Z.eqb_eq. split; congruence.
  - split; discriminate.
  - split; discriminate.
  - rewrite String.eqb_eq. split; congruence.
Qed.

#[export] Instance pykey_hashable : PyHashable pykey :=
  {| key_eqb := pykey_eqb; key_eqb_eq := pykey_eqb_eq |}.

(** * The program *)

(** ** [currency_to_rub] *)

Definition currency_to_rub : dict pykey pynum :=
  [ (KStr "AZN", PInt 35);
    (KStr "BYR", PFloat (2391 # 100));   (* 23.91 *)
    (KStr "EUR", PFloat (599 # 10));     (* 59.90 *)
    (KStr "GEL", PFloat (1087 # 50));    (* 21.74 *)
    (KStr "KGS", PFloat (19 # 25));      (* 0.76 *)
    (KStr "KZT", PFloat (13 # 100));     (* 0.13 *)
    (KStr "RUR", PInt 1);
    (KStr "UAH", PFloat (41 # 25));      (* 1.64 *)
    (KStr "USD", PFloat (3033 # 50));    (* 60.66 *)
    (KStr "UZS", PFloat (11 # 2000)) ].  (* 0.0055 *)

(** ** [class Salary] *)

Record Salary : Type := {
  salary_from : Z;
  salary_to : Z;
  salary_currency : pyval;
  averageSalary : pynum;
  salaryRub : pynum
}.

(** [Salary.__init__] *)
Definition Salary_init (dic : dict string pyval) : result Salary :=
  raw_from <- dict_getitem dic "salary_from" ;;
  float_from <- py_float raw_from ;;
  salary_from <- float_floor float_from ;;
  raw_to <- dict_getitem dic "salary_to" ;;
  float_to <- py_float raw_to ;;
  salary_to <- float_floor float_to ;;
  salary_currency <- dict_getitem dic "salary_currency" ;;
  averageSalary <- py_truediv (py_add (PInt salary_to) (PInt salary_from)) (PInt 2) ;;
  rate <- dict_getitem currency_to_rub (hash_key salary_currency) ;;
  Ok {| salary_from := salary_from;
        salary_to := salary_to;
        salary_currency := salary_currency;
        averageSalary := averageSalary;
        salaryRub := py_mul rate averageSalary |}.

(** ** [class Vacancy] *)

Record Vacancy : Type := {
  dic : dict string pyval;
  salary : Salary;
  is_needed : pyval
}.

(** [Vacancy.__init__] *)
Definition Vacancy_init (d : dict string pyval) : result Vacancy :=
  salary <- Salary_init d ;;
  published_at <- dict_getitem d "published_at" ;;
  prefix <- py_slice_to 4 published_at ;;
  year <- py_int prefix ;;
  let d := dict_setitem d "year" (VInt year) in
  is_needed <- dict_getitem d "is_needed" ;;
  Ok {| dic := d; salary := salary; is_needed := is_needed |}.

(** ** [class InputConect] *)

Record InputConect : Type := {
  fileName : string;
  professionName : string;
  TableOrPdf : string
}.

(** The rows that [csv.reader] yields for the input file. *)
Definition csv_rows : Type := list (list string).

(** [InputConect.checkFile] *)
Definition checkFile (file : csv_rows) : result unit :=
  match file with
  | [] => Raise SystemExit
  | [_] => Raise SystemExit
  | _ :: _ :: _ => Ok tt
  end.

(** [InputConect.__init__] *)
Definition InputConect_init (file : csv_rows) : result InputConect :=
  _ <- checkFile file ;;
  Ok {| fileName := "vacancies_by_year.csv";
        professionName := "Аналитик";
        TableOrPdf := "Вакансии" |}.

(** ** [class DataSet] *)

(** The condition of the comprehension in [csv_reader]. *)
Definition line_kept (firstLine line : list string) : bool :=
  negb (existsb (String.eqb EmptyString) line)
  && (List.length line =? List.length firstLine)%nat.

(** [DataSet.csv_reader]: [firstLine] and [otherLines]. *)
Definition csv_reader (file : csv_rows) : result (list string * list (list string)) :=
  match file with
  | [] => Raise StopIteration
  | firstLine :: rest => Ok (firstLine, filter (line_kept firstLine) rest)
  end.

(** [DataSet.tryToAdd] *)
Definition tryToAdd {K : Type} `{PyHashable K}
    (dic : dict K pynum) (key : K) (val : pynum) : dict K pynum :=
  match dict_getitem dic key with
  | Ok x => dict_setitem dic key (py_add x val)
  | Raise _ => dict_setitem dic key val
  end.

(** The body of the loop of [csv_filter]. *)
Definition make_vacancy (inputValues : InputConect) (firstLine line : list string)
  : result Vacancy :=
  let newDict := dict_of (combine firstLine (map VStr line)) in
  name <- dict_getitem newDict "name" ;;
  index <- py_find name (professionName inputValues) ;;
  let newDict := dict_setitem newDict "is_needed" (VBool (-1 <? index)) in
  Vacancy_init newDict.

(** [DataSet.csv_filter]: [filterVacancies] and [necessaryVacancies]. *)
Definition csv_filter (inputValues : InputConect)
    (firstLine : list string) (otherLines : list (list string))
  : result (list Vacancy * list Vacancy) :=
  filterVacancies <- mapM (make_vacancy inputValues firstLine) otherLines ;;
  Ok (filterVacancies, filter (fun v => py_truthy (is_needed v)) filterVacancies).

(** [vacancies.dic["year"]] as a key. *)
Definition year_of (v : Vacancy) : result pykey :=
  y <- dict_getitem (dic v) "year" ;; Ok (hash_key y).

(** [DataSet.getYears]: [allYears]. *)
Definition getYears (filterVacancies : list Vacancy) : result (list pykey) :=
  years <- mapM year_of filterVacancies ;;
  list_sort (nodup pykey_eq_dec years).

(** The body of the loop of [getAverageSalary]. *)
Definition average_step {K : Type} `{PyHashable K}
    (sum keySalary : dict K pynum) (item : K * pynum) : result (dict K pynum) :=
  let (key, value) := item in
  if py_eqb value (PInt 0) then Ok (dict_setitem keySalary key (PInt 0))
  else
    s <- dict_getitem sum key ;;
    q <- py_truediv s value ;;
    Ok (dict_setitem keySalary key (PInt (math_floor q))).

(** [DataSet.getAverageSalary] *)
Definition getAverageSalary {K : Type} `{PyHashable K}
    (count sum : dict K pynum) : result (dict K pynum) :=
  foldM (average_step sum) (items count) [].

(** [DataSet.getSortedDict] *)
Definition getSortedDict {K : Type} `{PyHashable K}
    (keySalary : dict K pynum) : dict K pynum :=
  dict_of (firstn 10 (py_sorted py_ltb snd true (items keySalary))).

(** The body of the loop of [updateKeys]. *)
Definition fill_key (keyCount : dict pykey pynum) (key : pykey) : dict pykey pynum :=
  if negb (existsb (key_eqb key) (keys keyCount))
  then dict_setitem keyCount key (PInt 0)
  else keyCount.

(** [DataSet.updateKeys] *)
Definition updateKeys (allYears : list pykey) (keyCount : dict pykey pynum)
  : dict pykey pynum :=
  fold_left fill_key allYears keyCount.

(** The body of the first loop of [getKey]. *)
Definition accumulate_step (key_str : string)
    (acc : dict pykey pynum * dict pykey pynum) (v : Vacancy)
  : result (dict pykey pynum * dict pykey pynum) :=
  let (keySum, keyCount) := acc in
  k1 <- dict_getitem (dic v) key_str ;;
  let keySum := tryToAdd keySum (hash_key k1) (salaryRub (salary v)) in
  k2 <- dict_getitem (dic v) key_str ;;
  let keyCount := tryToAdd keyCount (hash_key k2) (PInt 1) in
  Ok (keySum, keyCount).

(** The first loop of [getKey]: [keySum] and [keyCount]. *)
Definition accumulate (vacancies : list Vacancy) (key_str : string)
  : result (dict pykey pynum * dict pykey pynum) :=
  foldM (accumulate_step key_str) vacancies ([], []).

(** The condition of the filter of [getKey] in area mode. *)
Definition share_kept (total : nat) (item : pykey * pynum) : result bool :=
  share <- py_truediv (snd item) (PInt (Z.of_nat total)) ;;
  Ok (py_gtb share (PFloat (1 # 100))).

(** [DataSet.getKey]: [keyAverageSalary] and [keyCount]. *)
Definition getKey (allYears : list pykey)
    (vacancies : list Vacancy) (key_str : string) (isArea : bool)
  : result (dict pykey pynum * dict pykey pynum) :=
  acc <- accumulate vacancies key_str ;;
  let (keySum, keyCount) := acc in
  if negb isArea then
    let keySum := updateKeys allYears keySum in
    let keyCount := updateKeys allYears keyCount in
    keyAverageSalary <- getAverageSalary keyCount keySum ;;
    Ok (keyAverageSalary, keyCount)
  else
    kept <- filterM (share_kept (List.length vacancies)) (items keyCount) ;;
    let keyCount := dict_of kept in
    keyAverageSalary <- getAverageSalary keyCount keySum ;;
    Ok (keyAverageSalary, keyCount).

Record DataSet : Type := {
  inputValues : InputConect;
  firstLine : list string;
  otherLines : list (list string);
  filterVacancies : list Vacancy;
  necessaryVacancies : list Vacancy;
  allYears : list pykey;
  yearSalary : dict pykey pynum;
  year_to_count : dict pykey pynum;
  yearSalary_needed : dict pykey pynum;
  yearCount : dict pykey pynum;
  areaSalary : dict pykey pynum;
  area_to_count : dict pykey pynum;
  areaPiece : dict pykey pynum
}.

Section Pipeline.
(** The builtin [round(x, ndigits)], on which no property below depends. *)
Variable py_round : pynum -> Z -> pynum.

(** The dict comprehension of [numberGraph]. *)
Definition area_shares (count_vacs : nat) (area_to_count : dict pykey pynum)
  : result (dict pykey pynum) :=
  pairs <- mapM (fun item =>
                   let (key, val) := (item : pykey * pynum) in
                   share <- py_truediv val (PInt (Z.of_nat count_vacs)) ;;
                   Ok (key, py_round share 4))
                (items area_to_count) ;;
  Ok (dict_of pairs).

(** [DataSet.__init__]: [csv_reader], [csv_filter], [getYears] and
    [numberGraph] on the rows of the input file. *)
Definition DataSet_init (file : csv_rows) : result DataSet :=
  inputValues <- InputConect_init file ;;
  read <- csv_reader file ;;
  let (firstLine, otherLines) := read in
  filtered <- csv_filter inputValues firstLine otherLines ;;
  let (filterVacancies, necessaryVacancies) := filtered in
  allYears <- getYears filterVacancies ;;
  let count_vacs := List.length filterVacancies in
  by_year <- getKey allYears filterVacancies "year" false ;;
  let (yearSalary, year_to_count) := by_year in
  by_year_needed <- getKey allYears necessaryVacancies "year" false ;;
  let (yearSalary_needed, yearCount) := by_year_needed in
  by_area <- getKey allYears filterVacancies "area_name" true ;;
  let (areaSalary, area_to_count) := by_area in
  let areaSalary := getSortedDict areaSalary in
  areaPiece <- area_shares count_vacs area_to_count ;;
  let areaPiece := getSortedDict areaPiece in
  Ok {| inputValues := inputValues;
        firstLine := firstLine;
        otherLines := otherLines;
        filterVacancies := filterVacancies;
        necessaryVacancies := necessaryVacancies;
        allYears := allYears;
        yearSalary := yearSalary;
        year_to_count := year_to_count;
        yearSalary_needed := yearSalary_needed;
        yearCount := yearCount;
        areaSalary := areaSalary;
        area_to_count := area_to_count;
        areaPiece := areaPiece |}.
End Pipeline.

(** ** [class Report]

    Of [generate_excel] the values written to the cells of the two sheets
    are modelled; fonts, borders and the saving of the file are not.  An
    [IndexError] is [None]. *)

(** The value of a cell. *)
Inductive cell : Type :=
| CNone
| CStr (s : string)
| CKey (k : pykey)
| CNum (n : pynum).

(** [list(d.values())] *)
Definition dict_values {K V : Type} (d : dict K V) : list V := map snd d.

Definition and_then {A B : Type} (m : option A) (k : A -> option B) : option B :=
  match m with
  | Some a => k a
  | None => None
  end.

Fixpoint for_each {A B : Type} (f : A -> option B) (l : list A) : option (list B) :=
  match l with
  | [] => Some []
  | x :: l' =>
      and_then (f x) (fun y => and_then (for_each f l') (fun ys => Some (y :: ys)))
  end.

Module Report.

Record t : Type := {
  inputValues : InputConect;
  yearSalary : dict pykey pynum;
  yearSalary_needed : dict pykey pynum;
  year_to_count : dict pykey pynum;
  yearCount : dict pykey pynum;
  areaSalary : dict pykey pynum;
  areaPiece : dict pykey pynum
}.

(** The first row of the sheet of the years. *)
Definition year_header (self : t) : list cell :=
  [ CStr "Год";
    CStr "Средняя зарплата";
    CStr ("Средняя зарплата - " ++ professionName (inputValues self));
    CStr "Количество вакансий";
    CStr ("Количество вакансий - " ++ professionName (inputValues self)) ].

(** The row that the first loop of [generate_excel] appends for [i]. *)
Definition year_row (self : t) (i : nat) : option (list cell) :=
  and_then (nth_error (keys (yearSalary self)) i) (fun year =>
  and_then (nth_error (dict_values (yearSalary self)) i) (fun first =>
  and_then (nth_error (dict_values (yearSalary_needed self)) i) (fun second =>
  and_then (nth_error (dict_values (year_to_count self)) i) (fun third =>
  and_then (nth_error (dict_values (yearCount self)) i) (fun fourth =>
  Some [CKey year; CNum first; CNum second; CNum third; CNum fourth]))))).

(** The first row of the sheet of the cities: [C1] is not written. *)
Definition area_header : list cell :=
  [ CStr "Город"; CStr "Уровень зарплат"; CNone; CStr "Город"; CStr "Доля вакансий" ].

(** The row that the second loop of [generate_excel] appends for [i]. *)
Definition area_row (self : t) (i : nat) : option (list cell) :=
  and_then (nth_error (keys (areaSalary self)) i) (fun city1 =>
  and_then (nth_error (dict_values (areaSalary self)) i) (fun salary =>
  and_then (nth_error (keys (areaPiece self)) i) (fun city2 =>
  and_then (nth_error (dict_values (areaPiece self)) i) (fun piece =>
  Some [CKey city1; CNum salary; CStr EmptyString; CKey city2; CNum piece])))).

(** [Report.generate_excel]: the rows of the two sheets. *)
Definition generate_excel (self : t) : option (list (list cell) * list (list cell)) :=
  and_then (for_each (year_row self) (seq 0 16)) (fun year_rows =>
  and_then (for_each (area_row self) (seq 0 10)) (fun area_rows =>
  Some (year_header self :: year_rows, area_header :: area_rows))).

Section Widths.
(** [len(str(cell.value))] *)
Variable cell_len : cell -> nat.

(** [l[i] = x] for an index [i] that [l] has. *)
Fixpoint list_set (i : nat) (x : nat) (l : list nat) : list nat :=
  match l, i with
  | [], _ => []
  | _ :: l', O => x :: l'
  | y :: l', S i' => y :: list_set i' x l'
  end.

(** The inner loop of [setSizeColumns] over the cells of column [i],
    from the cell of index [j] on. *)
Fixpoint widen (i j : nat) (col : list cell) (col_width : list nat)
  : option (list nat) :=
  match col with
  | [] => Some col_width
  | c :: rest =>
      if (j =? 0)%nat then widen i (S j) rest (col_width ++ [cell_len c])
      else
        and_then (nth_error col_width i) (fun w =>
        widen i (S j) rest
              (if (w <? cell_len c)%nat then list_set i (cell_len c) col_width
               else col_width))
  end.

(** The first loop of [setSizeColumns], from the column of index [i] on. *)
Fixpoint measure (i : nat) (columns : list (list cell)) (col_width : list nat)
  : option (list nat) :=
  match columns with
  | [] => Some col_width
  | col :: rest =>
      and_then (widen i 0 col col_width) (fun col_width => measure (S i) rest col_width)
  end.

(** [Report.setSizeColumns] on the columns of a sheet: the widths set,
    in the order of the column letters. *)
Definition setSizeColumns (columns : list (list cell)) : option (list nat) :=
  and_then (measure 0 columns []) (fun col_width =>
  Some (map (fun w => if (100 <? w)%nat then 100%nat else (w + 2)%nat) col_width)).
End Widths.

End Report.

(** [Report(...)] as [printGraph] makes it of the fields of a data set. *)
Definition report_of (ds : DataSet) : Report.t :=
  {| Report.inputValues := inputValues ds;
     Report.yearSalary := yearSalary ds;
     Report.yearSalary_needed := yearSalary_needed ds;
     Report.year_to_count := year_to_count ds;
     Report.yearCount := yearCount ds;
     Report.areaSalary := areaSalary ds;
     Report.areaPiece := areaPiece ds |}.

(** * The numbers of the program in binary64

    The definitions above compute with exact rationals: they give the
    keys, the counts and the order of the aggregates, on which rounding
    has no bearing.  The functions whose numeric results and failures are
    stated below are modelled here a second time, with the arithmetic of
    the program: an [int] is a [Z]; a [float] is an IEEE 754 binary64
    number, an operation on floats gives the float nearest to the exact
    result, the even one of two that are equally near, and an infinity
    beyond the largest float; a conversion of an [int] to a [float] raises
    [OverflowError] where the language does.  The sign of a zero is not
    kept: no operation of the program tells [0.0] from [-0.0]. *)

Module Binary64.

(** The exponent [e] with [2^e <= |q| < 2^(e+1)], for [q] other than 0. *)
Definition binade (q : Q) : Z :=
  let e := Z.log2 (Z.abs (Qnum q)) - Z.log2 (Zpos (Qden q)) in
  if Qle_bool (2 ^ e) (Qabs q) then e else e - 1.

(** The integer nearest to [q], the even one of two that are equally
    near. *)
Definition round_half_even (q : Q) : Z :=
  let f := Qfloor q in
  match (q - inject_Z f ?= 1 # 2)%Q with
  | Lt => f
  | Gt => f + 1
  | Eq => if Z.even f then f else f + 1
  end.

(** The exponent of the last of the 53 bits of a float around [q]; it is
    not below that of the least float. *)
Definition ulp_exponent (q : Q) : Z := Z.max (binade q - 52) (-1074).

(** The multiple of [2 ^ ulp_exponent q] nearest to [q]. *)
Definition nearest (q : Q) : Q :=
  (inject_Z (round_half_even (q / 2 ^ ulp_exponent q)) * 2 ^ ulp_exponent q)%Q.

(** The float nearest to [q], in lowest terms; an infinity when that is
    [2^1024] or more. *)
Definition round64 (q : Q) : pyfloat :=
  if Qeq_bool q 0 then Finite 0
  else if Qle_bool (2 ^ 1024) (Qabs (nearest q)) then Infinite (Qle_bool q 0)
  else Finite (Qred (nearest q)).

(** The largest float. *)
Definition max_float : Q := (inject_Z (2 ^ 53 - 1) * 2 ^ 971)%Q.

(** A number of the program. *)
Inductive num : Type :=
| Int (z : Z)
| Float (x : pyfloat).

(** [float(z)] for an int [z] *)
Definition float_of_int (z : Z) : result pyfloat :=
  match round64 (inject_Z z) with
  | Infinite _ => Raise OverflowError
  | x => Ok x
  end.

(** The operand of an operation on floats. *)
Definition to_float (a : num) : result pyfloat :=
  match a with
  | Int z => float_of_int z
  | Float x => Ok x
  end.

Definition is_zero (x : pyfloat) : bool :=
  match x with
  | Finite q => Qeq_bool q 0
  | _ => false
  end.

Definition is_negative (x : pyfloat) : bool :=
  match x with
  | Finite q => negb (Qle_bool 0 q)
  | Infinite negative => negative
  | NaN => false
  end.

(** [x + y] on floats *)
Definition float_add (x y : pyfloat) : pyfloat :=
  match x, y with
  | NaN, _ => NaN
  | _, NaN => NaN
  | Infinite a, Infinite b => if Bool.eqb a b then Infinite a else NaN
  | Infinite a, Finite _ => Infinite a
  | Finite _, Infinite b => Infinite b
  | Finite a, Finite b => round64 (a + b)
  end.

(** [x * y] on floats *)
Definition float_mul (x y : pyfloat) : pyfloat :=
  match x, y with
  | NaN, _ => NaN
  | _, NaN => NaN
  | Finite a, Finite b => round64 (a * b)
  | _, _ =>
      if is_zero x || is_zero y then NaN
      else Infinite (xorb (is_negative x) (is_negative y))
  end.

(** [x / y] on floats *)
Definition float_div (x y : pyfloat) : result pyfloat :=
  if is_zero y then Raise ZeroDivisionError
  else
    Ok match x, y with
       | NaN, _ => NaN
       | _, NaN => NaN
       | Infinite _, Infinite _ => NaN
       | Infinite a, Finite _ => Infinite (xorb a (is_negative y))
       | Finite _, Infinite _ => Finite 0
       | Finite a, Finite b => round64 (a / b)
       end.

(** [a + b] *)
Definition py_add (a b : num) : result num :=
  match a, b with
  | Int x, Int y => Ok (Int (x + y))
  | _, _ => x <- to_float a ;; y <- to_float b ;; Ok (Float (float_add x y))
  end.

(** [a * b] *)
Definition py_mul (a b : num) : result num :=
  match a, b with
  | Int x, Int y => Ok (Int (x * y))
  | _, _ => x <- to_float a ;; y <- to_float b ;; Ok (Float (float_mul x y))
  end.

(** [a / b]: of two ints the float nearest to the quotient, otherwise
    the quotient of the operands as floats. *)
Definition py_truediv (a b : num) : result num :=
  match a, b with
  | Int x, Int y =>
      if y =? 0 then Raise ZeroDivisionError
      else
        match round64 (inject_Z x / inject_Z y) with
        | Infinite _ => Raise OverflowError
        | q => Ok (Float q)
        end
  | _, _ => x <- to_float a ;; y <- to_float b ;; q <- float_div x y ;; Ok (Float q)
  end.

(** [math.floor(a)] *)
Definition math_floor (a : num) : result Z :=
  match a with
  | Int z => Ok z
  | Float (Finite q) => Ok (Qfloor q)
  | Float (Infinite _) => Raise OverflowError
  | Float NaN => Raise ValueError
  end.

(** [a == 0] *)
Definition py_eq_zero (a : num) : bool :=
  match a with
  | Int z => z =? 0
  | Float x => is_zero x
  end.

(** What the text of a number denotes: [float_of_str] as defined above,
    outside this module. *)
Definition text_value (s : string) : result pyfloat := float_of_str s.

(** [float(s)] for a string [s]: the float nearest to the number that
    the text denotes. *)
Definition float_of_str (s : string) : result pyfloat :=
  match text_value s with
  | Ok (Finite q) => Ok (round64 q)
  | r => r
  end.

(** [float(v)] *)
Definition py_float (v : pyval) : result pyfloat :=
  match v with
  | VStr s => float_of_str s
  | VInt z => float_of_int z
  | VBool b => Ok (Finite (inject_Z (Z.b2z b)))
  end.

(** A float of the source text. *)
Definition literal (q : Q) : num := Float (round64 q).

(** [currency_to_rub] *)
Definition currency_to_rub : dict pykey num :=
  [ (KStr "AZN", Int 35);
    (KStr "BYR", literal (2391 # 100));
    (KStr "EUR", literal (599 # 10));
    (KStr "GEL", literal (1087 # 50));
    (KStr "KGS", literal (19 # 25));
    (KStr "KZT", literal (13 # 100));
    (KStr "RUR", Int 1);
    (KStr "UAH", literal (41 # 25));
    (KStr "USD", literal (3033 # 50));
    (KStr "UZS", literal (11 # 2000)) ].

Record Salary : Type := {
  salary_from : Z;
  salary_to : Z;
  salary_currency : pyval;
  averageSalary : num;
  salaryRub : num
}.

(** [Salary.__init__] *)
Definition Salary_init (dic : dict string pyval) : result Salary :=
  raw_from <- dict_getitem dic "salary_from" ;;
  float_from <- py_float raw_from ;;
  salary_from <- math_floor (Float float_from) ;;
  raw_to <- dict_getitem dic "salary_to" ;;
  float_to <- py_float raw_to ;;
  salary_to <- math_floor (Float float_to) ;;
  salary_currency <- dict_getitem dic "salary_currency" ;;
  total <- py_add (Int salary_to) (Int salary_from) ;;
  averageSalary <- py_truediv total (Int 2) ;;
  rate <- dict_getitem currency_to_rub (hash_key salary_currency) ;;
  salaryRub <- py_mul rate averageSalary ;;
  Ok {| salary_from := salary_from;
        salary_to := salary_to;
        salary_currency := salary_currency;
        averageSalary := averageSalary;
        salaryRub := salaryRub |}.

Record Vacancy : Type := {
  dic : dict string pyval;
  salary : Salary;
  is_needed : pyval
}.

(** [Vacancy.__init__] *)
Definition Vacancy_init (d : dict string pyval) : result Vacancy :=
  salary <- Salary_init d ;;
  published_at <- dict_getitem d "published_at" ;;
  prefix <- py_slice_to 4 published_at ;;
  year <- py_int prefix ;;
  let d := dict_setitem d "year" (VInt year) in
  is_needed <- dict_getitem d "is_needed" ;;
  Ok {| dic := d; salary := salary; is_needed := is_needed |}.

(** The body of the loop of [csv_filter]. *)
Definition make_vacancy (inputValues : InputConect) (firstLine line : list string)
  : result Vacancy :=
  let newDict := dict_of (combine firstLine (map VStr line)) in
  name <- dict_getitem newDict "name" ;;
  index <- py_find name (professionName inputValues) ;;
  let newDict := dict_setitem newDict "is_needed" (VBool (-1 <? index)) in
  Vacancy_init newDict.

(** [DataSet.csv_filter]: [filterVacancies] and [necessaryVacancies]. *)
Definition csv_filter (inputValues : InputConect)
    (firstLine : list string) (otherLines : list (list string))
  : result (list Vacancy * list Vacancy) :=
  filterVacancies <- mapM (make_vacancy inputValues firstLine) otherLines ;;
  Ok (filterVacancies, filter (fun v => py_truthy (is_needed v)) filterVacancies).

(** [DataSet.tryToAdd]: the [except] takes over whatever
    [dic[key] += val] raises. *)
Definition tryToAdd {K : Type} `{PyHashable K}
    (dic : dict K num) (key : K) (val : num) : dict K num :=
  match (x <- dict_getitem dic key ;; py_add x val) with
  | Ok y => dict_setitem dic key y
  | Raise _ => dict_setitem dic key val
  end.

(** The body of the loop of [getAverageSalary]. *)
Definition average_step {K : Type} `{PyHashable K}
    (sum keySalary : dict K num) (item : K * num) : result (dict K num) :=
  let (key, value) := item in
  if py_eq_zero value then Ok (dict_setitem keySalary key (Int 0))
  else
    s <- dict_getitem sum key ;;
    q <- py_truediv s value ;;
    a <- math_floor q ;;
    Ok (dict_setitem keySalary key (Int a)).

(** [DataSet.getAverageSalary] *)
Definition getAverageSalary {K : Type} `{PyHashable K}
    (count sum : dict K num) : result (dict K num) :=
  foldM (average_step sum) (items count) [].

(** The body of the loop of [updateKeys]. *)
Definition fill_key (keyCount : dict pykey num) (key : pykey) : dict pykey num :=
  if negb (existsb (key_eqb key) (keys keyCount))
  then dict_setitem keyCount key (Int 0)
  else keyCount.

(** [DataSet.updateKeys] *)
Definition updateKeys (allYears : list pykey) (keyCount : dict pykey num)
  : dict pykey num :=
  fold_left fill_key allYears keyCount.

(** The body of the first loop of [getKey]. *)
Definition accumulate_step (key_str : string)
    (acc : dict pykey num * dict pykey num) (v : Vacancy)
  : result (dict pykey num * dict pykey num) :=
  let (keySum, keyCount) := acc in
  k1 <- dict_getitem (dic v) key_str ;;
  let keySum := tryToAdd keySum (hash_key k1) (salaryRub (salary v)) in
  k2 <- dict_getitem (dic v) key_str ;;
  let keyCount := tryToAdd keyCount (hash_key k2) (Int 1) in
  Ok (keySum, keyCount).

(** The first loop of [getKey]: [keySum] and [keyCount]. *)
Definition accumulate (vacancies : list Vacancy) (key_str : string)
  : result (dict pykey num * dict pykey num) :=
  foldM (accumulate_step key_str) vacancies ([], []).

(** [x > y] on floats *)
Definition float_gt (x y : pyfloat) : bool :=
  match x, y with
  | NaN, _ => false
  | _, NaN => false
  | Finite a, Finite b => negb (Qle_bool a b)
  | Finite _, Infinite negative => negative
  | Infinite negative, Finite _ => negb negative
  | Infinite a, Infinite b => negb a && b
  end.

(** The value by which a number is compared: an int is compared with a
    float as it is, without a conversion. *)
Definition compared (a : num) : pyfloat :=
  match a with
  | Int z => Finite (inject_Z z)
  | Float x => x
  end.

(** [a > b] *)
Definition py_gt (a b : num) : bool := float_gt (compared a) (compared b).

(** The condition of the filter of [getKey] in area mode. *)
Definition share_kept (total : nat) (item : pykey * num) : result bool :=
  share <- py_truediv (snd item) (Int (Z.of_nat total)) ;;
  Ok (py_gt share (literal (1 # 100))).

(** [DataSet.getKey]: [keyAverageSalary] and [keyCount]. *)
Definition getKey (allYears : list pykey)
    (vacancies : list Vacancy) (key_str : string) (isArea : bool)
  : result (dict pykey num * dict pykey num) :=
  acc <- accumulate vacancies key_str ;;
  let (keySum, keyCount) := acc in
  if negb isArea then
    let keySum := updateKeys allYears keySum in
    let keyCount := updateKeys allYears keyCount in
    keyAverageSalary <- getAverageSalary keyCount keySum ;;
    Ok (keyAverageSalary, keyCount)
  else
    kept <- filterM (share_kept (List.length vacancies)) (items keyCount) ;;
    let keyCount := dict_of kept in
    keyAverageSalary <- getAverageSalary keyCount keySum ;;
    Ok (keyAverageSalary, keyCount).

(** ** The records of a key

    The words in which the results of [getKey] are stated. *)

(** The key that a record has under a column. *)
Definition key_of (key_str : string) (v : Vacancy) : option pykey :=
  option_map hash_key (dict_get (dic v) key_str).

(** The keys of the records, in the order of the records. *)
Fixpoint record_keys (key_str : string) (vacancies : list Vacancy) : list pykey :=
  match vacancies with
  | [] => []
  | v :: vacancies' =>
      match key_of key_str v with
      | Some k => k :: record_keys key_str vacancies'
      | None => record_keys key_str vacancies'
      end
  end.

(** The records whose key is [k]. *)
Definition group (key_str : string) (k : pykey) (vacancies : list Vacancy)
  : list Vacancy :=
  filter (fun v => match key_of key_str v with
                   | Some k' => pykey_eqb k' k
                   | None => false
                   end) vacancies.

(** What a key holds after [val] is added to what it held, if anything:
    the sum, or [val] when the addition raises. *)
Definition added (held : option num) (val : num) : num :=
  match held with
  | Some x => match py_add x val with
              | Ok y => y
              | Raise _ => val
              end
  | None => val
  end.

(** The salaries in roubles of the records, added one after the other in
    the order of the records; nothing for no record. *)
Definition sum_rub (vacancies : list Vacancy) : option num :=
  fold_left (fun held v => Some (added held (salaryRub (salary v)))) vacancies None.

(** The share of [n] of [total] records, as the float that the division
    gives, is above the float [0.01]. *)
Definition large_share (total n : nat) : bool :=
  float_gt (round64 (inject_Z (Z.of_nat n) / inject_Z (Z.of_nat total)))
           (round64 (1 # 100)).

(** The vacancies that [csv_reader] and [csv_filter] make of a file. *)
Definition vacancies_of (file : csv_rows) : list Vacancy :=
  match (inputValues <- InputConect_init file ;;
         read <- csv_reader file ;;
         csv_filter inputValues (fst read) (snd read))
  with
  | Ok (filterVacancies, _) => filterVacancies
  | Raise _ => []
  end.

End Binary64.

(** * Vocabulary of the properties *)

(** A row passes the ingestion filter: no empty field, as many fields as
    the header. *)
Definition row_accepted (header row : list string) : Prop :=
  ~ In EmptyString row /\ List.length row = List.length header.

Definition row_accepted_dec (header row : list string)
  : {row_accepted header row} + {~ row_accepted header row}.
Proof.
  unfold row_accepted.
  destruct (in_dec string_dec EmptyString row) as [Hin|Hin].
  - right. intros [Hno _]. exact (Hno Hin).
  - destruct (Nat.eq_dec (List.length row) (List.length header)) as [Hl|Hl].
    + left. split; assumption.
    + right. intros [_ Hlen]. exact (Hl Hlen).
Defined.

(** The average of a key: [floor(sum[key] / count[key])], or 0 for a
    count of 0. *)
Definition average_of {K : Type} `{PyHashable K}
    (sum : dict K pynum) (key : K) (count : pynum) : pynum :=
  if py_eqb count (PInt 0) then PInt 0
  else
    match dict_get sum key with
    | Some s => PInt (Qfloor (num_to_Q s / num_to_Q count))
    | None => PInt 0
    end.

(** The entry of the average map for an entry of the count map. *)
Definition averaged {K : Type} `{PyHashable K}
    (sum : dict K pynum) (item : K * pynum) : K * pynum :=
  (fst item, average_of sum (fst item) (snd item)).

(** Entries by descending value. *)
Definition descending {K : Type} (d : list (K * pynum)) : Prop :=
  StronglySorted (fun a b => (num_to_Q (snd b) <= num_to_Q (snd a))%Q) d.

(** The entries of [d] whose value equals [v], in the order of [d]. *)
Definition with_value {K : Type} (v : pynum) (d : list (K * pynum)) : list (K * pynum) :=
  filter (fun e => py_eqb (snd e) v) d.

(** What [Vacancy.__init__] leaves in the row of a vacancy: an int under
    ["year"]. *)
Definition has_year (v : Vacancy) : Prop :=
  exists y, dict_get (dic v) "year" = Some (VInt y).

(** Keys in strictly ascending order. *)
Definition ascending_keys (d : dict pykey pynum) : Prop :=
  StronglySorted (fun a b => pykey_ltb a b = true) (keys d).

(** A string of decimal digits and its value. *)
Definition is_digit (c : ascii) : bool :=
  match digit_of c with Some _ => true | None => false end.

Definition all_digits (s : string) : bool :=
  forallb is_digit (list_ascii_of_string s).

Definition digit_step (acc : Z) (c : ascii) : Z :=
  10 * acc + match digit_of c with Some d => d | None => 0 end.

Definition decimal_value (s : string) : Z :=
  fold_left digit_step (list_ascii_of_string s) 0.

(** A character that no integer literal contains. *)
Definition not_in_int_literal (c : ascii) : bool :=
  negb (is_digit c || is_space c
        || Ascii.eqb c "+"%char || Ascii.eqb c "-"%char || Ascii.eqb c "_"%char).

(** ** Sample inputs *)

Definition sample_header : list string :=
  ["name"; "salary_from"; "salary_to"; "salary_currency"; "area_name"; "published_at"].

(** Two rows in the order of their dates; only the second is of the
    profession looked for. *)
Definition sample_file : csv_rows :=
  [ sample_header;
    ["Программист"; "100"; "200"; "RUR"; "Москва"; "2007-12-03T17:34:36+0300"];
    ["Аналитик"; "100"; "200"; "EUR"; "Казань"; "2008-12-03T17:34:36+0300"] ].

(** The same two rows, the later one first. *)
Definition reversed_file : csv_rows :=
  [ sample_header;
    ["Аналитик"; "100"; "200"; "EUR"; "Казань"; "2008-12-03T17:34:36+0300"];
    ["Программист"; "100"; "200"; "RUR"; "Москва"; "2007-12-03T17:34:36+0300"] ].

(** The vacancies that [csv_reader] and [csv_filter] make of a file. *)
Definition vacancies_of (file : csv_rows) : list Vacancy :=
  match (inputValues <- InputConect_init file ;;
         read <- csv_reader file ;;
         csv_filter inputValues (fst read) (snd read))
  with
  | Ok (filterVacancies, _) => filterVacancies
  | Raise _ => []
  end.

(** Hundred rows, of which one is in Kazan: a share of exactly 0.01. *)
Definition crowded_file : csv_rows :=
  sample_header
  :: repeat ["Программист"; "100"; "200"; "RUR"; "Москва"; "2007-12-03T17:34:36+0300"] 99
  ++ [["Аналитик"; "100"; "200"; "EUR"; "Казань"; "2008-12-03T17:34:36+0300"]].

(** The map of the doctest of [getSortedDict]. *)
Definition twelve_entries : dict string pynum :=
  [("1", PInt 1); ("2", PInt 2); ("3", PInt 3); ("4", PInt 4);
   ("5", PInt 5); ("6", PInt 6); ("7", PInt 7); ("8", PInt 8);
   ("9", PInt 9); ("10", PInt 10); ("11", PInt 11); ("12", PInt 12)].

(** ** Vocabulary of the further properties *)

(** The key that a record has under a column. *)
Definition key_of (key_str : string) (v : Vacancy) : option pykey :=
  option_map hash_key (dict_get (dic v) key_str).

(** The keys of the records, in the order of the records. *)
Fixpoint record_keys (key_str : string) (vacancies : list Vacancy) : list pykey :=
  match vacancies with
  | [] => []
  | v :: vacancies' =>
      match key_of key_str v with
      | Some k => k :: record_keys key_str vacancies'
      | None => record_keys key_str vacancies'
      end
  end.

(** The records whose key is [k]. *)
Definition group (key_str : string) (k : pykey) (vacancies : list Vacancy)
  : list Vacancy :=
  filter (fun v => match key_of key_str v with
                   | Some k' => pykey_eqb k' k
                   | None => false
                   end) vacancies.

(** The sum of the salaries in roubles of the records. *)
Definition sum_rub (vacancies : list Vacancy) : Q :=
  fold_right (fun v acc => (num_to_Q (salaryRub (salary v)) + acc)%Q) 0%Q vacancies.

(** What a count map holds for a key that [n] records have. *)
Definition count_entry (n : nat) : option pynum :=
  match n with
  | O => None
  | S _ => Some (PInt (Z.of_nat n))
  end.

(** The floor of the mean salary of the records of a key, 0 for none. *)
Definition group_average (key_str : string) (k : pykey) (vacancies : list Vacancy)
  : pynum :=
  match group key_str k vacancies with
  | [] => PInt 0
  | g => PInt (Qfloor (sum_rub g / inject_Z (Z.of_nat (List.length g))))
  end.

(** The keys of [l] that are not among [seen], each once, in the order
    in which [l] first has them. *)
Fixpoint fresh (seen l : list pykey) : list pykey :=
  match l with
  | [] => []
  | k :: l' =>
      if existsb (pykey_eqb k) seen then fresh seen l'
      else k :: fresh (seen ++ [k]) l'
  end.

(** [sub] occurs in [s]. *)
Definition is_substring (sub s : string) : Prop :=
  exists before after, s = (before ++ sub ++ after)%string.

(** The width that [setSizeColumns] sets for a column whose longest cell
    has [n] characters. *)
Definition column_width (n : nat) : nat :=
  if (100 <? n)%nat then 100%nat else (n + 2)%nat.

(** A key that [n] of [total] records have has a share above 0.01. *)
Definition large_share (total n : nat) : bool :=
  negb (Qle_bool (inject_Z (Z.of_nat n) / inject_Z (Z.of_nat total)) (1 # 100)).

(** The sum of the counts of a count map. *)
Definition total_count {K : Type} (d : list (K * pynum)) : Z :=
  fold_right (fun item acc => math_floor (snd item) + acc) 0 d.

(** The input values that [InputConect()] makes. *)
Definition sample_input : InputConect :=
  {| fileName := "vacancies_by_year.csv";
     professionName := "Аналитик";
     TableOrPdf := "Вакансии" |}.

(** A data set of no rows. *)
Definition empty_data_set : DataSet :=
  {| inputValues := sample_input;
     firstLine := [];
     otherLines := [];
     filterVacancies := [];
     necessaryVacancies := [];
     allYears := [];
     yearSalary := [];
     year_to_count := [];
     yearSalary_needed := [];
     yearCount := [];
     areaSalary := [];
     area_to_count := [];
     areaPiece := [] |}.

(** The data set that [DataSet.__init__] makes of a file, with a [round]
    that leaves its argument as it is. *)
Definition data_set_of (file : csv_rows) : DataSet :=
  match DataSet_init (fun x _ => x) file with
  | Ok ds => ds
  | Raise _ => empty_data_set
  end.

(** Sixteen rows of sixteen years and ten cities, in the order of their
    dates; the last two are not of the profession looked for. *)
Definition sixteen_years_file : csv_rows :=
  sample_header
  :: map (fun row : string * string * string =>
            let '(name, city, year) := row in
            [name; "100"; "200"; "RUR"; city; (year ++ "-12-03T17:34:36+0300")%string])
         [ ("Аналитик", "Москва", "2007"); ("Аналитик", "Казань", "2008");
           ("Аналитик", "Самара", "2009"); ("Аналитик", "Пермь", "2010");
           ("Аналитик", "Уфа", "2011"); ("Аналитик", "Омск", "2012");
           ("Аналитик", "Тула", "2013"); ("Аналитик", "Сочи", "2014");
           ("Аналитик", "Томск", "2015"); ("Аналитик", "Курск", "2016");
           ("Аналитик", "Москва", "2017"); ("Аналитик", "Казань", "2018");
           ("Аналитик", "Самара", "2019"); ("Аналитик", "Пермь", "2020");
           ("Программист", "Уфа", "2021"); ("Программист", "Омск", "2022") ].

(** The rows that [generate_excel] writes, none when it fails. *)
Definition sheets_of (self : Report.t) : list (list cell) * list (list cell) :=
  match Report.generate_excel self with
  | Some sheets => sheets
  | None => ([], [])
  end.

(** The row that the loop of [csv_filter] makes of a line. *)
Definition row_of (header line : list string) : dict string pyval :=
  dict_of (combine header (map VStr line)).

(** ** Vocabulary of the properties in binary64 *)

(** A text of ASCII characters: what [int()] and [float()] are modelled
    on, and where a character is a byte. *)
Definition is_ascii (s : string) : bool :=
  forallb (fun c => (N_of_ascii c <? 128)%N) (list_ascii_of_string s).

Definition ascii_val (v : pyval) : bool :=
  match v with
  | VStr s => is_ascii s
  | _ => true
  end.

(** The entry of the average map for an entry of the count map. *)
Definition average_entry {K : Type} `{PyHashable K}
    (sum : dict K Binary64.num) (item : K * Binary64.num)
  : result (K * Binary64.num) :=
  let (key, value) := item in
  if Binary64.py_eq_zero value then Ok (key, Binary64.Int 0)
  else
    s <- dict_getitem sum key ;;
    q <- Binary64.py_truediv s value ;;
    a <- Binary64.math_floor q ;;
    Ok (key, Binary64.Int a).

(** The row of the examples of [Salary]: bounds 100.9 and 201.5 in EUR. *)
Definition euro_row : dict string pyval :=
  [("salary_from", VStr "100.9"); ("salary_to", VStr "201.5");
   ("salary_currency", VStr "EUR")].

(** A row published at ["2007-12-03T17:34:36+0300"]. *)
Definition dated_row : dict string pyval :=
  [("salary_from", VStr "100"); ("salary_to", VStr "200");
   ("salary_currency", VStr "RUR");
   ("published_at", VStr "2007-12-03T17:34:36+0300");
   ("is_needed", VBool false)].

(** The salary of [dated_row]. *)
Definition dated_salary : Binary64.Salary :=
  {| Binary64.salary_from := 100;
     Binary64.salary_to := 200;
     Binary64.salary_currency := VStr "RUR";
     Binary64.averageSalary := Binary64.Float (Finite 150);
     Binary64.salaryRub := Binary64.Float (Finite 150) |}.

(** A line of which [csv_filter] makes a vacancy: its row has a name,
    salary bounds that [float] reads as finite floats, a currency of the
    table and a date whose first 4 characters [int] reads. *)
Definition accepted (header line : list string) : Prop :=
  let row := row_of header line in
  dict_get row "name" <> None
  /\ (exists v f, dict_get row "salary_from" = Some v
                  /\ Binary64.py_float v = Ok (Finite f))
  /\ (exists v t, dict_get row "salary_to" = Some v
                  /\ Binary64.py_float v = Ok (Finite t))
  /\ (exists c, dict_get row "salary_currency" = Some c
                /\ dict_contains Binary64.currency_to_rub (hash_key c) = true)
  /\ (exists s y, dict_get row "published_at" = Some (VStr s)
                  /\ int_of_str (str_take 4 s) = Ok y).

(** A line whose salary bounds and whose first 4 characters of the date
    are ASCII text. *)
Definition ascii_fields (header line : list string) : Prop :=
  let row := row_of header line in
  (forall v, dict_get row "salary_from" = Some v -> ascii_val v = true)
  /\ (forall v, dict_get row "salary_to" = Some v -> ascii_val v = true)
  /\ (forall s, dict_get row "published_at" = Some (VStr s) ->
                is_ascii (str_take 4 s) = true).

(** What the construction of a vacancy of a line can raise. *)
Definition row_error (e : exn) : Prop :=
  e = KeyError \/ e = ValueError \/ e = OverflowError.


(** * Properties *)

(** ** The result monad *)

Lemma bind_Ok {A B : Type} (m : result A) (k : A -> result B) (b : B) :
  bind m k = Ok b -> exists a, m = Ok a /\ k a = Ok b.
Proof.
  destruct m as [a|e]; simpl; intros Hb; [exists a; auto | discriminate].
Qed.

Lemma mapM_Ok_in {A B : Type} (f : A -> result B) (l : list A) (ys : list B) :
  mapM f l = Ok ys -> forall x y, In x l -> f x = Ok y -> In y ys.
Proof.
  revert ys. induction l as [|a l IH]; intros ys Hm x y Hin Hfx.
  - destruct Hin.
  - simpl in Hm.
    apply bind_Ok in Hm as (b & Hfa & Hm).
    apply bind_Ok in Hm as (bs & Hbs & Hm).
    injection Hm as <-.
    destruct Hin as [->|Hin].
    + left. congruence.
    + right. eapply IH; eauto.
Qed.

Lemma mapM_Ok_all {A B : Type} (f : A -> result B) (l : list A) (ys : list B) :
  mapM f l = Ok ys -> Forall (fun x => exists y, f x = Ok y) l.
Proof.
  revert ys. induction l as [|a l IH]; intros ys Hm; [constructor|].
  simpl in Hm.
  apply bind_Ok in Hm as (b & Hfa & Hm).
  apply bind_Ok in Hm as (bs & Hbs & Hm).
  constructor; [exists b; exact Hfa | eapply IH; eauto].
Qed.

Lemma mapM_Ok_Forall {A B : Type} (f : A -> result B) (P : B -> Prop)
    (l : list A) (ys : list B) :
  (forall x y, f x = Ok y -> P y) -> mapM f l = Ok ys -> Forall P ys.
Proof.
  intros HP. revert ys. induction l as [|a l IH]; intros ys Hm; simpl in Hm.
  - injection Hm as <-. constructor.
  - apply bind_Ok in Hm as (b & Hfa & Hm).
    apply bind_Ok in Hm as (bs & Hbs & Hm).
    injection Hm as <-. constructor; eauto.
Qed.

Lemma filterM_ok {A : Type} (p : A -> result bool) (q : A -> bool) (l : list A) :
  (forall x, In x l -> p x = Ok (q x)) -> filterM p l = Ok (filter q l).
Proof.
  induction l as [|x l IH]; intros Hp; simpl; [reflexivity|].
  rewrite (Hp x) by (left; reflexivity). cbn [bind].
  rewrite IH by (intros y Hy; apply Hp; right; exact Hy).
  reflexivity.
Qed.

(** ** Dictionaries *)

Section DictFacts.
Context {K V : Type} `{PyHashable K}.
Implicit Types (d : dict K V) (k : K) (v : V).

Lemma key_eqb_refl k : key_eqb k k = true.
Proof. apply key_eqb_eq. reflexivity. Qed.

Lemma key_eqb_neq k k' : k <> k' -> key_eqb k k' = false.
Proof.
  intros Hne. destruct (key_eqb k k') eqn:E; [|reflexivity].
  apply key_eqb_eq in E. contradiction.
Qed.

Lemma key_eq_dec k k' : {k = k'} + {k <> k'}.
Proof.
  destruct (key_eqb k k') eqn:E.
  - left. apply key_eqb_eq. exact E.
  - right. intros ->. rewrite key_eqb_refl in E. discriminate.
Qed.

Lemma dict_get_None d k : dict_get d k = None <-> ~ In k (keys d).
Proof.
  induction d as [|[k' v'] d IH]; simpl.
  - tauto.
  - destruct (key_eqb k k') eqn:E.
    + apply key_eqb_eq in E. subst. split; [discriminate | tauto].
    + rewrite IH. split.
      * intros Hn [->|Hin]; [rewrite key_eqb_refl in E; discriminate | tauto].
      * tauto.
Qed.

Lemma dict_get_Some_in d k v : dict_get d k = Some v -> In (k, v) d.
Proof.
  induction d as [|[k' v'] d IH]; simpl; [discriminate|].
  destruct (key_eqb k k') eqn:E.
  - apply key_eqb_eq in E. intros [= ->]. left. congruence.
  - auto.
Qed.

Lemma in_dict_get d k v : NoDup (keys d) -> In (k, v) d -> dict_get d k = Some v.
Proof.
  induction d as [|[k' v'] d IH]; simpl; [tauto|].
  intros Hnd [Heq|Hin].
  - injection Heq as -> ->. rewrite key_eqb_refl. reflexivity.
  - inversion Hnd as [|? ? Hnotin Hnd']; subst.
    rewrite key_eqb_neq.
    + auto.
    + intros ->. apply Hnotin. change (In k' (keys d)).
      apply in_map_iff. exists (k', v). auto.
Qed.

Lemma contains_keys d k : existsb (key_eqb k) (keys d) = dict_contains d k.
Proof.
  unfold dict_contains.
  induction d as [|[k' v'] d IH]; simpl; [reflexivity|].
  destruct (key_eqb k k'); simpl; auto.
Qed.

Lemma dict_get_setitem_same d k v : dict_get (dict_setitem d k v) k = Some v.
Proof.
  induction d as [|[k' v'] d IH]; simpl.
  - rewrite key_eqb_refl. reflexivity.
  - destruct (key_eqb k k') eqn:E; simpl; rewrite E; auto.
Qed.

Lemma dict_get_setitem_other d k k' v :
  k' <> k -> dict_get (dict_setitem d k v) k' = dict_get d k'.
Proof.
  intros Hne. induction d as [|[k0 v0] d IH]; simpl.
  - rewrite key_eqb_neq by assumption. reflexivity.
  - destruct (key_eqb k k0) eqn:E; simpl.
    + apply key_eqb_eq in E. subst k0.
      rewrite key_eqb_neq by assumption. reflexivity.
    + rewrite IH. reflexivity.
Qed.

Lemma setitem_present d k v x :
  dict_get d k = Some x -> keys (dict_setitem d k v) = keys d.
Proof.
  induction d as [|[k' v'] d IH]; simpl; [discriminate|].
  destruct (key_eqb k k') eqn:E; simpl; [reflexivity|].
  intros Hg. f_equal. auto.
Qed.

Lemma setitem_absent d k v :
  dict_get d k = None -> dict_setitem d k v = d ++ [(k, v)].
Proof.
  induction d as [|[k' v'] d IH]; simpl; [reflexivity|].
  destruct (key_eqb k k') eqn:E; [discriminate|].
  intros Hg. f_equal. auto.
Qed.

Lemma keys_app (d d' : dict K V) : keys (d ++ d') = keys d ++ keys d'.
Proof. apply map_app. Qed.

Lemma NoDup_keys_setitem d k v :
  NoDup (keys d) -> NoDup (keys (dict_setitem d k v)).
Proof.
  intros Hnd. destruct (dict_get d k) as [x|] eqn:E.
  - rewrite (setitem_present _ _ _ _ E). exact Hnd.
  - rewrite (setitem_absent _ _ _ E), keys_app. simpl.
    apply NoDup_app; [exact Hnd | repeat constructor; simpl; tauto |].
    intros a Ha [<-|[]]. apply dict_get_None in E. contradiction.
Qed.

(** [dict(pairs)] keeps pairs with distinct keys as they are. *)
Lemma dict_of_from (pairs : list (K * V)) (d : dict K V) :
  NoDup (keys (d ++ pairs)) ->
  fold_left (fun d kv => dict_setitem d (fst kv) (snd kv)) pairs d = d ++ pairs.
Proof.
  revert d. induction pairs as [|[k v] pairs IH]; intros d Hnd; simpl.
  - rewrite app_nil_r. reflexivity.
  - rewrite setitem_absent.
    + rewrite IH; rewrite <- app_assoc; [reflexivity | exact Hnd].
    + apply dict_get_None. intros Hin.
      rewrite keys_app in Hnd. simpl in Hnd.
      apply NoDup_remove_2 in Hnd. apply Hnd.
      apply in_or_app. left. exact Hin.
Qed.

Lemma dict_of_nodup (pairs : list (K * V)) :
  NoDup (keys pairs) -> dict_of pairs = pairs.
Proof. intros Hnd. unfold dict_of. rewrite dict_of_from; auto. Qed.
End DictFacts.

Section NumericDictFacts.
Context {K : Type} `{PyHashable K}.

Lemma keys_tryToAdd (d : dict K pynum) (k : K) (v : pynum) :
  keys (tryToAdd d k v) = if dict_contains d k then keys d else keys d ++ [k].
Proof.
  unfold tryToAdd, dict_getitem, dict_contains.
  destruct (dict_get d k) as [x|] eqn:E.
  - apply (setitem_present _ _ _ _ E).
  - rewrite (setitem_absent _ _ _ E), keys_app. reflexivity.
Qed.

Lemma dict_contains_keys (d d' : dict K pynum) (k : K) :
  keys d = keys d' -> dict_contains d k = dict_contains d' k.
Proof.
  intros Hk. rewrite <- !contains_keys, Hk. reflexivity.
Qed.

Lemma keys_tryToAdd_same (d d' : dict K pynum) (k : K) (v v' : pynum) :
  keys d = keys d' -> keys (tryToAdd d k v) = keys (tryToAdd d' k v').
Proof.
  intros Hk. rewrite !keys_tryToAdd, (dict_contains_keys d d' k Hk), Hk.
  reflexivity.
Qed.

Lemma NoDup_keys_tryToAdd (d : dict K pynum) (k : K) (v : pynum) :
  NoDup (keys d) -> NoDup (keys (tryToAdd d k v)).
Proof.
  unfold tryToAdd. destruct (dict_getitem d k); apply NoDup_keys_setitem.
Qed.

Lemma dict_contains_in (d : dict K pynum) (k : K) :
  dict_contains d k = true <-> In k (keys d).
Proof.
  unfold dict_contains. pose proof (dict_get_None d k) as Hn.
  destruct (dict_get d k).
  - split; [|reflexivity]. intros _.
    destruct (in_dec key_eq_dec k (keys d)) as [Hin|Hout]; [exact Hin|].
    apply Hn in Hout. discriminate.
  - split; [discriminate|]. intros Hin. exfalso. apply Hn; auto.
Qed.

Lemma NoDup_keys_filter (p : K * pynum -> bool) (d : dict K pynum) :
  NoDup (keys d) -> NoDup (keys (filter p d)).
Proof.
  induction d as [|[k v] d IH]; simpl; intros Hnd; [constructor|].
  inversion Hnd as [|? ? Hout Hnd']; subst.
  destruct (p (k, v)); simpl; [|auto].
  constructor; [|auto].
  intros Hin. apply Hout. unfold keys in *.
  apply in_map_iff in Hin as (e & He & Hin).
  apply filter_In in Hin as [Hin _].
  apply in_map_iff. exists e. auto.
Qed.

Lemma dict_get_filter_None (p : K * pynum -> bool) (d : dict K pynum) (k : K) :
  dict_get d k = None -> dict_get (filter p d) k = None.
Proof.
  rewrite !dict_get_None. intros Hout Hin. apply Hout.
  unfold keys in *. apply in_map_iff in Hin as (e & He & Hin).
  apply filter_In in Hin as [Hin _]. apply in_map_iff. exists e. auto.
Qed.

End NumericDictFacts.

(** ** Comparisons of numbers *)

Lemma py_ltb_lt (a b : pynum) : py_ltb a b = true <-> (num_to_Q a < num_to_Q b)%Q.
Proof.
  unfold py_ltb. rewrite negb_true_iff, <- not_true_iff_false, Qle_bool_iff.
  split; [apply Qnot_le_lt | apply Qlt_not_le].
Qed.

Lemma py_ltb_ge (a b : pynum) : py_ltb a b = false <-> (num_to_Q b <= num_to_Q a)%Q.
Proof.
  unfold py_ltb. rewrite negb_false_iff, Qle_bool_iff. reflexivity.
Qed.

Lemma py_eqb_eq (a b : pynum) : py_eqb a b = true <-> (num_to_Q a == num_to_Q b)%Q.
Proof. apply Qeq_bool_iff. Qed.

Lemma py_ltb_asym (a b : pynum) : py_ltb a b = true -> py_ltb b a = false.
Proof. rewrite py_ltb_lt, py_ltb_ge. apply Qlt_le_weak. Qed.

Lemma py_ltb_negtrans (a b c : pynum) :
  py_ltb a b = false -> py_ltb b c = false -> py_ltb a c = false.
Proof. rewrite !py_ltb_ge. intros Hab Hbc. eapply Qle_trans; eauto. Qed.

(** ** [sorted] *)

Section SortedFacts.
Context {A B : Type} (ltb : B -> B -> bool) (key : A -> B) (reverse : bool).

Lemma sorted_insert_perm (x : A) (l : list A) :
  Permutation (sorted_insert ltb key reverse x l) (x :: l).
Proof.
  induction l as [|y l IH]; simpl; [reflexivity|].
  destruct (precedes ltb key reverse y x); [|reflexivity].
  rewrite IH. apply perm_swap.
Qed.

Lemma py_sorted_perm (l : list A) : Permutation (py_sorted ltb key reverse l) l.
Proof.
  induction l as [|x l IH]; simpl; [reflexivity|].
  rewrite sorted_insert_perm. constructor. exact IH.
Qed.

(** An element never jumps over one of its own class. *)
Lemma sorted_insert_stable (p : A -> bool) (x : A) (l : list A) :
  (forall y, p x = true -> p y = true -> precedes ltb key reverse y x = false) ->
  filter p (sorted_insert ltb key reverse x l) = filter p (x :: l).
Proof.
  intros Hclass. induction l as [|y l IH]; [reflexivity|].
  cbn [sorted_insert]. destruct (precedes ltb key reverse y x) eqn:Hyx;
    [|reflexivity].
  cbn [filter] in IH |- *. rewrite IH.
  destruct (p x) eqn:Hx; [|reflexivity].
  destruct (p y) eqn:Hy; [|reflexivity].
  rewrite (Hclass y eq_refl Hy) in Hyx. discriminate.
Qed.

Lemma py_sorted_stable (p : A -> bool) (l : list A) :
  (forall x y, p x = true -> p y = true -> precedes ltb key reverse y x = false) ->
  filter p (py_sorted ltb key reverse l) = filter p l.
Proof.
  intros Hclass. induction l as [|x l IH]; [reflexivity|].
  cbn [py_sorted]. rewrite sorted_insert_stable by (apply Hclass).
  cbn [filter]. rewrite IH. reflexivity.
Qed.

Hypothesis ltb_asym : forall a b, ltb a b = true -> ltb b a = false.
Hypothesis ltb_negtrans :
  forall a b c, ltb a b = false -> ltb b c = false -> ltb a c = false.

Lemma precedes_asym (a b : A) :
  precedes ltb key reverse a b = true -> precedes ltb key reverse b a = false.
Proof. unfold precedes. destruct reverse; apply ltb_asym. Qed.

Lemma precedes_negtrans (a b c : A) :
  precedes ltb key reverse a b = false ->
  precedes ltb key reverse b c = false ->
  precedes ltb key reverse a c = false.
Proof.
  unfold precedes. destruct reverse; intros Hab Hbc;
    eauto using ltb_negtrans.
Qed.

Lemma sorted_insert_sorted (x : A) (l : list A) :
  StronglySorted (in_order ltb key reverse) l ->
  StronglySorted (in_order ltb key reverse) (sorted_insert ltb key reverse x l).
Proof.
  induction 1 as [|y l Hl IH Hy]; simpl.
  - repeat constructor.
  - destruct (precedes ltb key reverse y x) eqn:Hyx.
    + constructor; [exact IH|].
      apply (Permutation_Forall (x := x :: l)).
      * symmetry. apply sorted_insert_perm.
      * constructor; [apply precedes_asym; exact Hyx | exact Hy].
    + constructor; [constructor; assumption|].
      constructor; [exact Hyx|].
      apply (Forall_impl _ (P := in_order ltb key reverse y)); [|exact Hy].
      intros z Hz. unfold in_order in *. eapply precedes_negtrans; eauto.
Qed.

Lemma py_sorted_sorted (l : list A) :
  StronglySorted (in_order ltb key reverse) (py_sorted ltb key reverse l).
Proof.
  induction l as [|x l IH]; simpl; [constructor|].
  apply sorted_insert_sorted. exact IH.
Qed.
End SortedFacts.

Lemma StronglySorted_prefix {A : Type} (R : A -> A -> Prop) (l1 l2 : list A) :
  StronglySorted R (l1 ++ l2) -> StronglySorted R l1.
Proof.
  induction l1 as [|x l1 IH]; simpl; intros Hs; [constructor|].
  inversion Hs as [|? ? Hs' Hx]; subst.
  constructor; [auto|].
  apply Forall_app in Hx. tauto.
Qed.

(** ** [int] on a string *)

Lemma digit_not_space (c : ascii) : is_digit c = true -> is_space c = false.
Proof.
  destruct c as [[] [] [] [] [] [] [] []]; simpl; intros Hd;
    try reflexivity; discriminate Hd.
Qed.

Lemma digit_not_sign (c : ascii) :
  is_digit c = true ->
  Ascii.eqb c "-"%char = false /\ Ascii.eqb c "+"%char = false.
Proof.
  destruct c as [[] [] [] [] [] [] [] []]; simpl; intros Hd;
    try (split; reflexivity); discriminate Hd.
Qed.

Lemma lstrip_no_space (l : list ascii) :
  Forall (fun c => is_space c = false) l -> lstrip l = l.
Proof.
  destruct 1 as [|c l Hc _]; simpl; [reflexivity | rewrite Hc; reflexivity].
Qed.

Lemma strip_no_space (l : list ascii) :
  Forall (fun c => is_space c = false) l -> strip l = l.
Proof.
  intros Hl. unfold strip. rewrite (lstrip_no_space l Hl).
  rewrite lstrip_no_space by (apply Forall_rev; exact Hl).
  apply rev_involutive.
Qed.

Lemma digit_step_digit (acc : Z) (c : ascii) (d : Z) :
  digit_of c = Some d -> digit_step acc c = 10 * acc + d.
Proof. unfold digit_step. intros ->. reflexivity. Qed.

Lemma digits_tail_all_digits (l : list ascii) (acc : Z) (n : nat) :
  forallb is_digit l = true ->
  digits_tail acc n l = (fold_left digit_step l acc, (n + List.length l)%nat, []).
Proof.
  revert acc n. induction l as [|c l IH]; intros acc n Hl; simpl.
  - rewrite Nat.add_0_r. reflexivity.
  - simpl in Hl. apply andb_true_iff in Hl as [Hc Hl].
    unfold is_digit in Hc.
    destruct (digit_of c) as [d|] eqn:Ed; [|discriminate].
    rewrite IH by assumption.
    rewrite (digit_step_digit acc c d Ed), Nat.add_succ_r. reflexivity.
Qed.

Lemma int_of_str_digits (s : string) :
  s <> EmptyString -> all_digits s = true -> int_of_str s = Ok (decimal_value s).
Proof.
  unfold all_digits, int_of_str, decimal_value.
  intros Hne Hall.
  assert (Hns : Forall (fun c => is_space c = false) (list_ascii_of_string s)).
  { apply Forall_forall. intros c Hin. apply digit_not_space.
    rewrite forallb_forall in Hall. auto. }
  rewrite strip_no_space by assumption.
  destruct (list_ascii_of_string s) as [|c l] eqn:El.
  - destruct s; [contradiction | discriminate].
  - simpl in Hall. apply andb_true_iff in Hall as [Hc Hl].
    destruct (digit_not_sign c Hc) as [Hminus Hplus].
    unfold read_sign. rewrite Hminus, Hplus.
    unfold digitpart. cbn [fold_left].
    unfold is_digit in Hc.
    destruct (digit_of c) as [d|] eqn:Ed; [|discriminate].
    rewrite digits_tail_all_digits by assumption.
    rewrite (digit_step_digit 0 c d Ed).
    replace (10 * 0 + d) with d by lia. reflexivity.
Qed.

Lemma lstrip_keeps (c : ascii) (l : list ascii) :
  is_space c = false -> In c l -> In c (lstrip l).
Proof.
  intros Hc. induction l as [|a l IH]; simpl; [tauto|].
  destruct (is_space a) eqn:Ha.
  - intros [->|Hin]; [congruence | auto].
  - intros Hin. exact Hin.
Qed.

Lemma strip_keeps (c : ascii) (l : list ascii) :
  is_space c = false -> In c l -> In c (strip l).
Proof.
  intros Hc Hin. unfold strip.
  apply in_rev. rewrite rev_involutive.
  apply lstrip_keeps; [exact Hc|]. apply -> in_rev.
  apply lstrip_keeps; assumption.
Qed.

Lemma bad_char_facts (c : ascii) :
  not_in_int_literal c = true ->
  is_space c = false /\ digit_of c = None
  /\ Ascii.eqb c "+"%char = false /\ Ascii.eqb c "-"%char = false
  /\ Ascii.eqb c "_"%char = false.
Proof.
  unfold not_in_int_literal, is_digit.
  rewrite negb_true_iff, !orb_false_iff.
  intros ((((Hd & Hs) & Hp) & Hm) & Hu).
  destruct (digit_of c); [discriminate|]. tauto.
Qed.

Lemma read_sign_keeps (c : ascii) (l : list ascii) :
  not_in_int_literal c = true -> In c l -> In c (snd (read_sign l)).
Proof.
  intros Hbad Hin. apply bad_char_facts in Hbad as (_ & _ & Hp & Hm & _).
  destruct l as [|a l]; [destruct Hin|].
  unfold read_sign.
  destruct (Ascii.eqb a "-"%char) eqn:Ea.
  - simpl. destruct Hin as [->|Hin]; [congruence | exact Hin].
  - destruct (Ascii.eqb a "+"%char) eqn:Eb; simpl.
    + destruct Hin as [->|Hin]; [congruence | exact Hin].
    + exact Hin.
Qed.

Lemma digits_tail_keeps (c : ascii) (m : nat) :
  not_in_int_literal c = true ->
  forall (l : list ascii) (acc : Z) (n : nat),
    (List.length l <= m)%nat -> In c l -> In c (snd (digits_tail acc n l)).
Proof.
  intros Hbad. pose proof (bad_char_facts c Hbad) as (_ & Hd & _ & _ & Hu).
  induction m as [|m IH]; intros l acc n Hlen Hin.
  - destruct l; [destruct Hin | simpl in Hlen; lia].
  - destruct l as [|a l]; [destruct Hin|].
    simpl in Hlen. simpl.
    destruct (digit_of a) as [d|] eqn:Ea.
    + apply IH; [lia|]. destruct Hin as [->|Hin]; [congruence | exact Hin].
    + destruct (Ascii.eqb a "_"%char) eqn:Eu; [|exact Hin].
      destruct l as [|b l]; [exact Hin|].
      destruct (digit_of b) as [d|] eqn:Eb; [|exact Hin].
      apply IH; [simpl in Hlen; lia|].
      destruct Hin as [->|[->|Hin]]; [congruence | congruence | exact Hin].
Qed.

Lemma int_of_str_bad_char (s : string) :
  existsb not_in_int_literal (list_ascii_of_string s) = true ->
  int_of_str s = Raise ValueError.
Proof.
  rewrite existsb_exists. intros (c & Hin & Hbad).
  pose proof (bad_char_facts c Hbad) as (Hs & Hd & _).
  unfold int_of_str.
  pose proof (read_sign_keeps c _ Hbad (strip_keeps c _ Hs Hin)) as Hin'.
  destruct (read_sign (strip (list_ascii_of_string s))) as [neg l].
  simpl in Hin'. unfold digitpart.
  destruct l as [|a l]; [reflexivity|].
  destruct (digit_of a) as [d|] eqn:Ea; [|reflexivity].
  assert (Hl : In c l) by (destruct Hin' as [->|H]; [congruence | exact H]).
  pose proof (digits_tail_keeps c (List.length l) Hbad l d 1%nat (le_n _) Hl) as Hrest.
  destruct (digits_tail d 1 l) as [[v k] rest]. simpl in Hrest.
  destruct rest; [destruct Hrest | reflexivity].
Qed.

(** ** [csv_reader] *)

Lemma existsb_eqb_in (x : string) (l : list string) :
  existsb (String.eqb x) l = true <-> In x l.
Proof.
  rewrite existsb_exists. split.
  - intros (y & Hin & Heq). apply String.eqb_eq in Heq. congruence.
  - intros Hin. exists x. split; [exact Hin | apply String.eqb_refl].
Qed.

Lemma line_kept_accepted (header row : list string) :
  line_kept header row = true <-> row_accepted header row.
Proof.
  unfold line_kept, row_accepted.
  rewrite andb_true_iff, negb_true_iff, Nat.eqb_eq.
  rewrite <- not_true_iff_false, existsb_eqb_in. reflexivity.
Qed.

Lemma line_kept_decides (header row : list string) :
  line_kept header row = if row_accepted_dec header row then true else false.
Proof.
  destruct (row_accepted_dec header row) as [Hacc|Hrej].
  - apply line_kept_accepted. exact Hacc.
  - apply not_true_iff_false. rewrite line_kept_accepted. exact Hrej.
Qed.

(** C6. Of the rows after the header, [csv_reader] keeps those that have
    no empty field and as many fields as the header, and only those;
    the rows kept are unchanged and in the order of the file. *)
Theorem csv_reader_keeps_accepted_rows (header : list string) (rows : list (list string)) :
  exists otherLines,
    csv_reader (header :: rows) = Ok (header, otherLines)
    /\ otherLines
       = filter (fun row => if row_accepted_dec header row then true else false) rows
    /\ forall row, In row otherLines <-> In row rows /\ row_accepted header row.
Proof.
  exists (filter (line_kept header) rows).
  split; [reflexivity|]. split.
  - apply filter_ext. intros row. apply line_kept_decides.
  - intros row. rewrite filter_In, line_kept_accepted. reflexivity.
Qed.

(** ** [Vacancy.__init__] *)

Lemma Vacancy_init_has_year (d : dict string pyval) (v : Vacancy) :
  Vacancy_init d = Ok v -> has_year v.
Proof.
  unfold Vacancy_init. intros Hv.
  apply bind_Ok in Hv as (sal & _ & Hv).
  apply bind_Ok in Hv as (published_at & _ & Hv).
  apply bind_Ok in Hv as (prefix & _ & Hv).
  apply bind_Ok in Hv as (year & _ & Hv).
  apply bind_Ok in Hv as (needed & _ & Hv).
  injection Hv as <-. exists year. apply dict_get_setitem_same.
Qed.

(** ** [tryToAdd] *)

Lemma tryToAdd_other {K : Type} `{PyHashable K}
    (d : dict K pynum) (k k' : K) (v : pynum) :
  k' <> k -> dict_get (tryToAdd d k v) k' = dict_get d k'.
Proof.
  intros Hne. unfold tryToAdd. destruct (dict_getitem d k);
    apply dict_get_setitem_other; exact Hne.
Qed.

(** ** [getAverageSalary] *)

Section AverageFacts.
Context {K : Type} `{PyHashable K}.
Implicit Types (count sum : dict K pynum).

Lemma keys_averaged sum count : keys (map (averaged sum) count) = keys count.
Proof. unfold keys. rewrite map_map. reflexivity. Qed.

Lemma py_truediv_nonzero (s c : pynum) :
  py_eqb c (PInt 0) = false ->
  py_truediv s c = Ok (PFloat (Qred (num_to_Q s / num_to_Q c))).
Proof. unfold py_truediv. intros ->. reflexivity. Qed.

Lemma average_step_fresh sum (acc : dict K pynum) (k : K) (c : pynum) :
  dict_get acc k = None ->
  (py_eqb c (PInt 0) = false -> dict_get sum k <> None) ->
  average_step sum acc (k, c) = Ok (acc ++ [averaged sum (k, c)]).
Proof.
  intros Hfresh Hdom. unfold average_step, averaged, average_of.
  cbn [fst snd].
  destruct (py_eqb c (PInt 0)) eqn:Hc.
  - rewrite setitem_absent by assumption. reflexivity.
  - unfold dict_getitem.
    destruct (dict_get sum k) as [s|]; [|exfalso; apply Hdom; reflexivity].
    cbn [bind]. rewrite py_truediv_nonzero by assumption.
    cbn [bind math_floor]. rewrite setitem_absent by assumption.
    now rewrite (Qfloor_comp _ _ (Qred_correct (num_to_Q s / num_to_Q c))).
Qed.

Lemma average_fold sum (l : list (K * pynum)) (acc : dict K pynum) :
  NoDup (keys (acc ++ l)) ->
  (forall k c, In (k, c) l -> py_eqb c (PInt 0) = false -> dict_get sum k <> None) ->
  foldM (average_step sum) l acc = Ok (acc ++ map (averaged sum) l).
Proof.
  revert acc. induction l as [|[k c] l IH]; intros acc Hnd Hdom;
    cbn [foldM map].
  - rewrite app_nil_r. reflexivity.
  - assert (Hfresh : dict_get acc k = None).
    { apply dict_get_None. intros Hin.
      rewrite keys_app in Hnd. simpl in Hnd.
      apply NoDup_remove_2 in Hnd. apply Hnd.
      apply in_or_app. left. exact Hin. }
    rewrite average_step_fresh;
      [|exact Hfresh | apply Hdom; left; reflexivity].
    cbn [bind]. rewrite IH.
    + rewrite <- app_assoc. reflexivity.
    + rewrite <- app_assoc. simpl.
      rewrite keys_app in Hnd |- *. exact Hnd.
    + intros k' c' Hin. apply Hdom. right. exact Hin.
Qed.

Lemma getAverageSalary_ok count sum :
  NoDup (keys count) ->
  (forall k c, dict_get count k = Some c ->
               py_eqb c (PInt 0) = false -> dict_contains sum k = true) ->
  getAverageSalary count sum = Ok (map (averaged sum) count).
Proof.
  intros Hnd Hdom. unfold getAverageSalary, items.
  rewrite average_fold; [reflexivity | exact Hnd |].
  intros k c Hin Hc Hnone.
  specialize (Hdom k c (in_dict_get _ _ _ Hnd Hin) Hc).
  unfold dict_contains in Hdom. rewrite Hnone in Hdom. discriminate.
Qed.

Lemma dict_get_averaged sum count k :
  dict_get (map (averaged sum) count) k
  = option_map (average_of sum k) (dict_get count k).
Proof.
  induction count as [|[k' c'] count IH]; simpl; [reflexivity|].
  destruct (key_eqb k k') eqn:E; [|exact IH].
  apply key_eqb_eq in E. subst. reflexivity.
Qed.
End AverageFacts.

(** ** [getSortedDict] *)

Section SortedDictFacts.
Context {K : Type} `{PyHashable K}.

Lemma in_order_descending (l : list (K * pynum)) :
  StronglySorted (in_order py_ltb snd true) l -> descending l.
Proof.
  unfold descending. induction 1 as [|x l Hl IH Hx]; constructor.
  - exact IH.
  - apply (Forall_impl _ (P := in_order py_ltb snd true x)); [|exact Hx].
    intros y Hy. unfold in_order, precedes in Hy.
    apply py_ltb_ge in Hy. exact Hy.
Qed.

Lemma ranking_descending (d : dict K pynum) :
  descending (py_sorted py_ltb snd true (items d)).
Proof.
  apply in_order_descending, py_sorted_sorted.
  - apply py_ltb_asym.
  - apply py_ltb_negtrans.
Qed.

Lemma ranking_stable (v : pynum) (d : dict K pynum) :
  with_value v (py_sorted py_ltb snd true (items d)) = with_value v d.
Proof.
  unfold with_value. apply py_sorted_stable.
  intros x y Hx Hy. unfold precedes. apply py_ltb_ge.
  apply py_eqb_eq in Hx, Hy. rewrite Hx, Hy. apply Qle_refl.
Qed.

Lemma getSortedDict_prefix (d : dict K pynum) :
  NoDup (keys d) ->
  getSortedDict d = firstn 10 (py_sorted py_ltb snd true (items d)).
Proof.
  intros Hnd. unfold getSortedDict. apply dict_of_nodup.
  apply (NoDup_app_remove_r _ (keys (skipn 10 (py_sorted py_ltb snd true (items d))))).
  rewrite <- keys_app, firstn_skipn.
  apply (Permutation_NoDup (l := keys d)); [|exact Hnd].
  unfold keys. apply Permutation_map. symmetry. apply py_sorted_perm.
Qed.
End SortedDictFacts.

(** C4. For a map with distinct keys, [getSortedDict] returns at most 10
    entries, by descending value; they are the first entries of the whole
    map put in descending order of value with the entries of equal value
    left in the order of the map. *)
Theorem getSortedDict_top_ten {K : Type} `{PyHashable K} (d : dict K pynum) :
  NoDup (keys d) ->
  (List.length (getSortedDict d) <= 10)%nat
  /\ List.length (getSortedDict d) = Nat.min 10 (List.length d)
  /\ descending (getSortedDict d)
  /\ exists rest,
       Permutation (getSortedDict d ++ rest) d
       /\ descending (getSortedDict d ++ rest)
       /\ forall v, with_value v (getSortedDict d ++ rest) = with_value v d.
Proof.
  intros Hnd. rewrite (getSortedDict_prefix d Hnd).
  set (ranking := py_sorted py_ltb snd true (items d)).
  assert (Hlen : List.length (firstn 10 ranking) = Nat.min 10 (List.length d)).
  { rewrite length_firstn. f_equal. apply Permutation_length, py_sorted_perm. }
  split; [rewrite Hlen; apply Nat.le_min_l|].
  split; [exact Hlen|].
  split.
  - apply (StronglySorted_prefix _ _ (skipn 10 ranking)).
    rewrite firstn_skipn. apply ranking_descending.
  - exists (skipn 10 ranking). rewrite firstn_skipn.
    split; [apply py_sorted_perm|].
    split; [apply ranking_descending|].
    intros v. apply ranking_stable.
Qed.

(** The doctest of [getSortedDict]: of twelve entries ten are returned. *)
Lemma getSortedDict_top_ten_witness :
  NoDup (keys twelve_entries)
  /\ (List.length (getSortedDict twelve_entries) <= 10)%nat
  /\ List.length (getSortedDict twelve_entries) = 10%nat
  /\ descending (getSortedDict twelve_entries)
  /\ exists rest,
       Permutation (getSortedDict twelve_entries ++ rest) twelve_entries
       /\ descending (getSortedDict twelve_entries ++ rest)
       /\ forall v, with_value v (getSortedDict twelve_entries ++ rest)
                    = with_value v twelve_entries.
Proof.
  assert (Hnd : NoDup (keys twelve_entries)).
  { assert (E : nodup string_dec (keys twelve_entries) = keys twelve_entries)
      by (vm_compute; reflexivity).
    rewrite <- E. apply NoDup_nodup. }
  split; [exact Hnd|].
  exact (getSortedDict_top_ten twelve_entries Hnd).
Defined.

(** ** The accumulation loop of [getKey] *)

Lemma accumulate_step_keys (key_str : string)
    (keySum keyCount keySum' keyCount' : dict pykey pynum) (v : Vacancy) :
  accumulate_step key_str (keySum, keyCount) v = Ok (keySum', keyCount') ->
  keys keySum = keys keyCount -> NoDup (keys keyCount) ->
  keys keySum' = keys keyCount' /\ NoDup (keys keyCount').
Proof.
  unfold accumulate_step, dict_getitem.
  destruct (dict_get (dic v) key_str) as [k|]; [|discriminate].
  cbn [bind]. intros [= <- <-] Hk Hnd. split.
  - apply keys_tryToAdd_same. exact Hk.
  - apply NoDup_keys_tryToAdd. exact Hnd.
Qed.

Lemma accumulate_from_keys (key_str : string) (vacancies : list Vacancy)
    (keySum keyCount keySum' keyCount' : dict pykey pynum) :
  foldM (accumulate_step key_str) vacancies (keySum, keyCount)
    = Ok (keySum', keyCount') ->
  keys keySum = keys keyCount -> NoDup (keys keyCount) ->
  keys keySum' = keys keyCount' /\ NoDup (keys keyCount').
Proof.
  revert keySum keyCount.
  induction vacancies as [|v vacancies IH]; intros keySum keyCount Hf Hk Hnd.
  - injection Hf as <- <-. auto.
  - cbn [foldM] in Hf. apply bind_Ok in Hf as ([s c] & Hstep & Hf).
    destruct (accumulate_step_keys _ _ _ _ _ _ Hstep Hk Hnd) as [Hk' Hnd'].
    eapply IH; eauto.
Qed.

Lemma accumulate_keys (key_str : string) (vacancies : list Vacancy)
    (keySum keyCount : dict pykey pynum) :
  accumulate vacancies key_str = Ok (keySum, keyCount) ->
  keys keySum = keys keyCount /\ NoDup (keys keyCount).
Proof.
  intros Hacc. eapply accumulate_from_keys; [exact Hacc | reflexivity | constructor].
Qed.

Lemma accumulate_total (key_str : string) (vacancies : list Vacancy) :
  Forall (fun v => dict_get (dic v) key_str <> None) vacancies ->
  exists acc, accumulate vacancies key_str = Ok acc.
Proof.
  intros Hall. unfold accumulate.
  generalize (([], []) : dict pykey pynum * dict pykey pynum).
  induction Hall as [|v vacancies Hv _ IH]; intros acc; cbn [foldM].
  - eexists; reflexivity.
  - destruct acc as [keySum keyCount]. unfold accumulate_step, dict_getitem.
    destruct (dict_get (dic v) key_str) as [k|]; [|contradiction].
    cbn [bind]. apply IH.
Qed.

Lemma accumulate_nothing (key_str : string) (vacancies : list Vacancy)
    (keySum keyCount : dict pykey pynum) :
  accumulate vacancies key_str = Ok (keySum, keyCount) ->
  List.length vacancies = 0%nat -> keyCount = [].
Proof.
  destruct vacancies; [|discriminate]. intros [= _ <-] _. reflexivity.
Qed.

(** A key that no record has is not in the accumulated count map. *)
Lemma accumulate_from_absent (key_str : string) (vacancies : list Vacancy)
    (keySum keyCount keySum' keyCount' : dict pykey pynum) (k : pykey) :
  foldM (accumulate_step key_str) vacancies (keySum, keyCount)
    = Ok (keySum', keyCount') ->
  dict_get keyCount k = None ->
  (forall v val, In v vacancies -> dict_get (dic v) key_str = Some val ->
                 hash_key val <> k) ->
  dict_get keyCount' k = None.
Proof.
  revert keySum keyCount.
  induction vacancies as [|v vacancies IH]; intros keySum keyCount Hf Hk Hno.
  - injection Hf as _ <-. exact Hk.
  - cbn [foldM] in Hf. apply bind_Ok in Hf as ([s c] & Hstep & Hf).
    apply (IH _ _ Hf); [|intros w val Hw; apply Hno; right; exact Hw].
    unfold accumulate_step, dict_getitem in Hstep.
    destruct (dict_get (dic v) key_str) as [val|] eqn:Hval; [|discriminate].
    cbn [bind] in Hstep. injection Hstep as _ <-.
    rewrite tryToAdd_other; [exact Hk|].
    intros ->. apply (Hno v val); [left; reflexivity | exact Hval | reflexivity].
Qed.

(** ** [updateKeys] *)

Lemma fill_key_present (d : dict pykey pynum) (key k : pykey) (v : pynum) :
  dict_get d k = Some v -> dict_get (fill_key d key) k = Some v.
Proof.
  intros Hget. unfold fill_key. rewrite contains_keys.
  destruct (dict_contains d key) eqn:Hc; simpl; [exact Hget|].
  rewrite dict_get_setitem_other; [exact Hget|].
  intros ->. unfold dict_contains in Hc. rewrite Hget in Hc. discriminate.
Qed.

Lemma fill_key_filled (d : dict pykey pynum) (key : pykey) :
  dict_get d key = None -> dict_get (fill_key d key) key = Some (PInt 0).
Proof.
  intros Hget. unfold fill_key. rewrite contains_keys.
  unfold dict_contains. rewrite Hget. simpl. apply dict_get_setitem_same.
Qed.

Lemma updateKeys_present (allYears : list pykey) (d : dict pykey pynum)
    (k : pykey) (v : pynum) :
  dict_get d k = Some v -> dict_get (updateKeys allYears d) k = Some v.
Proof.
  unfold updateKeys. revert d.
  induction allYears as [|key allYears IH]; intros d Hget; simpl; [exact Hget|].
  apply IH, fill_key_present, Hget.
Qed.

Lemma updateKeys_filled (allYears : list pykey) (d : dict pykey pynum) (k : pykey) :
  In k allYears -> dict_get d k = None ->
  dict_get (updateKeys allYears d) k = Some (PInt 0).
Proof.
  unfold updateKeys. revert d.
  induction allYears as [|key allYears IH]; intros d Hin Hget; [destruct Hin|].
  simpl. destruct (pykey_eq_dec key k) as [->|Hne].
  - apply (updateKeys_present allYears), fill_key_filled, Hget.
  - destruct Hin as [Heq|Hin]; [contradiction|].
    apply IH; [exact Hin|].
    unfold fill_key. destruct (negb _); [|exact Hget].
    rewrite dict_get_setitem_other by congruence. exact Hget.
Qed.

Lemma fill_key_keys (d d' : dict pykey pynum) (key : pykey) :
  keys d = keys d' -> keys (fill_key d key) = keys (fill_key d' key).
Proof.
  intros Hk. unfold fill_key. rewrite Hk, !contains_keys.
  unfold dict_contains.
  destruct (dict_get d' key) as [x|] eqn:E'; simpl; [exact Hk|].
  assert (E : dict_get d key = None).
  { apply dict_get_None. rewrite Hk. apply dict_get_None. exact E'. }
  rewrite (setitem_absent _ _ _ E), (setitem_absent _ _ _ E'), !keys_app, Hk.
  reflexivity.
Qed.

Lemma updateKeys_keys (allYears : list pykey) (d d' : dict pykey pynum) :
  keys d = keys d' -> keys (updateKeys allYears d) = keys (updateKeys allYears d').
Proof.
  unfold updateKeys. revert d d'.
  induction allYears as [|key allYears IH]; intros d d' Hk; simpl; [exact Hk|].
  apply IH, fill_key_keys, Hk.
Qed.

Lemma updateKeys_NoDup (allYears : list pykey) (d : dict pykey pynum) :
  NoDup (keys d) -> NoDup (keys (updateKeys allYears d)).
Proof.
  unfold updateKeys. revert d.
  induction allYears as [|key allYears IH]; intros d Hnd; simpl; [exact Hnd|].
  apply IH. unfold fill_key. destruct (negb _); [|exact Hnd].
  apply NoDup_keys_setitem, Hnd.
Qed.

(** ** [getYears] *)

Lemma list_sort_perm (l sorted : list pykey) :
  list_sort l = Ok sorted -> Permutation sorted l.
Proof.
  unfold list_sort. destruct (_ || _); [|discriminate].
  intros [= <-]. apply py_sorted_perm.
Qed.



Lemma getYears_in (all : list Vacancy) (ay : list pykey) (v : Vacancy) (y : pykey) :
  getYears all = Ok ay -> In v all -> year_of v = Ok y -> In y ay.
Proof.
  unfold getYears. intros Hg Hin Hy.
  apply bind_Ok in Hg as (years & Hm & Hs).
  apply list_sort_perm in Hs.
  apply (Permutation_in _ (Permutation_sym Hs)).
  apply nodup_In. eapply mapM_Ok_in; eauto.
Qed.




(** ** [getKey] by year *)

Lemma getKey_by_year (ay : list pykey) (vacancies : list Vacancy) (key_str : string)
    (keySum keyCount : dict pykey pynum) :
  accumulate vacancies key_str = Ok (keySum, keyCount) ->
  getKey ay vacancies key_str false
  = Ok (map (averaged (updateKeys ay keySum)) (updateKeys ay keyCount),
        updateKeys ay keyCount).
Proof.
  intros Hacc. destruct (accumulate_keys _ _ _ _ Hacc) as [Hk Hnd].
  unfold getKey. rewrite Hacc. cbn [bind negb].
  rewrite getAverageSalary_ok; [reflexivity | |].
  - apply updateKeys_NoDup, Hnd.
  - intros k c Hget _.
    rewrite (dict_contains_keys _ (updateKeys ay keyCount)).
    + unfold dict_contains. rewrite Hget. reflexivity.
    + apply updateKeys_keys, Hk.
Qed.



Lemma sample_file_profession_by_year :
  getKey [KInt 2007; KInt 2008]
         (filter (fun v => py_truthy (is_needed v)) (vacancies_of sample_file))
         "year" false
  = Ok ([(KInt 2008, PInt 8985); (KInt 2007, PInt 0)],
        [(KInt 2008, PInt 1); (KInt 2007, PInt 0)]).
Proof. vm_compute. reflexivity. Qed.

(** ** [getKey] by area *)

(** The share of a key in area mode, compared with 0.01. *)
Lemma share_kept_ok (total : nat) (item : pykey * pynum) :
  total <> 0%nat ->
  share_kept total item
  = Ok (py_gtb (PFloat (Qred (num_to_Q (snd item) / inject_Z (Z.of_nat total))))
               (PFloat (1 # 100))).
Proof.
  intros Hpos. unfold share_kept.
  rewrite py_truediv_nonzero; [reflexivity|].
  apply not_true_iff_false. rewrite py_eqb_eq. simpl.
  unfold Qeq. simpl. lia.
Qed.






(** The one record of Kazan among the hundred has a share of exactly
    0.01: Kazan is in neither map. *)
Lemma crowded_file_accumulated :
  accumulate (vacancies_of crowded_file) "area_name"
  = Ok ([(KStr "Москва", PFloat (14850 # 1)); (KStr "Казань", PFloat (8985 # 1))],
        [(KStr "Москва", PInt 99); (KStr "Казань", PInt 1)]).
Proof. vm_compute. reflexivity. Qed.

Lemma crowded_file_grouped_by_area :
  getKey [] (vacancies_of crowded_file) "area_name" true
  = Ok ([(KStr "Москва", PInt 150)], [(KStr "Москва", PInt 99)]).
Proof. vm_compute. reflexivity. Qed.

(** ** [DataSet.__init__] *)

Lemma make_vacancy_has_year (inputValues : InputConect)
    (firstLine line : list string) (v : Vacancy) :
  make_vacancy inputValues firstLine line = Ok v -> has_year v.
Proof.
  unfold make_vacancy. intros Hv.
  apply bind_Ok in Hv as (name & _ & Hv).
  apply bind_Ok in Hv as (index & _ & Hv).
  eapply Vacancy_init_has_year; eauto.
Qed.

(** The vacancies that [csv_filter] makes carry their year, and the
    vacancies of the profession are a filtered part of them. *)
Lemma csv_filter_vacancies (inputValues : InputConect)
    (firstLine : list string) (otherLines : list (list string))
    (filterVacancies necessaryVacancies : list Vacancy) :
  csv_filter inputValues firstLine otherLines
    = Ok (filterVacancies, necessaryVacancies) ->
  Forall has_year filterVacancies
  /\ necessaryVacancies = filter (fun v => py_truthy (is_needed v)) filterVacancies.
Proof.
  unfold csv_filter. intros Hf. apply bind_Ok in Hf as (all & Hm & Hf).
  injection Hf as <- <-. split; [|reflexivity].
  eapply mapM_Ok_Forall; [|exact Hm].
  intros line v. apply make_vacancy_has_year.
Qed.

(** What [DataSet.__init__] leaves in the fields of the data set. *)
Lemma DataSet_init_fields (py_round : pynum -> Z -> pynum)
    (file : csv_rows) (ds : DataSet) :
  DataSet_init py_round file = Ok ds ->
  csv_reader file = Ok (firstLine ds, otherLines ds)
  /\ csv_filter (inputValues ds) (firstLine ds) (otherLines ds)
     = Ok (filterVacancies ds, necessaryVacancies ds)
  /\ getYears (filterVacancies ds) = Ok (allYears ds)
  /\ getKey (allYears ds) (filterVacancies ds) "year" false
     = Ok (yearSalary ds, year_to_count ds)
  /\ getKey (allYears ds) (necessaryVacancies ds) "year" false
     = Ok (yearSalary_needed ds, yearCount ds)
  /\ exists areaAverage,
       getKey (allYears ds) (filterVacancies ds) "area_name" true
       = Ok (areaAverage, area_to_count ds)
       /\ areaSalary ds = getSortedDict areaAverage.
Proof.
  unfold DataSet_init. intros Hds.
  apply bind_Ok in Hds as (iv & _ & Hds).
  apply bind_Ok in Hds as ([header lines] & Hread & Hds).
  apply bind_Ok in Hds as ([all needed] & Hfilter & Hds).
  apply bind_Ok in Hds as (ay & Hyears & Hds).
  apply bind_Ok in Hds as ([ys yc] & Hyear & Hds).
  apply bind_Ok in Hds as ([ysn ycn] & Hneeded & Hds).
  apply bind_Ok in Hds as ([asal ac] & Harea & Hds).
  apply bind_Ok in Hds as (piece & _ & Hds).
  injection Hds as <-. cbn.
  repeat (split; [assumption|]).
  exists asal. split; [assumption | reflexivity].
Qed.

(** The zero-filling of C2 on the maps of the data set: a year of some
    vacancy is a key of [yearCount] and of [yearSalary_needed], and when
    no vacancy of the profession has it, it has there the count 0 and the
    average 0. *)
Lemma DataSet_init_zero_fill (py_round : pynum -> Z -> pynum)
    (file : csv_rows) (ds : DataSet) :
  DataSet_init py_round file = Ok ds ->
  forall v y, In v (filterVacancies ds) ->
    dict_get (dic v) "year" = Some (VInt y) ->
    In (KInt y) (keys (yearCount ds))
    /\ In (KInt y) (keys (yearSalary_needed ds))
    /\ ((forall w, In w (necessaryVacancies ds) ->
                   dict_get (dic w) "year" <> Some (VInt y)) ->
        dict_get (yearCount ds) (KInt y) = Some (PInt 0)
        /\ dict_get (yearSalary_needed ds) (KInt y) = Some (PInt 0)).
Proof.
  intros Hds v y Hv Hy.
  destruct (DataSet_init_fields py_round file ds Hds)
    as (_ & Hfilter & Hyears & _ & Hneeded & _).
  destruct (csv_filter_vacancies _ _ _ _ _ Hfilter) as [Hall Hpart].
  assert (Hin : In (KInt y) (allYears ds)).
  { apply (getYears_in _ _ v _ Hyears Hv).
    unfold year_of, dict_getitem. rewrite Hy. reflexivity. }
  assert (Hpart_year : Forall has_year (necessaryVacancies ds)).
  { rewrite Hpart. rewrite Forall_forall in Hall |- *.
    intros w Hw. apply filter_In in Hw as [Hw _]. auto. }
  destruct (accumulate_total "year" (necessaryVacancies ds))
    as [[keySum keyCount] Hacc].
  { apply (Forall_impl _ (P := has_year)); [|exact Hpart_year].
    intros w [yw Hyw]. rewrite Hyw. discriminate. }
  rewrite (getKey_by_year _ _ _ _ _ Hacc) in Hneeded.
  injection Hneeded as Hsalary Hcount.
  rewrite <- Hsalary, <- Hcount, keys_averaged.
  assert (Hk : In (KInt y) (keys (updateKeys (allYears ds) keyCount))).
  { destruct (dict_get keyCount (KInt y)) as [c|] eqn:E.
    - apply dict_contains_in. unfold dict_contains.
      rewrite (updateKeys_present _ _ _ _ E). reflexivity.
    - apply dict_contains_in. unfold dict_contains.
      rewrite (updateKeys_filled _ _ _ Hin E). reflexivity. }
  split; [exact Hk|]. split; [exact Hk|].
  intros Hnone.
  assert (Hmissing : dict_get keyCount (KInt y) = None).
  { apply (accumulate_from_absent "year" (necessaryVacancies ds)
             [] [] keySum keyCount); [exact Hacc | reflexivity|].
    intros w val Hw Hval Hhash. apply (Hnone w Hw).
    rewrite Forall_forall in Hpart_year.
    destruct (Hpart_year w Hw) as [yw Hyw].
    rewrite Hyw in Hval. injection Hval as <-.
    simpl in Hhash. injection Hhash as ->. exact Hyw. }
  assert (Hzero : dict_get (updateKeys (allYears ds) keyCount) (KInt y)
                  = Some (PInt 0))
    by (apply updateKeys_filled; assumption).
  split; [exact Hzero|].
  rewrite dict_get_averaged, Hzero. reflexivity.
Qed.

Lemma sample_file_by_year (py_round : pynum -> Z -> pynum) :
  match DataSet_init py_round sample_file with
  | Ok ds =>
      yearSalary ds = [(KInt 2007, PInt 150); (KInt 2008, PInt 8985)]
      /\ year_to_count ds = [(KInt 2007, PInt 1); (KInt 2008, PInt 1)]
      /\ yearSalary_needed ds = [(KInt 2008, PInt 8985); (KInt 2007, PInt 0)]
      /\ yearCount ds = [(KInt 2008, PInt 1); (KInt 2007, PInt 0)]
  | Raise _ => False
  end.
Proof. vm_compute. repeat split. Qed.

(** When the rows are not in the order of their dates, the maps of all
    the records by year are not in the order of the years either. *)
Lemma reversed_file_by_year (py_round : pynum -> Z -> pynum) :
  match DataSet_init py_round reversed_file with
  | Ok ds =>
      allYears ds = [KInt 2007; KInt 2008]
      /\ yearSalary ds = [(KInt 2008, PInt 8985); (KInt 2007, PInt 150)]
      /\ year_to_count ds = [(KInt 2008, PInt 1); (KInt 2007, PInt 1)]
  | Raise _ => False
  end.
Proof. vm_compute. repeat split. Qed.

Lemma not_ascending_2008_2007 (a b : pynum) :
  ~ ascending_keys [(KInt 2008, a); (KInt 2007, b)].
Proof.
  unfold ascending_keys. simpl. intros Hs.
  inversion Hs as [|? ? _ Hall]; subst.
  inversion Hall as [|? ? Hlt _]; subst.
  discriminate Hlt.
Qed.

(** C7 on a file of two rows in the order of their dates, of which only
    the second is of the profession looked for: the maps of the profession
    by year have 2008 before 2007, while the maps of all the records have
    2007 before 2008. *)
Theorem year_maps_of_profession_not_ascending (py_round : pynum -> Z -> pynum) :
  exists ds,
    DataSet_init py_round sample_file = Ok ds
    /\ keys (yearSalary ds) = [KInt 2007; KInt 2008]
    /\ keys (year_to_count ds) = [KInt 2007; KInt 2008]
    /\ yearSalary_needed ds = [(KInt 2008, PInt 8985); (KInt 2007, PInt 0)]
    /\ yearCount ds = [(KInt 2008, PInt 1); (KInt 2007, PInt 0)]
    /\ ~ ascending_keys (yearSalary_needed ds)
    /\ ~ ascending_keys (yearCount ds).
Proof.
  pose proof (sample_file_by_year py_round) as Hds.
  destruct (DataSet_init py_round sample_file) as [ds|e]; [|destruct Hds].
  destruct Hds as (Hs & Hc & Hsn & Hcn).
  exists ds. split; [reflexivity|].
  rewrite Hs, Hc, Hsn, Hcn.
  repeat split; auto using not_ascending_2008_2007.
Qed.

(** ** The doctests of the program *)

Lemma doctest_Salary_averageSalary :
  option_map averageSalary
    (match Salary_init [("salary_from", VInt 100); ("salary_to", VInt 200);
                        ("salary_currency", VStr "RUR")]
     with Ok s => Some s | Raise _ => None end)
  = Some (PFloat (150 # 1)).
Proof. reflexivity. Qed.

Lemma doctest_Salary_salaryRub :
  option_map salaryRub
    (match Salary_init [("salary_from", VInt 100); ("salary_to", VInt 200);
                        ("salary_currency", VStr "EUR")]
     with Ok s => Some s | Raise _ => None end)
  = Some (PFloat (8985 # 1)).
Proof. reflexivity. Qed.

Lemma doctest_tryToAdd_present :
  tryToAdd [("1", PInt 1)] "1" (PInt 1) = [("1", PInt 2)].
Proof. reflexivity. Qed.

Lemma doctest_tryToAdd_absent :
  tryToAdd [("1", PInt 1)] "2" (PInt 2) = [("1", PInt 1); ("2", PInt 2)].
Proof. reflexivity. Qed.

Lemma doctest_getAverageSalary :
  getAverageSalary [("2007", PInt 2)] [("2007", PInt 10)] = Ok [("2007", PInt 5)].
Proof. reflexivity. Qed.

Lemma doctest_getSortedDict :
  List.length (getSortedDict twelve_entries) = 10%nat
  /\ getSortedDict twelve_entries
     = [("12", PInt 12); ("11", PInt 11); ("10", PInt 10); ("9", PInt 9);
        ("8", PInt 8); ("7", PInt 7); ("6", PInt 6); ("5", PInt 5);
        ("4", PInt 4); ("3", PInt 3)].
Proof. split; reflexivity. Qed.

(** The years of the doctest are those of the file of the author, 2007 to
    2022; the key ['2022'] of the doctest is a string. *)
Lemma doctest_updateKeys :
  updateKeys (map KInt [2007; 2008; 2009; 2010; 2011; 2012; 2013; 2014;
                        2015; 2016; 2017; 2018; 2019; 2020; 2021; 2022])
             [(KStr "2022", PInt 1000)]
  = [(KStr "2022", PInt 1000);
     (KInt 2007, PInt 0); (KInt 2008, PInt 0); (KInt 2009, PInt 0);
     (KInt 2010, PInt 0); (KInt 2011, PInt 0); (KInt 2012, PInt 0);
     (KInt 2013, PInt 0); (KInt 2014, PInt 0); (KInt 2015, PInt 0);
     (KInt 2016, PInt 0); (KInt 2017, PInt 0); (KInt 2018, PInt 0);
     (KInt 2019, PInt 0); (KInt 2020, PInt 0); (KInt 2021, PInt 0);
     (KInt 2022, PInt 0)].
Proof. reflexivity. Qed.

(** * Further properties *)

(** ** The loop of [getKey] as a grouping *)

Lemma foldM_snoc {A B : Type} (f : A -> B -> result A) (l : list B) (x : B) (a : A) :
  foldM f (l ++ [x]) a = (a' <- foldM f l a ;; f a' x).
Proof.
  revert a. induction l as [|y l IH]; intros a; cbn [foldM app bind].
  - destruct (f a x); reflexivity.
  - destruct (f a y) as [a'|e]; cbn [bind]; [apply IH | reflexivity].
Qed.

Lemma tryToAdd_same {K : Type} `{PyHashable K}
    (d : dict K pynum) (k : K) (v : pynum) :
  dict_get (tryToAdd d k v) k
  = Some (match dict_get d k with Some x => py_add x v | None => v end).
Proof.
  unfold tryToAdd, dict_getitem.
  destruct (dict_get d k); apply dict_get_setitem_same.
Qed.

Lemma num_to_Q_py_add (a b : pynum) :
  (num_to_Q (py_add a b) == num_to_Q a + num_to_Q b)%Q.
Proof.
  destruct a, b; cbn [py_add num_to_Q];
    first [rewrite inject_Z_plus; reflexivity | apply Qred_correct].
Qed.

Lemma group_snoc (key_str : string) (k : pykey) (l : list Vacancy) (v : Vacancy) :
  group key_str k (l ++ [v])
  = group key_str k l
    ++ (if match key_of key_str v with
           | Some k' => pykey_eqb k' k
           | None => false
           end then [v] else []).
Proof. unfold group. rewrite filter_app. reflexivity. Qed.

Lemma sum_rub_snoc (l : list Vacancy) (v : Vacancy) :
  (sum_rub (l ++ [v]) == sum_rub l + num_to_Q (salaryRub (salary v)))%Q.
Proof.
  induction l as [|w l IH]; cbn [sum_rub app fold_right].
  - ring.
  - fold (sum_rub (l ++ [v])). fold (sum_rub l). rewrite IH. ring.
Qed.

Lemma accumulate_step_Ok (key_str : string) (keySum keyCount : dict pykey pynum)
    (v : Vacancy) (acc : dict pykey pynum * dict pykey pynum) :
  accumulate_step key_str (keySum, keyCount) v = Ok acc ->
  exists k,
    key_of key_str v = Some k
    /\ acc = (tryToAdd keySum k (salaryRub (salary v)), tryToAdd keyCount k (PInt 1)).
Proof.
  unfold accumulate_step, key_of, dict_getitem.
  destruct (dict_get (dic v) key_str) as [val|]; [|discriminate].
  cbn [bind option_map]. intros [= <-]. eauto.
Qed.

(** What the two maps hold after the loop, key by key. *)
Lemma accumulate_groups (key_str : string) (vacancies : list Vacancy) :
  forall keySum keyCount,
    accumulate vacancies key_str = Ok (keySum, keyCount) ->
    forall k,
      dict_get keyCount k = count_entry (List.length (group key_str k vacancies))
      /\ match dict_get keySum k with
         | Some s => (num_to_Q s == sum_rub (group key_str k vacancies))%Q
         | None => group key_str k vacancies = []
         end.
Proof.
  unfold accumulate.
  induction vacancies as [|v vacancies IH] using rev_ind; intros keySum keyCount Hacc k.
  - injection Hacc as <- <-. split; reflexivity.
  - rewrite foldM_snoc in Hacc.
    apply bind_Ok in Hacc as ([ks kc] & Hprev & Hstep).
    destruct (IH ks kc Hprev k) as [Hcount Hsum].
    apply accumulate_step_Ok in Hstep as (kv & Hkv & [= -> ->]).
    rewrite group_snoc, Hkv.
    destruct (pykey_eqb kv k) eqn:E.
    + apply pykey_eqb_eq in E. subst kv.
      rewrite !tryToAdd_same, Hcount, length_app. cbn [List.length].
      split.
      * destruct (List.length (group key_str k vacancies)) as [|n];
          cbn [count_entry Nat.add py_add]; f_equal; f_equal; lia.
      * rewrite sum_rub_snoc.
        destruct (dict_get ks k) as [s|].
        -- rewrite num_to_Q_py_add, Hsum. reflexivity.
        -- rewrite Hsum. cbn [sum_rub fold_right]. ring.
    + assert (Hne : k <> kv)
        by (intros ->; rewrite (proj2 (pykey_eqb_eq kv kv) eq_refl) in E; discriminate).
      rewrite !tryToAdd_other by exact Hne. rewrite app_nil_r.
      split; assumption.
Qed.

Lemma fresh_keys_step (d : dict pykey pynum) (k : pykey) (v : pynum) (l : list pykey) :
  keys (tryToAdd d k v) ++ fresh (keys (tryToAdd d k v)) l
  = keys d ++ fresh (keys d) (k :: l).
Proof.
  rewrite keys_tryToAdd. cbn [fresh].
  change (existsb (pykey_eqb k) (keys d)) with (existsb (key_eqb k) (keys d)).
  rewrite contains_keys.
  destruct (dict_contains d k); [reflexivity|].
  rewrite <- app_assoc. reflexivity.
Qed.

(** The keys of the two maps after the loop: in the order in which the
    records first show them. *)
Lemma accumulate_from_order (key_str : string) (vacancies : list Vacancy) :
  forall keySum keyCount keySum' keyCount',
    foldM (accumulate_step key_str) vacancies (keySum, keyCount)
      = Ok (keySum', keyCount') ->
    keys keyCount'
    = keys keyCount ++ fresh (keys keyCount) (record_keys key_str vacancies).
Proof.
  induction vacancies as [|v vacancies IH];
    intros keySum keyCount keySum' keyCount' Hacc.
  - injection Hacc as _ <-. cbn [record_keys fresh]. rewrite app_nil_r. reflexivity.
  - cbn [foldM] in Hacc. apply bind_Ok in Hacc as ([ks kc] & Hstep & Hrest).
    apply accumulate_step_Ok in Hstep as (k & Hk & [= -> ->]).
    rewrite (IH _ _ _ _ Hrest). cbn [record_keys]. rewrite Hk.
    apply fresh_keys_step.
Qed.

Lemma accumulate_order (key_str : string) (vacancies : list Vacancy)
    (keySum keyCount : dict pykey pynum) :
  accumulate vacancies key_str = Ok (keySum, keyCount) ->
  keys keyCount = fresh [] (record_keys key_str vacancies).
Proof.
  intros Hacc. apply (accumulate_from_order key_str vacancies [] []) in Hacc.
  exact Hacc.
Qed.

(** ** [fresh] *)

Lemma fresh_app (seen l1 l2 : list pykey) :
  fresh seen (l1 ++ l2) = fresh seen l1 ++ fresh (seen ++ fresh seen l1) l2.
Proof.
  revert seen. induction l1 as [|k l1 IH]; intros seen; cbn [fresh app].
  - rewrite app_nil_r. reflexivity.
  - destruct (existsb (pykey_eqb k) seen); [apply IH|].
    rewrite IH, <- app_assoc. reflexivity.
Qed.

Lemma fresh_in (seen l : list pykey) (k : pykey) :
  In k (fresh seen l) <-> In k l /\ ~ In k seen.
Proof.
  revert seen. induction l as [|a l IH]; intros seen; cbn [fresh].
  - simpl. tauto.
  - destruct (existsb (pykey_eqb a) seen) eqn:E.
    + rewrite IH. apply existsb_exists in E as (b & Hb & Hab).
      apply pykey_eqb_eq in Hab. subst b.
      split; [intros [Hin Hout]; split; [right; exact Hin | exact Hout]|].
      intros [[->|Hin] Hout]; [contradiction | tauto].
    + assert (Hout : ~ In a seen).
      { intros Hin. apply not_true_iff_false in E. apply E.
        apply existsb_exists. exists a. split; [exact Hin|].
        apply pykey_eqb_eq. reflexivity. }
      simpl. rewrite IH, in_app_iff. simpl.
      destruct (pykey_eq_dec a k) as [->|Hne]; [tauto|].
      split; [intros [Heq|[Hin Hno]]; [contradiction | tauto]|].
      intros [[Heq|Hin] Hno]; [contradiction|].
      right. split; [exact Hin|]. intros [H|[H|[]]]; [tauto | congruence].
Qed.

Lemma fresh_NoDup (seen l : list pykey) : NoDup (fresh seen l).
Proof.
  revert seen. induction l as [|a l IH]; intros seen; cbn [fresh].
  - constructor.
  - destruct (existsb (pykey_eqb a) seen); [apply IH|].
    constructor; [|apply IH].
    rewrite fresh_in, in_app_iff. simpl. tauto.
Qed.

(** ** [updateKeys] as an appending *)

Lemma fill_key_appends (d : dict pykey pynum) (key : pykey) :
  fill_key d key
  = d ++ map (fun k => (k, PInt 0)) (fresh (keys d) [key]).
Proof.
  unfold fill_key. cbn [fresh].
  change (existsb (pykey_eqb key) (keys d)) with (existsb (key_eqb key) (keys d)).
  destruct (existsb (key_eqb key) (keys d)) eqn:E; cbn [negb map].
  - rewrite app_nil_r. reflexivity.
  - apply setitem_absent. rewrite contains_keys in E.
    unfold dict_contains in E. destruct (dict_get d key); [discriminate | reflexivity].
Qed.

Lemma keys_zeros (l : list pykey) :
  keys (map (fun k => (k, PInt 0)) l) = l.
Proof. unfold keys. rewrite map_map. apply map_id. Qed.

Lemma updateKeys_appends (allYears : list pykey) (d : dict pykey pynum) :
  updateKeys allYears d
  = d ++ map (fun k => (k, PInt 0)) (fresh (keys d) allYears).
Proof.
  unfold updateKeys. revert d.
  induction allYears as [|key allYears IH]; intros d; cbn [fold_left].
  - cbn [fresh map]. rewrite app_nil_r. reflexivity.
  - rewrite IH, fill_key_appends, keys_app, keys_zeros.
    change (key :: allYears) with ([key] ++ allYears).
    rewrite (fresh_app (keys d) [key] allYears), map_app, app_assoc.
    reflexivity.
Qed.

Lemma keys_updateKeys (allYears : list pykey) (d : dict pykey pynum) :
  keys (updateKeys allYears d) = keys d ++ fresh (keys d) allYears.
Proof. rewrite updateKeys_appends, keys_app, keys_zeros. reflexivity. Qed.

(** ** [getKey] by year as a grouping *)

Lemma py_eqb_count (n : nat) : py_eqb (PInt (Z.of_nat (S n))) (PInt 0) = false.
Proof.
  apply not_true_iff_false. rewrite py_eqb_eq. cbn [num_to_Q].
  unfold Qeq. simpl. lia.
Qed.

Lemma group_average_none (key_str : string) (k : pykey) (vacancies : list Vacancy) :
  group key_str k vacancies = [] -> group_average key_str k vacancies = PInt 0.
Proof. unfold group_average. intros ->. reflexivity. Qed.

Lemma group_average_some (key_str : string) (k : pykey) (vacancies : list Vacancy)
    (n : nat) :
  List.length (group key_str k vacancies) = S n ->
  group_average key_str k vacancies
  = PInt (Qfloor (sum_rub (group key_str k vacancies) / inject_Z (Z.of_nat (S n)))).
Proof.
  unfold group_average. intros Hn.
  destruct (group key_str k vacancies) as [|v g]; [discriminate|].
  rewrite Hn. reflexivity.
Qed.

(** The average that [getAverageSalary] gives to a key with the count
    and the sum that the loop has left. *)
Lemma average_of_group (key_str : string) (vacancies : list Vacancy)
    (keySum keyCount sum : dict pykey pynum) (k : pykey) :
  accumulate vacancies key_str = Ok (keySum, keyCount) ->
  (forall s, dict_get keySum k = Some s -> dict_get sum k = Some s) ->
  average_of sum k (PInt (Z.of_nat (List.length (group key_str k vacancies))))
  = group_average key_str k vacancies.
Proof.
  intros Hacc Hsum.
  destruct (accumulate_groups key_str vacancies keySum keyCount Hacc k) as [_ Hs].
  destruct (List.length (group key_str k vacancies)) as [|n] eqn:Hn.
  - symmetry. apply group_average_none.
    destruct (group key_str k vacancies); [reflexivity | discriminate].
  - rewrite (group_average_some _ _ _ n Hn).
    unfold average_of. rewrite py_eqb_count.
    destruct (dict_get keySum k) as [s|].
    + rewrite (Hsum s eq_refl). cbn [num_to_Q]. f_equal.
      apply Qfloor_comp. rewrite Hs. reflexivity.
    + rewrite Hs in Hn. discriminate.
Qed.

Lemma getKey_year_entries (ay : list pykey) (vacancies : list Vacancy)
    (key_str : string) (keySum keyCount : dict pykey pynum) (k : pykey) :
  accumulate vacancies key_str = Ok (keySum, keyCount) ->
  In k (keys (updateKeys ay keyCount)) ->
  dict_get (updateKeys ay keyCount) k
    = Some (PInt (Z.of_nat (List.length (group key_str k vacancies))))
  /\ dict_get (map (averaged (updateKeys ay keySum)) (updateKeys ay keyCount)) k
     = Some (group_average key_str k vacancies).
Proof.
  intros Hacc Hin.
  destruct (accumulate_groups key_str vacancies keySum keyCount Hacc k) as [Hc _].
  assert (Hcount : dict_get (updateKeys ay keyCount) k
                   = Some (PInt (Z.of_nat (List.length (group key_str k vacancies))))).
  { destruct (List.length (group key_str k vacancies)) as [|n] eqn:Hn.
    - cbn [count_entry] in Hc. apply updateKeys_filled; [|exact Hc].
      rewrite keys_updateKeys, in_app_iff, fresh_in in Hin.
      apply dict_get_None in Hc. tauto.
    - apply updateKeys_present. exact Hc. }
  split; [exact Hcount|].
  rewrite dict_get_averaged, Hcount. cbn [option_map]. f_equal.
  apply (average_of_group key_str vacancies keySum keyCount); [exact Hacc|].
  intros s Hs. apply updateKeys_present. exact Hs.
Qed.

(** X2. [updateKeys] leaves the entries of the map as they are and in
    their order, and appends after them, with 0, the years of [allYears]
    that the map lacks, each once, in the order of [allYears]; a second
    pass changes nothing. *)
Theorem updateKeys_appends_missing_years (allYears : list pykey)
    (d : dict pykey pynum) :
  updateKeys allYears d
  = d ++ map (fun k => (k, PInt 0)) (fresh (keys d) allYears)
  /\ updateKeys allYears (updateKeys allYears d) = updateKeys allYears d.
Proof.
  split; [apply updateKeys_appends|].
  rewrite (updateKeys_appends allYears (updateKeys allYears d)).
  assert (Hnone : fresh (keys (updateKeys allYears d)) allYears = []).
  { destruct (fresh (keys (updateKeys allYears d)) allYears) as [|k l] eqn:E;
      [reflexivity|].
    assert (Hk : In k (fresh (keys (updateKeys allYears d)) allYears))
      by (rewrite E; left; reflexivity).
    apply fresh_in in Hk as [Hin Hout]. exfalso. apply Hout.
    rewrite keys_updateKeys, in_app_iff, fresh_in.
    destruct (in_dec pykey_eq_dec k (keys d)); tauto. }
  rewrite Hnone. cbn [map]. apply app_nil_r.
Qed.

(** ** [getKey] by area as a grouping *)

Lemma getKey_area_filter (ay : list pykey) (vacancies : list Vacancy)
    (key_str : string) (keySum keyCount : dict pykey pynum) :
  accumulate vacancies key_str = Ok (keySum, keyCount) ->
  getKey ay vacancies key_str true
  = Ok (map (averaged keySum)
            (filter (fun item => py_gtb (PFloat (Qred (num_to_Q (snd item)
                                   / inject_Z (Z.of_nat (List.length vacancies)))))
                                        (PFloat (1 # 100))) keyCount),
        filter (fun item => py_gtb (PFloat (Qred (num_to_Q (snd item)
                              / inject_Z (Z.of_nat (List.length vacancies)))))
                                   (PFloat (1 # 100))) keyCount).
Proof.
  intros Hacc. destruct (accumulate_keys _ _ _ _ Hacc) as [Hk Hnd].
  set (keep := fun item : pykey * pynum =>
                 py_gtb (PFloat (Qred (num_to_Q (snd item)
                           / inject_Z (Z.of_nat (List.length vacancies)))))
                        (PFloat (1 # 100))).
  unfold getKey, items. rewrite Hacc. cbn [bind negb].
  rewrite (filterM_ok _ keep).
  - cbn [bind]. rewrite dict_of_nodup by (apply NoDup_keys_filter, Hnd).
    rewrite getAverageSalary_ok; [reflexivity | apply NoDup_keys_filter, Hnd|].
    intros k c Hget _. apply dict_contains_in. rewrite Hk.
    destruct (dict_get keyCount k) eqn:E.
    + apply dict_contains_in. unfold dict_contains. rewrite E. reflexivity.
    + rewrite (dict_get_filter_None keep keyCount k E) in Hget. discriminate.
  - intros item Hin.
    destruct (Nat.eq_dec (List.length vacancies) 0) as [Hz|Hpos].
    + rewrite (accumulate_nothing _ _ _ _ Hacc Hz) in Hin. destruct Hin.
    + apply share_kept_ok. exact Hpos.
Qed.


(** ** The counts add up *)

Lemma total_count_app {K : Type} (d d' : list (K * pynum)) :
  total_count (d ++ d') = total_count d + total_count d'.
Proof.
  induction d as [|item d IH]; cbn [total_count fold_right app]; [reflexivity|].
  fold (total_count (d ++ d')). fold (total_count d). rewrite IH. lia.
Qed.

Lemma total_count_setitem {K : Type} `{PyHashable K}
    (d : dict K pynum) (k : K) (x v : pynum) :
  dict_get d k = Some x ->
  total_count (dict_setitem d k v) = total_count d - math_floor x + math_floor v.
Proof.
  induction d as [|[k' v'] d IH]; simpl; [discriminate|].
  destruct (key_eqb k k'); simpl.
  - intros [= ->]. fold (total_count d). lia.
  - intros Hget. fold (total_count (dict_setitem d k v)). fold (total_count d).
    rewrite IH by exact Hget. lia.
Qed.

Lemma total_count_zeros (l : list pykey) :
  total_count (map (fun k => (k, PInt 0)) l) = 0.
Proof.
  induction l as [|k l IH]; cbn [total_count map fold_right snd math_floor];
    [reflexivity|].
  fold (total_count (map (fun k => (k, PInt 0)) l)). rewrite IH. reflexivity.
Qed.


Lemma accumulate_total_count (key_str : string) (vacancies : list Vacancy) :
  forall keySum keyCount,
    accumulate vacancies key_str = Ok (keySum, keyCount) ->
    total_count keyCount = Z.of_nat (List.length vacancies).
Proof.
  induction vacancies as [|v vacancies IH] using rev_ind; intros keySum keyCount Hacc.
  - injection Hacc as _ <-. reflexivity.
  - pose proof Hacc as Hall. unfold accumulate in Hacc.
    rewrite foldM_snoc in Hacc.
    apply bind_Ok in Hacc as ([ks kc] & Hprev & Hstep).
    apply accumulate_step_Ok in Hstep as (k & Hk & [= -> ->]).
    destruct (accumulate_groups key_str vacancies ks kc Hprev k) as [Hc _].
    rewrite length_app. cbn [List.length].
    specialize (IH ks kc Hprev).
    unfold tryToAdd, dict_getitem.
    destruct (List.length (group key_str k vacancies)) as [|n];
      cbn [count_entry] in Hc; rewrite Hc.
    + rewrite (setitem_absent _ _ _ Hc), total_count_app, IH.
      cbn [total_count fold_right snd math_floor]. lia.
    + rewrite (total_count_setitem _ _ _ _ Hc), IH.
      cbn [py_add math_floor]. lia.
Qed.



(** ** [getYears] sorts *)

Lemma sorted_insert_KInt (x : Z) (l : list Z) :
  sorted_insert pykey_ltb (fun k => k) false (KInt x) (map KInt l)
  = map KInt (sorted_insert Z.ltb (fun z => z) false x l).
Proof.
  induction l as [|y l IH]; [reflexivity|].
  cbn [map sorted_insert]. unfold precedes. cbn [pykey_ltb].
  destruct (y <? x); cbn [map]; [rewrite IH|]; reflexivity.
Qed.

Lemma py_sorted_KInt (l : list Z) :
  py_sorted pykey_ltb (fun k => k) false (map KInt l)
  = map KInt (py_sorted Z.ltb (fun z => z) false l).
Proof.
  induction l as [|x l IH]; [reflexivity|].
  cbn [map py_sorted]. rewrite IH. apply sorted_insert_KInt.
Qed.

Lemma in_map_KInt (x : Z) (l : list Z) : In (KInt x) (map KInt l) <-> In x l.
Proof.
  rewrite in_map_iff. split.
  - intros (y & [= ->] & Hin). exact Hin.
  - intros Hin. exists x. auto.
Qed.

Lemma nodup_KInt (l : list Z) :
  nodup pykey_eq_dec (map KInt l) = map KInt (nodup Z.eq_dec l).
Proof.
  induction l as [|x l IH]; [reflexivity|].
  cbn [map nodup].
  destruct (in_dec pykey_eq_dec (KInt x) (map KInt l)) as [Hin|Hout];
    destruct (in_dec Z.eq_dec x l) as [Hin'|Hout'];
    rewrite ?in_map_KInt in *; try contradiction;
    cbn [map]; rewrite IH; reflexivity.
Qed.

Lemma forallb_is_KInt (l : list Z) : forallb is_KInt (map KInt l) = true.
Proof. induction l; simpl; auto. Qed.

Lemma sorted_le_NoDup_lt (l : list Z) :
  StronglySorted (fun a b => (b <? a) = false) l -> NoDup l -> StronglySorted Z.lt l.
Proof.
  induction 1 as [|x l Hl IH Hx]; intros Hnd; constructor.
  - apply IH. inversion Hnd; assumption.
  - inversion Hnd as [|? ? Hout _]; subst.
    rewrite Forall_forall in Hx |- *. intros y Hy.
    specialize (Hx y Hy). apply Z.ltb_ge in Hx.
    assert (x <> y) by (intros ->; contradiction). lia.
Qed.

Lemma years_of_records (all : list Vacancy) :
  Forall has_year all ->
  exists zs,
    mapM year_of all = Ok (map KInt zs)
    /\ forall y, In y zs
                 <-> exists v, In v all /\ dict_get (dic v) "year" = Some (VInt y).
Proof.
  induction 1 as [|v all [y Hy] _ (zs & Hm & Hzs)].
  - exists []. split; [reflexivity|]. intros y. split; [intros [] | intros (v & [] & _)].
  - exists (y :: zs). cbn [mapM]. unfold year_of at 1, dict_getitem.
    rewrite Hy. cbn [bind hash_key]. rewrite Hm. split; [reflexivity|].
    intros z. simpl. rewrite Hzs. split.
    + intros [<-|(w & Hw & Hz)]; [exists v; auto | exists w; auto].
    + intros (w & [<-|Hw] & Hz); [left; congruence | right; exists w; auto].
Qed.

Lemma getYears_sorted (all : list Vacancy) :
  Forall has_year all ->
  exists years,
    getYears all = Ok (map KInt years)
    /\ StronglySorted Z.lt years
    /\ forall y, In y years
                 <-> exists v, In v all /\ dict_get (dic v) "year" = Some (VInt y).
Proof.
  intros Hall. destruct (years_of_records all Hall) as (zs & Hm & Hzs).
  exists (py_sorted Z.ltb (fun z => z) false (nodup Z.eq_dec zs)).
  assert (Hperm : Permutation (py_sorted Z.ltb (fun z => z) false (nodup Z.eq_dec zs))
                              (nodup Z.eq_dec zs))
    by apply py_sorted_perm.
  split; [|split].
  - unfold getYears, list_sort. rewrite Hm. cbn [bind].
    rewrite nodup_KInt, forallb_is_KInt, py_sorted_KInt. reflexivity.
  - apply sorted_le_NoDup_lt.
    + apply (py_sorted_sorted Z.ltb (fun z => z) false).
      * intros a b Hab. apply Z.ltb_lt in Hab. apply Z.ltb_ge. lia.
      * intros a b c Hab Hbc. apply Z.ltb_ge in Hab, Hbc. apply Z.ltb_ge. lia.
    + apply (Permutation_NoDup (Permutation_sym Hperm)), NoDup_nodup.
  - intros y. rewrite <- Hzs. split.
    + intros Hin. apply (nodup_In Z.eq_dec). apply (Permutation_in _ Hperm), Hin.
    + intros Hin. apply (Permutation_in _ (Permutation_sym Hperm)).
      apply nodup_In. exact Hin.
Qed.

(** X5. For records that carry their year, [getYears] returns the years
    of the records, each once, in strictly ascending order. *)
Theorem getYears_ascending (all : list Vacancy) :
  Forall has_year all ->
  exists years,
    getYears all = Ok (map KInt years)
    /\ StronglySorted Z.lt years
    /\ forall y, In y years
                 <-> exists v, In v all /\ dict_get (dic v) "year" = Some (VInt y).
Proof.
  apply getYears_sorted.
Qed.

Lemma sample_vacancies_carry_year : Forall has_year (vacancies_of sample_file).
Proof. repeat constructor; eexists; vm_compute; reflexivity. Qed.

Lemma getYears_ascending_witness :
  Forall has_year (vacancies_of sample_file)
  /\ exists years,
       getYears (vacancies_of sample_file) = Ok (map KInt years)
       /\ StronglySorted Z.lt years
       /\ forall y, In y years
                    <-> exists v, In v (vacancies_of sample_file)
                                  /\ dict_get (dic v) "year" = Some (VInt y).
Proof.
  split; [exact sample_vacancies_carry_year|].
  exact (getYears_ascending (vacancies_of sample_file) sample_vacancies_carry_year).
Defined.

(** ** [str.find] *)

Lemma prefix_append (a s : string) :
  String.prefix a s = true <-> exists rest, s = (a ++ rest)%string.
Proof.
  revert s. induction a as [|c a IH]; intros s.
  - destruct s; simpl; (split; [intros _; eexists; reflexivity | reflexivity]).
  - destruct s as [|c' s]; simpl.
    + split; [discriminate | intros (rest & Hrest); discriminate].
    + destruct (ascii_dec c c') as [->|Hne].
      * rewrite IH. split; intros (rest & Hrest); exists rest; congruence.
      * split; [discriminate | intros (rest & [= Hc _]); congruence].
Qed.

Lemma str_find_from_found (i : Z) (s sub : string) :
  0 <= i ->
  (-1 <? str_find_from i s sub) = true <-> is_substring sub s.
Proof.
  revert i. induction s as [|c s IH]; intros i Hi.
  - cbn [str_find_from]. destruct (String.prefix sub EmptyString) eqn:E.
    + split; [intros _ | intros _; apply Z.ltb_lt; lia].
      apply prefix_append in E as (rest & Hrest).
      exists EmptyString, rest. exact Hrest.
    + split; [discriminate|]. intros (before & after & Hs).
      destruct before; [|discriminate].
      apply not_true_iff_false in E. exfalso. apply E.
      apply prefix_append. exists after. exact Hs.
  - cbn [str_find_from]. destruct (String.prefix sub (String c s)) eqn:E.
    + split; [intros _ | intros _; apply Z.ltb_lt; lia].
      apply prefix_append in E as (rest & Hrest).
      exists EmptyString, rest. exact Hrest.
    + rewrite IH by lia. split.
      * intros (before & after & ->). exists (String c before), after. reflexivity.
      * intros (before & after & Hs). destruct before as [|c' before].
        -- apply not_true_iff_false in E. exfalso. apply E.
           apply prefix_append. exists after. exact Hs.
        -- injection Hs as _ ->. exists before, after. reflexivity.
Qed.

Lemma str_find_found (s sub : string) :
  (-1 <? str_find s sub) = true <-> is_substring sub s.
Proof. apply str_find_from_found. lia. Qed.

(** ** [Vacancy.__init__] and the loop of [csv_filter] *)

Lemma Vacancy_init_Ok (d : dict string pyval) (v : Vacancy) :
  Vacancy_init d = Ok v ->
  exists sal s y needed,
    Salary_init d = Ok sal
    /\ dict_get d "published_at" = Some (VStr s)
    /\ int_of_str (str_take 4 s) = Ok y
    /\ dict_get d "is_needed" = Some needed
    /\ v = {| dic := dict_setitem d "year" (VInt y);
              salary := sal; is_needed := needed |}.
Proof.
  unfold Vacancy_init. intros Hv.
  apply bind_Ok in Hv as (sal & Hsal & Hv).
  apply bind_Ok in Hv as (published_at & Hpub & Hv).
  apply bind_Ok in Hv as (prefix & Hprefix & Hv).
  apply bind_Ok in Hv as (y & Hy & Hv).
  apply bind_Ok in Hv as (needed & Hneeded & Hv).
  injection Hv as <-.
  destruct published_at as [s| |]; try discriminate.
  injection Hprefix as <-. cbn [py_int] in Hy.
  unfold dict_getitem in Hpub, Hneeded.
  destruct (dict_get d "published_at") as [p|]; [|discriminate].
  injection Hpub as ->.
  rewrite dict_get_setitem_other in Hneeded by discriminate.
  destruct (dict_get d "is_needed") as [n|]; [|discriminate].
  injection Hneeded as ->.
  exists sal, s, y, needed. auto.
Qed.

(** X6. When [Vacancy] is constructed of a row, its row is the row given
    with the year set: every other column holds what it held, the columns
    keep their order, a column ["year"] that the row already had holds
    the int year at its place and otherwise ["year"] is the last column;
    the salary is that of the row and the flag is the row's
    ["is_needed"]. *)
Theorem Vacancy_init_changes_only_the_year (d : dict string pyval) (v : Vacancy) :
  Vacancy_init d = Ok v ->
  (forall k, k <> "year" -> dict_get (dic v) k = dict_get d k)
  /\ (exists y, dict_get (dic v) "year" = Some (VInt y))
  /\ keys (dic v) = (if dict_contains d "year" then keys d else keys d ++ ["year"])
  /\ Salary_init d = Ok (salary v)
  /\ dict_get d "is_needed" = Some (is_needed v).
Proof.
  intros Hv. apply Vacancy_init_Ok in Hv as (sal & s & y & needed & Hsal & _ & _ & Hn & ->).
  cbn [dic salary is_needed].
  split; [intros k Hk; apply dict_get_setitem_other; exact Hk|].
  split; [exists y; apply dict_get_setitem_same|].
  split; [|split; assumption].
  unfold dict_contains. destruct (dict_get d "year") as [x|] eqn:E.
  - apply (setitem_present _ _ _ _ E).
  - rewrite (setitem_absent _ _ _ E), keys_app. reflexivity.
Qed.

Lemma Vacancy_init_changes_only_the_year_witness :
  let d := [("salary_from", VStr "100"); ("salary_to", VStr "200");
            ("salary_currency", VStr "RUR");
            ("published_at", VStr "2007-12-03T17:34:36+0300");
            ("is_needed", VBool false)] in
  let v := {| dic := d ++ [("year", VInt 2007)];
              salary := {| salary_from := 100; salary_to := 200;
                           salary_currency := VStr "RUR";
                           averageSalary := PFloat (150 # 1);
                           salaryRub := PFloat (150 # 1) |};
              is_needed := VBool false |} in
  Vacancy_init d = Ok v
  /\ (forall k, k <> "year" -> dict_get (dic v) k = dict_get d k)
  /\ (exists y, dict_get (dic v) "year" = Some (VInt y))
  /\ keys (dic v) = (if dict_contains d "year" then keys d else keys d ++ ["year"])
  /\ Salary_init d = Ok (salary v)
  /\ dict_get d "is_needed" = Some (is_needed v).
Proof.
  intros d v. split; [reflexivity|].
  exact (Vacancy_init_changes_only_the_year d v eq_refl).
Defined.

Lemma make_vacancy_Ok (inputValues : InputConect) (header line : list string)
    (v : Vacancy) :
  make_vacancy inputValues header line = Ok v ->
  exists name,
    dict_get (dict_of (combine header (map VStr line))) "name" = Some (VStr name)
    /\ Vacancy_init
         (dict_setitem (dict_of (combine header (map VStr line))) "is_needed"
            (VBool (-1 <? str_find name (professionName inputValues))))
       = Ok v.
Proof.
  unfold make_vacancy, dict_getitem. intros Hv.
  destruct (dict_get (dict_of (combine header (map VStr line))) "name")
    as [name|]; [|discriminate].
  cbn [bind] in Hv. destruct name as [name| |]; try discriminate.
  cbn [py_find bind] in Hv. exists name. auto.
Qed.

Lemma make_vacancy_name (inputValues : InputConect) (header line : list string)
    (v : Vacancy) :
  make_vacancy inputValues header line = Ok v ->
  exists name,
    dict_get (dic v) "name" = Some (VStr name)
    /\ is_needed v = VBool (-1 <? str_find name (professionName inputValues)).
Proof.
  intros Hv. apply make_vacancy_Ok in Hv as (name & Hname & Hv).
  apply Vacancy_init_Ok in Hv as (sal & s & y & needed & _ & _ & _ & Hn & ->).
  exists name. cbn [dic is_needed]. split.
  - rewrite !dict_get_setitem_other by discriminate. exact Hname.
  - rewrite dict_get_setitem_same in Hn. congruence.
Qed.

Lemma mapM_length {A B : Type} (f : A -> result B) (l : list A) (ys : list B) :
  mapM f l = Ok ys -> List.length ys = List.length l.
Proof.
  revert ys. induction l as [|a l IH]; intros ys Hm; simpl in Hm.
  - injection Hm as <-. reflexivity.
  - apply bind_Ok in Hm as (b & _ & Hm).
    apply bind_Ok in Hm as (bs & Hbs & Hm).
    injection Hm as <-. simpl. f_equal. eauto.
Qed.

(** X7. When [csv_filter] returns, it has made one vacancy of every
    line; every vacancy carries its year and has a name, and it is among
    the vacancies of the profession exactly when the name of the
    profession occurs in its name. *)
Theorem csv_filter_flags_by_name (inputValues : InputConect)
    (header : list string) (lines : list (list string))
    (all needed : list Vacancy) :
  csv_filter inputValues header lines = Ok (all, needed) ->
  List.length all = List.length lines
  /\ Forall has_year all
  /\ forall v, In v all ->
       exists name,
         dict_get (dic v) "name" = Some (VStr name)
         /\ (In v needed <-> is_substring (professionName inputValues) name).
Proof.
  intros Hf. pose proof (csv_filter_vacancies _ _ _ _ _ Hf) as [Hyears Hneeded].
  unfold csv_filter in Hf. apply bind_Ok in Hf as (vs & Hm & Hf).
  injection Hf as -> _.
  split; [apply (mapM_length _ _ _ Hm)|]. split; [exact Hyears|].
  intros v Hv.
  assert (Hmade : Forall (fun v => exists name,
                      dict_get (dic v) "name" = Some (VStr name)
                      /\ is_needed v
                         = VBool (-1 <? str_find name (professionName inputValues)))
                    all).
  { eapply mapM_Ok_Forall; [|exact Hm]. intros line w. apply make_vacancy_name. }
  rewrite Forall_forall in Hmade. destruct (Hmade v Hv) as (name & Hname & Hflag).
  exists name. split; [exact Hname|].
  rewrite Hneeded, filter_In, Hflag. cbn [py_truthy].
  rewrite str_find_found. tauto.
Qed.

Lemma csv_filter_flags_by_name_witness :
  csv_filter sample_input sample_header (tl sample_file)
  = Ok (vacancies_of sample_file,
        filter (fun v => py_truthy (is_needed v)) (vacancies_of sample_file))
  /\ List.length (vacancies_of sample_file) = List.length (tl sample_file)
  /\ Forall has_year (vacancies_of sample_file)
  /\ forall v, In v (vacancies_of sample_file) ->
       exists name,
         dict_get (dic v) "name" = Some (VStr name)
         /\ (In v (filter (fun v => py_truthy (is_needed v)) (vacancies_of sample_file))
             <-> is_substring (professionName sample_input) name).
Proof.
  assert (Hf : csv_filter sample_input sample_header (tl sample_file)
               = Ok (vacancies_of sample_file,
                     filter (fun v => py_truthy (is_needed v))
                            (vacancies_of sample_file)))
    by (vm_compute; reflexivity).
  split; [exact Hf|].
  exact (csv_filter_flags_by_name sample_input sample_header (tl sample_file)
           _ _ Hf).
Defined.

Lemma dict_get_combine (header : list string) (vals : list pyval)
    (i : nat) (col : string) (x : pyval) :
  NoDup header -> nth_error header i = Some col -> nth_error vals i = Some x ->
  dict_get (combine header vals) col = Some x.
Proof.
  revert vals i. induction header as [|h header IH]; intros vals i Hnd Hcol Hx.
  - destruct i; discriminate.
  - destruct vals as [|y vals]; [destruct i; discriminate|].
    inversion Hnd as [|? ? Hout Hnd']; subst.
    destruct i as [|i]; cbn [nth_error] in Hcol, Hx; cbn [combine dict_get].
    + injection Hcol as ->. injection Hx as ->.
      change (key_eqb col col) with (String.eqb col col).
      rewrite String.eqb_refl. reflexivity.
    + change (key_eqb col h) with (String.eqb col h).
      destruct (String.eqb col h) eqn:E.
      * apply String.eqb_eq in E. subst h.
        exfalso. apply Hout. eapply nth_error_In. exact Hcol.
      * eapply IH; eauto.
Qed.

Lemma keys_combine (header : list string) (vals : list pyval) :
  forall k, In k (keys (combine header vals)) -> In k header.
Proof.
  intros k Hin. unfold keys in Hin. apply in_map_iff in Hin as ([k' x] & <- & Hin).
  apply in_combine_l in Hin. exact Hin.
Qed.

Lemma NoDup_keys_combine (header : list string) (vals : list pyval) :
  NoDup header -> NoDup (keys (combine header vals)).
Proof.
  revert vals. induction header as [|h header IH]; intros vals Hnd; simpl.
  - constructor.
  - destruct vals as [|x vals]; simpl; [constructor|].
    inversion Hnd as [|? ? Hout Hnd']; subst.
    constructor; [|apply IH; exact Hnd'].
    intros Hin. apply Hout. apply (keys_combine header vals). exact Hin.
Qed.

Lemma dict_get_app_l {K V : Type} `{PyHashable K} (d d' : dict K V) (k : K) (x : V) :
  dict_get d k = Some x -> dict_get (d ++ d') k = Some x.
Proof.
  induction d as [|[k' v'] d IH]; simpl; [discriminate|].
  destruct (key_eqb k k'); auto.
Qed.

(** X8. For a header of distinct column names, none of them
    ["is_needed"] or ["year"], the row of a vacancy that the loop of
    [csv_filter] makes of a line is the fields of the line under the
    column names, in the order of the header, followed by the flag and
    the year: every field is found again under its column. *)
Theorem make_vacancy_keeps_the_fields (inputValues : InputConect)
    (header line : list string) (v : Vacancy) :
  NoDup header -> ~ In "is_needed" header -> ~ In "year" header ->
  make_vacancy inputValues header line = Ok v ->
  (exists flag year,
     dic v = combine header (map VStr line)
             ++ [("is_needed", VBool flag); ("year", VInt year)])
  /\ forall i col field,
       nth_error header i = Some col -> nth_error line i = Some field ->
       dict_get (dic v) col = Some (VStr field).
Proof.
  intros Hnd Hflag Hyear Hv.
  apply make_vacancy_Ok in Hv as (name & _ & Hv).
  apply Vacancy_init_Ok in Hv as (sal & s & y & needed & _ & _ & _ & _ & ->).
  cbn [dic].
  rewrite dict_of_nodup by (apply NoDup_keys_combine; exact Hnd).
  assert (Hrow : dict_setitem
                   (dict_setitem (combine header (map VStr line)) "is_needed"
                      (VBool (-1 <? str_find name (professionName inputValues))))
                   "year" (VInt y)
                 = combine header (map VStr line)
                   ++ [("is_needed",
                        VBool (-1 <? str_find name (professionName inputValues)));
                       ("year", VInt y)]).
  { rewrite (setitem_absent (combine header (map VStr line)) "is_needed").
    - rewrite setitem_absent.
      + rewrite <- app_assoc. reflexivity.
      + apply dict_get_None. rewrite keys_app, in_app_iff. simpl.
        intros [Hin|[Heq|[]]]; [|discriminate].
        apply Hyear. apply (keys_combine _ _ _ Hin).
    - apply dict_get_None. intros Hin. apply Hflag.
      apply (keys_combine _ _ _ Hin). }
  rewrite Hrow. split; [eauto|].
  intros i col field Hcol Hfield. apply dict_get_app_l.
  apply (dict_get_combine header (map VStr line) i); [exact Hnd | exact Hcol|].
  rewrite nth_error_map, Hfield. reflexivity.
Qed.

Lemma make_vacancy_keeps_the_fields_witness :
  let line := ["Аналитик"; "100"; "200"; "EUR"; "Казань"; "2008-12-03T17:34:36+0300"] in
  let v := {| dic := combine sample_header (map VStr line)
                     ++ [("is_needed", VBool true); ("year", VInt 2008)];
              salary := {| salary_from := 100; salary_to := 200;
                           salary_currency := VStr "EUR";
                           averageSalary := PFloat (150 # 1);
                           salaryRub := PFloat (8985 # 1) |};
              is_needed := VBool true |} in
  NoDup sample_header
  /\ ~ In "is_needed" sample_header
  /\ ~ In "year" sample_header
  /\ make_vacancy sample_input sample_header line = Ok v
  /\ (exists flag year,
        dic v = combine sample_header (map VStr line)
                ++ [("is_needed", VBool flag); ("year", VInt year)])
  /\ forall i col field,
       nth_error sample_header i = Some col -> nth_error line i = Some field ->
       dict_get (dic v) col = Some (VStr field).
Proof.
  intros line v.
  assert (Hnd : NoDup sample_header).
  { assert (E : nodup string_dec sample_header = sample_header)
      by (vm_compute; reflexivity).
    rewrite <- E. apply NoDup_nodup. }
  assert (Hflag : ~ In "is_needed" sample_header)
    by (simpl; intros H; repeat (destruct H as [H|H]; [discriminate H|]); exact H).
  assert (Hyear : ~ In "year" sample_header)
    by (simpl; intros H; repeat (destruct H as [H|H]; [discriminate H|]); exact H).
  assert (Hv : make_vacancy sample_input sample_header line = Ok v)
    by (vm_compute; reflexivity).
  repeat (split; [assumption|]).
  exact (make_vacancy_keeps_the_fields sample_input sample_header line v
           Hnd Hflag Hyear Hv).
Defined.

(** ** [getSortedDict] twice *)

Lemma py_sorted_fixed {A B : Type} (ltb : B -> B -> bool) (key : A -> B)
    (reverse : bool) (l : list A) :
  StronglySorted (in_order ltb key reverse) l -> py_sorted ltb key reverse l = l.
Proof.
  induction 1 as [|x l Hl IH Hx]; [reflexivity|].
  cbn [py_sorted]. rewrite IH.
  destruct l as [|y l]; [reflexivity|].
  cbn [sorted_insert]. inversion Hx as [|? ? Hxy _]; subst.
  unfold in_order in Hxy. rewrite Hxy. reflexivity.
Qed.

Lemma getSortedDict_entries {K : Type} `{PyHashable K} (d : dict K pynum) :
  NoDup (keys d) ->
  forall k v, dict_get (getSortedDict d) k = Some v -> dict_get d k = Some v.
Proof.
  intros Hnd k v Hget. apply (in_dict_get _ _ _ Hnd).
  apply dict_get_Some_in in Hget. rewrite (getSortedDict_prefix d Hnd) in Hget.
  apply (Permutation_in _ (py_sorted_perm py_ltb snd true (items d))).
  rewrite <- (firstn_skipn 10). apply in_or_app. left. exact Hget.
Qed.

Lemma getSortedDict_NoDup {K : Type} `{PyHashable K} (d : dict K pynum) :
  NoDup (keys d) -> NoDup (keys (getSortedDict d)).
Proof.
  intros Hnd. rewrite (getSortedDict_prefix d Hnd).
  apply (NoDup_app_remove_r _ (keys (skipn 10 (py_sorted py_ltb snd true (items d))))).
  rewrite <- keys_app, firstn_skipn.
  apply (Permutation_NoDup (l := keys d)); [|exact Hnd].
  unfold keys. apply Permutation_map. symmetry. apply py_sorted_perm.
Qed.

(** X10. For a map with distinct keys, ranking the ranking changes
    nothing; the ranking has no entry that the map does not have; and a
    map of at most 10 entries is only put in order. *)
Theorem getSortedDict_idempotent {K : Type} `{PyHashable K} (d : dict K pynum) :
  NoDup (keys d) ->
  getSortedDict (getSortedDict d) = getSortedDict d
  /\ (forall k v, dict_get (getSortedDict d) k = Some v -> dict_get d k = Some v)
  /\ ((List.length d <= 10)%nat -> Permutation (getSortedDict d) d).
Proof.
  intros Hnd. split; [|split].
  - rewrite (getSortedDict_prefix (getSortedDict d) (getSortedDict_NoDup d Hnd)).
    rewrite (getSortedDict_prefix d Hnd).
    set (ranking := py_sorted py_ltb snd true (items d)).
    unfold items. rewrite py_sorted_fixed.
    + apply firstn_all2. rewrite length_firstn. apply Nat.le_min_l.
    + apply (StronglySorted_prefix _ _ (skipn 10 ranking)).
      rewrite firstn_skipn. apply py_sorted_sorted.
      * apply py_ltb_asym.
      * apply py_ltb_negtrans.
  - apply getSortedDict_entries. exact Hnd.
  - intros Hlen. rewrite (getSortedDict_prefix d Hnd).
    rewrite firstn_all2.
    + apply py_sorted_perm.
    + rewrite (Permutation_length (py_sorted_perm py_ltb snd true (items d))).
      exact Hlen.
Qed.

Lemma getSortedDict_idempotent_witness :
  NoDup (keys twelve_entries)
  /\ getSortedDict (getSortedDict twelve_entries) = getSortedDict twelve_entries
  /\ (forall k v, dict_get (getSortedDict twelve_entries) k = Some v ->
                  dict_get twelve_entries k = Some v)
  /\ ((List.length twelve_entries <= 10)%nat ->
      Permutation (getSortedDict twelve_entries) twelve_entries).
Proof.
  assert (Hnd : NoDup (keys twelve_entries)).
  { assert (E : nodup string_dec (keys twelve_entries) = keys twelve_entries)
      by (vm_compute; reflexivity).
    rewrite <- E. apply NoDup_nodup. }
  split; [exact Hnd|].
  exact (getSortedDict_idempotent twelve_entries Hnd).
Defined.

(** ** What the pipeline can raise *)

Lemma float_of_str_raises (s : string) (e : exn) :
  float_of_str s = Raise e -> e = ValueError.
Proof.
  unfold float_of_str. destruct (read_sign _) as [neg l].
  destruct (_ || _); [discriminate|].
  destruct (String.eqb _ "nan"); [discriminate|].
  destruct (float_number l); [discriminate | congruence].
Qed.



Lemma int_of_str_raises (s : string) (e : exn) :
  int_of_str s = Raise e -> e = ValueError.
Proof.
  unfold int_of_str. destruct (read_sign _) as [neg l].
  destruct (digitpart l) as [[[v n] [|c rest]]|]; [discriminate | congruence | congruence].
Qed.




Lemma setitem_values {K V : Type} `{PyHashable K} (P : V -> Prop)
    (d : dict K V) (k : K) (v : V) :
  Forall (fun item => P (snd item)) d -> P v ->
  Forall (fun item => P (snd item)) (dict_setitem d k v).
Proof.
  intros Hd Hv. induction Hd as [|[k' v'] d Hitem Hrest IH]; simpl.
  - repeat constructor. exact Hv.
  - destruct (key_eqb k k'); constructor; auto.
Qed.

Lemma dict_of_values {K V : Type} `{PyHashable K} (P : V -> Prop)
    (pairs : list (K * V)) :
  Forall (fun item => P (snd item)) pairs ->
  Forall (fun item => P (snd item)) (dict_of pairs).
Proof.
  unfold dict_of. generalize (@nil (K * V)) (Forall_nil (fun item : K * V => P (snd item))).
  induction pairs as [|[k v] pairs IH]; intros d Hd Hpairs; cbn [fold_left].
  - exact Hd.
  - inversion Hpairs as [|? ? Hv Hrest]; subst.
    apply IH; [apply setitem_values; assumption | exact Hrest].
Qed.

Lemma row_values_are_strings (header line : list string) (k : string) (x : pyval) :
  dict_get (dict_of (combine header (map VStr line))) k = Some x ->
  exists s, x = VStr s.
Proof.
  intros Hget. apply dict_get_Some_in in Hget.
  assert (Hall : Forall (fun item : string * pyval => exists s, snd item = VStr s)
                        (dict_of (combine header (map VStr line)))).
  { apply (dict_of_values (fun x => exists s, x = VStr s)).
    apply Forall_forall. intros [k' x'] Hin. apply in_combine_r in Hin.
    apply in_map_iff in Hin as (s & <- & _). exists s. reflexivity. }
  rewrite Forall_forall in Hall. apply (Hall (k, x) Hget).
Qed.


Lemma mapM_Raise {A B : Type} (f : A -> result B) (l : list A) (e : exn) :
  mapM f l = Raise e -> exists x, In x l /\ f x = Raise e.
Proof.
  induction l as [|a l IH]; cbn [mapM]; [discriminate|].
  destruct (f a) as [b|e1] eqn:Hfa; cbn [bind].
  - destruct (mapM f l) as [bs|e2]; cbn [bind]; [discriminate|].
    intros [= <-]. destruct (IH eq_refl) as (x & Hin & Hx).
    exists x. split; [right; exact Hin | exact Hx].
  - intros [= <-]. exists a. split; [left; reflexivity | exact Hfa].
Qed.



Lemma area_shares_returns (py_round : pynum -> Z -> pynum) (count_vacs : nat)
    (area_to_count : dict pykey pynum) :
  count_vacs <> 0%nat \/ area_to_count = [] ->
  area_shares py_round count_vacs area_to_count
  = Ok (dict_of (map (fun item =>
                        (fst item,
                         py_round (PFloat (Qred (num_to_Q (snd item)
                                                 / inject_Z (Z.of_nat count_vacs)))) 4))
                     area_to_count)).
Proof.
  intros Hcase. unfold area_shares, items.
  assert (Hm : mapM (fun item : pykey * pynum =>
                       let (key, val) := item in
                       share <- py_truediv val (PInt (Z.of_nat count_vacs)) ;;
                       Ok (key, py_round share 4)) area_to_count
               = Ok (map (fun item =>
                            (fst item,
                             py_round (PFloat (Qred (num_to_Q (snd item)
                                          / inject_Z (Z.of_nat count_vacs)))) 4))
                         area_to_count)).
  { destruct Hcase as [Hpos| ->]; [|reflexivity].
    induction area_to_count as [|[k c] d IH]; [reflexivity|].
    cbn [mapM map fst snd]. rewrite py_truediv_nonzero.
    - cbn [bind]. rewrite IH. reflexivity.
    - apply not_true_iff_false. rewrite py_eqb_eq. cbn [num_to_Q].
      unfold Qeq. simpl. lia. }
  rewrite Hm. reflexivity.
Qed.



(** ** The rows of the report *)

Lemma for_each_Some {A B : Type} (f : A -> option B) (l : list A) :
  (exists ys, for_each f l = Some ys) <-> (forall x, In x l -> exists y, f x = Some y).
Proof.
  induction l as [|a l IH]; cbn [for_each].
  - split; [intros _ x [] | intros _; eexists; reflexivity].
  - split.
    + intros [ys Hys]. destruct (f a) as [b|] eqn:Hb; [|discriminate].
      cbn [and_then] in Hys.
      destruct (for_each f l) as [bs|]; [|discriminate].
      intros x [<-|Hin]; [eauto|]. apply IH; eauto.
    + intros Hall. destruct (Hall a (or_introl eq_refl)) as [b ->].
      destruct (proj2 IH (fun x Hx => Hall x (or_intror Hx))) as [bs ->].
      cbn [and_then]. eexists. reflexivity.
Qed.

Lemma for_each_nth {A B : Type} (f : A -> option B) (l : list A) (ys : list B) :
  for_each f l = Some ys ->
  List.length ys = List.length l
  /\ forall i x, nth_error l i = Some x -> nth_error ys i = f x.
Proof.
  revert ys. induction l as [|a l IH]; intros ys; cbn [for_each].
  - intros [= <-]. split; [reflexivity|]. intros [|i] x; discriminate.
  - destruct (f a) as [b|] eqn:Hb; [|discriminate]. cbn [and_then].
    destruct (for_each f l) as [bs|]; [|discriminate]. cbn [and_then].
    intros [= <-]. destruct (IH bs eq_refl) as [Hlen Hnth].
    split; [simpl; rewrite Hlen; reflexivity|].
    intros [|i] x; cbn [nth_error]; [intros [= <-]; symmetry; exact Hb | apply Hnth].
Qed.

Lemma nth_error_has {A : Type} (l : list A) (i : nat) :
  (exists x, nth_error l i = Some x) <-> (i < List.length l)%nat.
Proof.
  rewrite <- nth_error_Some. destruct (nth_error l i).
  - split; [discriminate | eauto].
  - split; [intros [x Hx]; discriminate | congruence].
Qed.

Lemma length_keys {K V : Type} (d : dict K V) : List.length (keys d) = List.length d.
Proof. apply length_map. Qed.

Lemma length_dict_values {K V : Type} (d : dict K V) :
  List.length (dict_values d) = List.length d.
Proof. apply length_map. Qed.

Lemma year_row_Some (self : Report.t) (i : nat) :
  (exists row, Report.year_row self i = Some row)
  <-> (i < List.length (Report.yearSalary self)
       /\ i < List.length (Report.yearSalary_needed self)
       /\ i < List.length (Report.year_to_count self)
       /\ i < List.length (Report.yearCount self))%nat.
Proof.
  unfold Report.year_row. split.
  - intros [row Hrow].
    destruct (nth_error (keys (Report.yearSalary self)) i) eqn:E0; [|discriminate].
    destruct (nth_error (dict_values (Report.yearSalary self)) i); [|discriminate].
    destruct (nth_error (dict_values (Report.yearSalary_needed self)) i) eqn:E2;
      [|discriminate].
    destruct (nth_error (dict_values (Report.year_to_count self)) i) eqn:E3;
      [|discriminate].
    destruct (nth_error (dict_values (Report.yearCount self)) i) eqn:E4;
      [|discriminate].
    split; [rewrite <- (length_keys (Report.yearSalary self));
            apply nth_error_has; eauto|].
    split; [rewrite <- (length_dict_values (Report.yearSalary_needed self));
            apply nth_error_has; eauto|].
    split; [rewrite <- (length_dict_values (Report.year_to_count self));
            apply nth_error_has; eauto|].
    rewrite <- (length_dict_values (Report.yearCount self)).
    apply nth_error_has; eauto.
  - intros (H1 & H2 & H3 & H4).
    destruct (proj2 (nth_error_has (keys (Report.yearSalary self)) i)) as [year ->];
      [rewrite length_keys; exact H1|].
    destruct (proj2 (nth_error_has (dict_values (Report.yearSalary self)) i))
      as [first ->]; [rewrite length_dict_values; exact H1|].
    destruct (proj2 (nth_error_has (dict_values (Report.yearSalary_needed self)) i))
      as [second ->]; [rewrite length_dict_values; exact H2|].
    destruct (proj2 (nth_error_has (dict_values (Report.year_to_count self)) i))
      as [third ->]; [rewrite length_dict_values; exact H3|].
    destruct (proj2 (nth_error_has (dict_values (Report.yearCount self)) i))
      as [fourth ->]; [rewrite length_dict_values; exact H4|].
    cbn [and_then]. eexists. reflexivity.
Qed.

Lemma area_row_Some (self : Report.t) (i : nat) :
  (exists row, Report.area_row self i = Some row)
  <-> (i < List.length (Report.areaSalary self)
       /\ i < List.length (Report.areaPiece self))%nat.
Proof.
  unfold Report.area_row. split.
  - intros [row Hrow].
    destruct (nth_error (keys (Report.areaSalary self)) i) eqn:E1; [|discriminate].
    destruct (nth_error (dict_values (Report.areaSalary self)) i); [|discriminate].
    destruct (nth_error (keys (Report.areaPiece self)) i) eqn:E2; [|discriminate].
    split.
    + rewrite <- (length_keys (Report.areaSalary self)). apply nth_error_has. eauto.
    + rewrite <- (length_keys (Report.areaPiece self)). apply nth_error_has. eauto.
  - intros [H1 H2].
    destruct (proj2 (nth_error_has (keys (Report.areaSalary self)) i)) as [c1 ->];
      [rewrite length_keys; exact H1|].
    destruct (proj2 (nth_error_has (dict_values (Report.areaSalary self)) i)) as [s ->];
      [rewrite length_dict_values; exact H1|].
    destruct (proj2 (nth_error_has (keys (Report.areaPiece self)) i)) as [c2 ->];
      [rewrite length_keys; exact H2|].
    destruct (proj2 (nth_error_has (dict_values (Report.areaPiece self)) i)) as [p ->];
      [rewrite length_dict_values; exact H2|].
    cbn [and_then]. eexists. reflexivity.
Qed.

(** When the loops of [generate_excel] run through. *)
Lemma generate_excel_Some (self : Report.t) :
  (exists sheets, Report.generate_excel self = Some sheets)
  <-> (16 <= List.length (Report.yearSalary self)
       /\ 16 <= List.length (Report.yearSalary_needed self)
       /\ 16 <= List.length (Report.year_to_count self)
       /\ 16 <= List.length (Report.yearCount self)
       /\ 10 <= List.length (Report.areaSalary self)
       /\ 10 <= List.length (Report.areaPiece self))%nat.
Proof.
  unfold Report.generate_excel. split.
  - intros [sheets Hsheets].
    destruct (for_each (Report.year_row self) (seq 0 16)) as [year_rows|] eqn:Hy;
      [|discriminate].
    destruct (for_each (Report.area_row self) (seq 0 10)) as [area_rows|] eqn:Ha;
      [|discriminate].
    assert (Hrow : exists row, Report.year_row self 15 = Some row).
    { apply (proj1 (for_each_Some _ _) (ex_intro _ _ Hy)).
      apply in_seq. lia. }
    assert (Harea : exists row, Report.area_row self 9 = Some row).
    { apply (proj1 (for_each_Some _ _) (ex_intro _ _ Ha)).
      apply in_seq. lia. }
    apply year_row_Some in Hrow. apply area_row_Some in Harea. lia.
  - intros Hlen.
    destruct (proj2 (for_each_Some (Report.year_row self) (seq 0 16))) as [year_rows ->].
    { intros i Hi. apply in_seq in Hi. apply year_row_Some. lia. }
    destruct (proj2 (for_each_Some (Report.area_row self) (seq 0 10))) as [area_rows ->].
    { intros i Hi. apply in_seq in Hi. apply area_row_Some. lia. }
    cbn [and_then]. eexists. reflexivity.
Qed.

Lemma generate_excel_rows (self : Report.t) (years areas : list (list cell)) :
  Report.generate_excel self = Some (years, areas) ->
  List.length years = 17%nat /\ List.length areas = 11%nat
  /\ nth_error years 0 = Some (Report.year_header self)
  /\ nth_error areas 0 = Some Report.area_header
  /\ (forall i, (i < 16)%nat -> nth_error years (S i) = Report.year_row self i)
  /\ (forall i, (i < 10)%nat -> nth_error areas (S i) = Report.area_row self i).
Proof.
  unfold Report.generate_excel.
  destruct (for_each (Report.year_row self) (seq 0 16)) as [year_rows|] eqn:Hy;
    [|discriminate].
  destruct (for_each (Report.area_row self) (seq 0 10)) as [area_rows|] eqn:Ha;
    [|discriminate].
  cbn [and_then]. intros [= <- <-].
  destruct (for_each_nth _ _ _ Hy) as [Hleny Hnthy].
  destruct (for_each_nth _ _ _ Ha) as [Hlena Hntha].
  rewrite length_seq in Hleny, Hlena.
  split; [simpl; rewrite Hleny; reflexivity|].
  split; [simpl; rewrite Hlena; reflexivity|].
  split; [reflexivity|]. split; [reflexivity|]. split.
  - intros i Hi. cbn [nth_error]. apply Hnthy.
    rewrite nth_error_nth' with (d := 0%nat) by (rewrite length_seq; exact Hi).
    rewrite seq_nth by exact Hi. reflexivity.
  - intros i Hi. cbn [nth_error]. apply Hntha.
    rewrite nth_error_nth' with (d := 0%nat) by (rewrite length_seq; exact Hi).
    rewrite seq_nth by exact Hi. reflexivity.
Qed.

(** X12. The loops of [generate_excel] that fill the two sheets run
    through exactly when each of the four maps by year has at least 16
    entries and each of the two maps by city at least 10: with fewer,
    an index is out of range.  When they run through, the sheet of the
    years has 17 rows and that of the cities 11, the header counted. *)
Theorem generate_excel_needs_16_years_10_cities (self : Report.t) :
  ((exists sheets, Report.generate_excel self = Some sheets)
   <-> (16 <= List.length (Report.yearSalary self)
        /\ 16 <= List.length (Report.yearSalary_needed self)
        /\ 16 <= List.length (Report.year_to_count self)
        /\ 16 <= List.length (Report.yearCount self)
        /\ 10 <= List.length (Report.areaSalary self)
        /\ 10 <= List.length (Report.areaPiece self))%nat)
  /\ forall years areas,
       Report.generate_excel self = Some (years, areas) ->
       List.length years = 17%nat /\ List.length areas = 11%nat.
Proof.
  split; [apply generate_excel_Some|].
  intros years areas Hsheets.
  destruct (generate_excel_rows self years areas Hsheets) as (Hy & Ha & _).
  split; assumption.
Qed.

Lemma nth_key_value {K V : Type} `{PyHashable K} (d : dict K V) (i : nat)
    (k : K) (v : V) :
  NoDup (keys d) ->
  nth_error (keys d) i = Some k -> nth_error (dict_values d) i = Some v ->
  dict_get d k = Some v.
Proof.
  intros Hnd Hk Hv. apply (in_dict_get _ _ _ Hnd).
  unfold keys, dict_values in Hk, Hv. rewrite nth_error_map in Hk, Hv.
  destruct (nth_error d i) as [[k' v']|] eqn:E; [|discriminate].
  cbn in Hk, Hv. injection Hk as <-. injection Hv as <-.
  apply (nth_error_In _ _ E).
Qed.

(** X13. When the four maps by year list the same years in the same
    order, every row that [generate_excel] writes to the sheet of the
    years holds a year and what each of the four maps has for that year;
    every row of the sheet of the cities holds a city with its salary
    level and a city with its share. *)
Theorem generate_excel_rows_by_key (self : Report.t) (years areas : list (list cell)) :
  NoDup (keys (Report.yearSalary self)) ->
  keys (Report.yearSalary_needed self) = keys (Report.yearSalary self) ->
  keys (Report.year_to_count self) = keys (Report.yearSalary self) ->
  keys (Report.yearCount self) = keys (Report.yearSalary self) ->
  NoDup (keys (Report.areaSalary self)) ->
  NoDup (keys (Report.areaPiece self)) ->
  Report.generate_excel self = Some (years, areas) ->
  (forall i, (i < 16)%nat ->
     exists year first second third fourth,
       nth_error years (S i)
       = Some [CKey year; CNum first; CNum second; CNum third; CNum fourth]
       /\ nth_error (keys (Report.yearSalary self)) i = Some year
       /\ dict_get (Report.yearSalary self) year = Some first
       /\ dict_get (Report.yearSalary_needed self) year = Some second
       /\ dict_get (Report.year_to_count self) year = Some third
       /\ dict_get (Report.yearCount self) year = Some fourth)
  /\ (forall i, (i < 10)%nat ->
        exists city1 salary city2 piece,
          nth_error areas (S i)
          = Some [CKey city1; CNum salary; CStr EmptyString; CKey city2; CNum piece]
          /\ dict_get (Report.areaSalary self) city1 = Some salary
          /\ dict_get (Report.areaPiece self) city2 = Some piece).
Proof.
  intros Hnd Hneeded Hcount Hyc Hnd1 Hnd2 Hsheets.
  pose proof (proj1 (generate_excel_Some self) (ex_intro _ _ Hsheets)) as Hlen.
  destruct (generate_excel_rows self years areas Hsheets)
    as (_ & _ & _ & _ & Hyears & Hareas).
  split.
  - intros i Hi. rewrite (Hyears i Hi). unfold Report.year_row.
    destruct (nth_error (keys (Report.yearSalary self)) i) as [year|] eqn:E0.
    2:{ apply nth_error_None in E0. rewrite length_keys in E0. lia. }
    destruct (nth_error (dict_values (Report.yearSalary self)) i) as [first|] eqn:E1.
    2:{ apply nth_error_None in E1. rewrite length_dict_values in E1. lia. }
    destruct (nth_error (dict_values (Report.yearSalary_needed self)) i)
      as [second|] eqn:E2.
    2:{ apply nth_error_None in E2. rewrite length_dict_values in E2. lia. }
    destruct (nth_error (dict_values (Report.year_to_count self)) i)
      as [third|] eqn:E3.
    2:{ apply nth_error_None in E3. rewrite length_dict_values in E3. lia. }
    destruct (nth_error (dict_values (Report.yearCount self)) i)
      as [fourth|] eqn:E4.
    2:{ apply nth_error_None in E4. rewrite length_dict_values in E4. lia. }
    cbn [and_then]. exists year, first, second, third, fourth.
    split; [reflexivity|]. split; [reflexivity|].
    split; [apply (nth_key_value _ i); assumption|].
    split; [apply (nth_key_value _ i); [rewrite Hneeded; exact Hnd
                                       | rewrite Hneeded; exact E0 | exact E2]|].
    split; [apply (nth_key_value _ i); [rewrite Hcount; exact Hnd
                                       | rewrite Hcount; exact E0 | exact E3]|].
    apply (nth_key_value _ i); [rewrite Hyc; exact Hnd | rewrite Hyc; exact E0 | exact E4].
  - intros i Hi. rewrite (Hareas i Hi). unfold Report.area_row.
    destruct (nth_error (keys (Report.areaSalary self)) i) as [city1|] eqn:E0.
    2:{ apply nth_error_None in E0. rewrite length_keys in E0. lia. }
    destruct (nth_error (dict_values (Report.areaSalary self)) i) as [salary|] eqn:E1.
    2:{ apply nth_error_None in E1. rewrite length_dict_values in E1. lia. }
    destruct (nth_error (keys (Report.areaPiece self)) i) as [city2|] eqn:E2.
    2:{ apply nth_error_None in E2. rewrite length_keys in E2. lia. }
    destruct (nth_error (dict_values (Report.areaPiece self)) i) as [piece|] eqn:E3.
    2:{ apply nth_error_None in E3. rewrite length_dict_values in E3. lia. }
    cbn [and_then]. exists city1, salary, city2, piece.
    split; [reflexivity|].
    split; apply (nth_key_value _ i); assumption.
Qed.

Lemma generate_excel_rows_by_key_witness :
  let self := report_of (data_set_of sixteen_years_file) in
  NoDup (keys (Report.yearSalary self))
  /\ keys (Report.yearSalary_needed self) = keys (Report.yearSalary self)
  /\ keys (Report.year_to_count self) = keys (Report.yearSalary self)
  /\ keys (Report.yearCount self) = keys (Report.yearSalary self)
  /\ NoDup (keys (Report.areaSalary self))
  /\ NoDup (keys (Report.areaPiece self))
  /\ Report.generate_excel self = Some (fst (sheets_of self), snd (sheets_of self))
  /\ (forall i, (i < 16)%nat ->
        exists year first second third fourth,
          nth_error (fst (sheets_of self)) (S i)
          = Some [CKey year; CNum first; CNum second; CNum third; CNum fourth]
          /\ nth_error (keys (Report.yearSalary self)) i = Some year
          /\ dict_get (Report.yearSalary self) year = Some first
          /\ dict_get (Report.yearSalary_needed self) year = Some second
          /\ dict_get (Report.year_to_count self) year = Some third
          /\ dict_get (Report.yearCount self) year = Some fourth)
  /\ (forall i, (i < 10)%nat ->
        exists city1 salary city2 piece,
          nth_error (snd (sheets_of self)) (S i)
          = Some [CKey city1; CNum salary; CStr EmptyString; CKey city2; CNum piece]
          /\ dict_get (Report.areaSalary self) city1 = Some salary
          /\ dict_get (Report.areaPiece self) city2 = Some piece).
Proof.
  intros self.
  assert (Hnd : NoDup (keys (Report.yearSalary self))).
  { assert (E : nodup pykey_eq_dec (keys (Report.yearSalary self))
                = keys (Report.yearSalary self)) by (vm_compute; reflexivity).
    rewrite <- E. apply NoDup_nodup. }
  assert (Hnd1 : NoDup (keys (Report.areaSalary self))).
  { assert (E : nodup pykey_eq_dec (keys (Report.areaSalary self))
                = keys (Report.areaSalary self)) by (vm_compute; reflexivity).
    rewrite <- E. apply NoDup_nodup. }
  assert (Hnd2 : NoDup (keys (Report.areaPiece self))).
  { assert (E : nodup pykey_eq_dec (keys (Report.areaPiece self))
                = keys (Report.areaPiece self)) by (vm_compute; reflexivity).
    rewrite <- E. apply NoDup_nodup. }
  assert (H1 : keys (Report.yearSalary_needed self) = keys (Report.yearSalary self))
    by (vm_compute; reflexivity).
  assert (H2 : keys (Report.year_to_count self) = keys (Report.yearSalary self))
    by (vm_compute; reflexivity).
  assert (H3 : keys (Report.yearCount self) = keys (Report.yearSalary self))
    by (vm_compute; reflexivity).
  assert (Hs : Report.generate_excel self
               = Some (fst (sheets_of self), snd (sheets_of self)))
    by (vm_compute; reflexivity).
  repeat (split; [assumption|]).
  exact (generate_excel_rows_by_key self _ _ Hnd H1 H2 H3 Hnd1 Hnd2 Hs).
Defined.

(** ** The maps of the data set *)

Lemma record_keys_in (key_str : string) (vacancies : list Vacancy) (k : pykey) :
  In k (record_keys key_str vacancies)
  <-> exists v, In v vacancies /\ key_of key_str v = Some k.
Proof.
  induction vacancies as [|v vacancies IH]; cbn [record_keys].
  - split; [intros [] | intros (v & [] & _)].
  - destruct (key_of key_str v) as [k'|] eqn:E.
    + simpl. rewrite IH. split.
      * intros [<-|(w & Hw & Hk)]; [exists v; auto | exists w; auto].
      * intros (w & [<-|Hw] & Hk); [left; congruence | right; exists w; auto].
    + rewrite IH. split.
      * intros (w & Hw & Hk). exists w. split; [right; exact Hw | exact Hk].
      * intros (w & [<-|Hw] & Hk); [congruence | exists w; auto].
Qed.

Lemma StronglySorted_lt_NoDup (l : list Z) : StronglySorted Z.lt l -> NoDup l.
Proof.
  induction 1 as [|x l Hl IH Hx]; constructor; [|exact IH].
  intros Hin. rewrite Forall_forall in Hx. specialize (Hx x Hin). lia.
Qed.

Lemma NoDup_map_KInt (l : list Z) : NoDup l -> NoDup (map KInt l).
Proof.
  induction 1 as [|x l Hout Hnd IH]; simpl; constructor; [|exact IH].
  rewrite in_map_iff. intros (y & [= ->] & Hin). contradiction.
Qed.

Lemma getYears_keys (all : list Vacancy) (ay : list pykey) :
  Forall has_year all -> getYears all = Ok ay ->
  NoDup ay /\ forall k, In k ay <-> In k (record_keys "year" all).
Proof.
  intros Hall Hay. destruct (getYears_sorted all Hall) as (years & Hy & Hsorted & Hin).
  rewrite Hy in Hay. injection Hay as <-. split.
  - apply NoDup_map_KInt, StronglySorted_lt_NoDup, Hsorted.
  - intros k. rewrite record_keys_in, in_map_iff. split.
    + intros (y & <- & Hyin). apply Hin in Hyin as (v & Hv & Hvy).
      exists v. split; [exact Hv|]. unfold key_of. rewrite Hvy. reflexivity.
    + intros (v & Hv & Hk). rewrite Forall_forall in Hall.
      destruct (Hall v Hv) as [y Hvy]. unfold key_of in Hk. rewrite Hvy in Hk.
      cbn in Hk. injection Hk as <-. exists y. split; [reflexivity|].
      apply Hin. exists v. auto.
Qed.

Lemma year_keys_of_part (all part : list Vacancy) (ay : list pykey) :
  NoDup ay -> (forall k, In k ay <-> In k (record_keys "year" all)) ->
  incl part all ->
  Permutation (fresh [] (record_keys "year" part ++ ay)) ay.
Proof.
  intros Hnd Hay Hincl. apply NoDup_Permutation; [apply fresh_NoDup | exact Hnd|].
  intros k. rewrite fresh_in, in_app_iff. split.
  - intros [[Hin|Hin] _]; [|exact Hin]. apply Hay.
    apply record_keys_in in Hin as (v & Hv & Hk). apply record_keys_in.
    exists v. split; [apply Hincl, Hv | exact Hk].
  - intros Hin. split; [right; exact Hin | intros []].
Qed.

Lemma getKey_year_keys (ay : list pykey) (vacancies : list Vacancy)
    (key_str : string) (average count : dict pykey pynum) :
  getKey ay vacancies key_str false = Ok (average, count) ->
  keys average = keys count
  /\ keys count = fresh [] (record_keys key_str vacancies ++ ay).
Proof.
  intros Hg. destruct (accumulate vacancies key_str) as [[ks kc]|e] eqn:Hacc.
  - rewrite (getKey_by_year _ _ _ _ _ Hacc) in Hg. injection Hg as <- <-.
    rewrite keys_averaged. split; [reflexivity|].
    rewrite keys_updateKeys, (accumulate_order _ _ _ _ Hacc), fresh_app.
    reflexivity.
  - unfold getKey in Hg. rewrite Hacc in Hg. discriminate.
Qed.

Lemma DataSet_init_year_keys (py_round : pynum -> Z -> pynum)
    (file : csv_rows) (ds : DataSet) :
  DataSet_init py_round file = Ok ds ->
  NoDup (allYears ds)
  /\ keys (yearSalary ds) = keys (year_to_count ds)
  /\ keys (yearSalary_needed ds) = keys (yearCount ds)
  /\ Permutation (keys (year_to_count ds)) (allYears ds)
  /\ Permutation (keys (yearCount ds)) (allYears ds).
Proof.
  intros Hds. destruct (DataSet_init_fields py_round file ds Hds)
    as (_ & Hfilter & Hyears & Hall & Hneeded & _).
  destruct (csv_filter_vacancies _ _ _ _ _ Hfilter) as [Hhas Hpart].
  destruct (getYears_keys _ _ Hhas Hyears) as [Hnd Hay].
  destruct (getKey_year_keys _ _ _ _ _ Hall) as [Hk1 Hc1].
  destruct (getKey_year_keys _ _ _ _ _ Hneeded) as [Hk2 Hc2].
  split; [exact Hnd|]. split; [exact Hk1|]. split; [exact Hk2|]. split.
  - rewrite Hc1. apply (year_keys_of_part (filterVacancies ds)); auto.
    apply incl_refl.
  - rewrite Hc2. apply (year_keys_of_part (filterVacancies ds)); auto.
    rewrite Hpart. apply incl_filter.
Qed.

(** X14. In a data set that [DataSet.__init__] has made, the four maps
    by year have the same set of keys, the years of [allYears], each
    once: a map and its count map list them in the same order, and each
    map has as many entries as there are years. *)
Theorem DataSet_year_maps_cover_all_years (py_round : pynum -> Z -> pynum)
    (file : csv_rows) (ds : DataSet) :
  DataSet_init py_round file = Ok ds ->
  keys (yearSalary ds) = keys (year_to_count ds)
  /\ keys (yearSalary_needed ds) = keys (yearCount ds)
  /\ Permutation (keys (year_to_count ds)) (allYears ds)
  /\ Permutation (keys (yearCount ds)) (allYears ds)
  /\ List.length (yearSalary ds) = List.length (allYears ds)
  /\ List.length (year_to_count ds) = List.length (allYears ds)
  /\ List.length (yearSalary_needed ds) = List.length (allYears ds)
  /\ List.length (yearCount ds) = List.length (allYears ds).
Proof.
  intros Hds.
  destruct (DataSet_init_year_keys py_round file ds Hds)
    as (_ & Hk1 & Hk2 & Hp1 & Hp2).
  repeat (split; [assumption|]).
  rewrite <- (length_keys (yearSalary ds)), <- (length_keys (year_to_count ds)),
    <- (length_keys (yearSalary_needed ds)), <- (length_keys (yearCount ds)).
  rewrite Hk1, Hk2, (Permutation_length Hp1), (Permutation_length Hp2).
  auto.
Qed.

Lemma DataSet_year_maps_cover_all_years_witness :
  DataSet_init (fun x _ => x) sample_file = Ok (data_set_of sample_file)
  /\ keys (yearSalary (data_set_of sample_file))
     = keys (year_to_count (data_set_of sample_file))
  /\ keys (yearSalary_needed (data_set_of sample_file))
     = keys (yearCount (data_set_of sample_file))
  /\ Permutation (keys (year_to_count (data_set_of sample_file)))
                 (allYears (data_set_of sample_file))
  /\ Permutation (keys (yearCount (data_set_of sample_file)))
                 (allYears (data_set_of sample_file))
  /\ List.length (yearSalary (data_set_of sample_file))
     = List.length (allYears (data_set_of sample_file))
  /\ List.length (year_to_count (data_set_of sample_file))
     = List.length (allYears (data_set_of sample_file))
  /\ List.length (yearSalary_needed (data_set_of sample_file))
     = List.length (allYears (data_set_of sample_file))
  /\ List.length (yearCount (data_set_of sample_file))
     = List.length (allYears (data_set_of sample_file)).
Proof.
  assert (Hds : DataSet_init (fun x _ => x) sample_file = Ok (data_set_of sample_file))
    by (vm_compute; reflexivity).
  split; [exact Hds|].
  exact (DataSet_year_maps_cover_all_years _ _ _ Hds).
Defined.

Lemma DataSet_init_areas (py_round : pynum -> Z -> pynum)
    (file : csv_rows) (ds : DataSet) :
  DataSet_init py_round file = Ok ds ->
  exists areaAverage shares,
    getKey (allYears ds) (filterVacancies ds) "area_name" true
    = Ok (areaAverage, area_to_count ds)
    /\ areaSalary ds = getSortedDict areaAverage
    /\ area_shares py_round (List.length (filterVacancies ds)) (area_to_count ds)
       = Ok shares
    /\ areaPiece ds = getSortedDict shares.
Proof.
  unfold DataSet_init. intros Hds.
  apply bind_Ok in Hds as (iv & _ & Hds).
  apply bind_Ok in Hds as ([header lines] & _ & Hds).
  apply bind_Ok in Hds as ([all needed] & _ & Hds).
  apply bind_Ok in Hds as (ay & _ & Hds).
  apply bind_Ok in Hds as ([ys yc] & _ & Hds).
  apply bind_Ok in Hds as ([ysn ycn] & _ & Hds).
  apply bind_Ok in Hds as ([asal ac] & Harea & Hds).
  apply bind_Ok in Hds as (piece & Hpiece & Hds).
  injection Hds as <-. cbn.
  exists asal, piece. auto.
Qed.

Lemma length_getSortedDict {K : Type} `{PyHashable K} (d : dict K pynum) :
  NoDup (keys d) ->
  List.length (getSortedDict d) = Nat.min 10 (List.length d).
Proof.
  intros Hnd. rewrite (getSortedDict_prefix d Hnd), length_firstn.
  rewrite (Permutation_length (py_sorted_perm py_ltb snd true (items d))).
  reflexivity.
Qed.

Lemma keys_map_value {K V W : Type} (g : K * V -> W) (d : list (K * V)) :
  keys (map (fun item => (fst item, g item)) d) = keys d.
Proof. unfold keys. rewrite map_map. reflexivity. Qed.

Lemma dict_get_map_value {K V W : Type} `{PyHashable K} (g : K * V -> W)
    (d : dict K V) (k : K) (w : W) :
  dict_get (map (fun item => (fst item, g item)) d) k = Some w ->
  exists v, dict_get d k = Some v /\ exists k', w = g (k', v).
Proof.
  induction d as [|[k' v'] d IH]; cbn [map dict_get fst]; [discriminate|].
  destruct (key_eqb k k'); [|exact IH].
  intros [= <-]. exists v'. split; [reflexivity|]. exists k'. reflexivity.
Qed.

(** The two maps by city before the ranking. *)
Lemma DataSet_init_area_maps (py_round : pynum -> Z -> pynum)
    (file : csv_rows) (ds : DataSet) :
  DataSet_init py_round file = Ok ds ->
  NoDup (keys (area_to_count ds))
  /\ exists areaAverage,
       areaSalary ds = getSortedDict areaAverage
       /\ keys areaAverage = keys (area_to_count ds)
       /\ areaPiece ds
          = getSortedDict
              (map (fun item =>
                      (fst item,
                       py_round (PFloat (Qred (num_to_Q (snd item)
                          / inject_Z (Z.of_nat (List.length (filterVacancies ds))))))
                                4))
                   (area_to_count ds)).
Proof.
  intros Hds.
  destruct (DataSet_init_areas py_round file ds Hds)
    as (areaAverage & shares & Hg & Hsal & Hshares & Hpiece).
  destruct (accumulate (filterVacancies ds) "area_name") as [[ks kc]|e] eqn:Hacc.
  2:{ unfold getKey in Hg. rewrite Hacc in Hg. discriminate. }
  destruct (accumulate_keys _ _ _ _ Hacc) as [_ Hnd].
  rewrite (getKey_area_filter _ _ _ _ _ Hacc) in Hg. injection Hg as Hav Hcount.
  assert (Hnd' : NoDup (keys (area_to_count ds)))
    by (rewrite <- Hcount; apply NoDup_keys_filter, Hnd).
  split; [exact Hnd'|]. exists areaAverage.
  split; [exact Hsal|]. split.
  - rewrite <- Hav, <- Hcount. apply keys_averaged.
  - rewrite area_shares_returns in Hshares.
    + injection Hshares as <-. rewrite Hpiece, dict_of_nodup; [reflexivity|].
      rewrite keys_map_value. exact Hnd'.
    + destruct (Nat.eq_dec (List.length (filterVacancies ds)) 0) as [Hz|Hpos];
        [right | left; exact Hpos].
      rewrite <- Hcount, (accumulate_nothing _ _ _ _ Hacc Hz). reflexivity.
Qed.

(** X15. In a data set that [DataSet.__init__] has made, the salary
    levels and the shares by city have [min(10, n)] entries each, for
    the [n] cities of [area_to_count]; their cities are cities of
    [area_to_count], and the share of a city is [round(count / total, 4)]
    for its count there and the number of all vacancies. *)
Theorem DataSet_area_maps_top_ten (py_round : pynum -> Z -> pynum)
    (file : csv_rows) (ds : DataSet) :
  DataSet_init py_round file = Ok ds ->
  List.length (areaSalary ds) = Nat.min 10 (List.length (area_to_count ds))
  /\ List.length (areaPiece ds) = Nat.min 10 (List.length (area_to_count ds))
  /\ (forall k v, dict_get (areaSalary ds) k = Some v ->
                  In k (keys (area_to_count ds)))
  /\ (forall k v, dict_get (areaPiece ds) k = Some v ->
        exists c,
          dict_get (area_to_count ds) k = Some c
          /\ v = py_round (PFloat (Qred (num_to_Q c
                    / inject_Z (Z.of_nat (List.length (filterVacancies ds)))))) 4).
Proof.
  intros Hds.
  destruct (DataSet_init_area_maps py_round file ds Hds)
    as (Hnd & areaAverage & Hsal & Hkeys & Hpiece).
  assert (Hnd1 : NoDup (keys areaAverage)) by (rewrite Hkeys; exact Hnd).
  split; [|split; [|split]].
  - rewrite Hsal, (length_getSortedDict _ Hnd1).
    rewrite <- (length_keys areaAverage), Hkeys, length_keys. reflexivity.
  - rewrite Hpiece, length_getSortedDict, length_map; [reflexivity|].
    rewrite keys_map_value. exact Hnd.
  - intros k v Hget. rewrite Hsal in Hget.
    apply (getSortedDict_entries _ Hnd1) in Hget.
    rewrite <- Hkeys. apply dict_get_Some_in in Hget.
    apply in_map_iff. exists (k, v). auto.
  - intros k v Hget. rewrite Hpiece in Hget.
    apply getSortedDict_entries in Hget; [|rewrite keys_map_value; exact Hnd].
    apply dict_get_map_value in Hget as (c & Hc & k' & ->).
    exists c. split; [exact Hc | reflexivity].
Qed.

Lemma DataSet_area_maps_top_ten_witness :
  let ds := data_set_of sixteen_years_file in
  DataSet_init (fun x _ => x) sixteen_years_file = Ok ds
  /\ List.length (areaSalary ds) = Nat.min 10 (List.length (area_to_count ds))
  /\ List.length (areaPiece ds) = Nat.min 10 (List.length (area_to_count ds))
  /\ (forall k v, dict_get (areaSalary ds) k = Some v ->
                  In k (keys (area_to_count ds)))
  /\ (forall k v, dict_get (areaPiece ds) k = Some v ->
        exists c,
          dict_get (area_to_count ds) k = Some c
          /\ v = PFloat (Qred (num_to_Q c
                   / inject_Z (Z.of_nat (List.length (filterVacancies ds)))))).
Proof.
  intros ds.
  assert (Hds : DataSet_init (fun x _ => x) sixteen_years_file = Ok ds)
    by (vm_compute; reflexivity).
  split; [exact Hds|].
  exact (DataSet_area_maps_top_ten (fun x _ => x) sixteen_years_file ds Hds).
Defined.

(** X16. The report of a data set that [DataSet.__init__] has made, as
    [printGraph] makes it: the loops of [generate_excel] run through
    exactly when the file has vacancies of at least 16 different years
    and at least 10 cities are left in [area_to_count]. *)
Theorem printGraph_needs_16_years_10_cities (py_round : pynum -> Z -> pynum)
    (file : csv_rows) (ds : DataSet) :
  DataSet_init py_round file = Ok ds ->
  (exists sheets, Report.generate_excel (report_of ds) = Some sheets)
  <-> (16 <= List.length (allYears ds) /\ 10 <= List.length (area_to_count ds))%nat.
Proof.
  intros Hds.
  destruct (DataSet_init_year_keys py_round file ds Hds)
    as (_ & Hk1 & Hk2 & Hp1 & Hp2).
  destruct (DataSet_init_area_maps py_round file ds Hds)
    as (Hnd & areaAverage & Hsal & Hkeys & Hpiece).
  assert (Hnd1 : NoDup (keys areaAverage)) by (rewrite Hkeys; exact Hnd).
  rewrite generate_excel_Some. cbn [report_of Report.yearSalary
    Report.yearSalary_needed Report.year_to_count Report.yearCount
    Report.areaSalary Report.areaPiece].
  rewrite <- (length_keys (yearSalary ds)), <- (length_keys (year_to_count ds)),
    <- (length_keys (yearSalary_needed ds)), <- (length_keys (yearCount ds)).
  rewrite Hk1, Hk2, (Permutation_length Hp1), (Permutation_length Hp2).
  rewrite Hsal, (length_getSortedDict _ Hnd1).
  rewrite Hpiece, length_getSortedDict, length_map
    by (rewrite keys_map_value; exact Hnd).
  rewrite <- (length_keys areaAverage), Hkeys, length_keys. lia.
Qed.

Lemma printGraph_needs_16_years_10_cities_witness :
  let ds := data_set_of sixteen_years_file in
  DataSet_init (fun x _ => x) sixteen_years_file = Ok ds
  /\ ((exists sheets, Report.generate_excel (report_of ds) = Some sheets)
      <-> (16 <= List.length (allYears ds)
           /\ 10 <= List.length (area_to_count ds))%nat).
Proof.
  intros ds.
  assert (Hds : DataSet_init (fun x _ => x) sixteen_years_file = Ok ds)
    by (vm_compute; reflexivity).
  split; [exact Hds|].
  exact (printGraph_needs_16_years_10_cities (fun x _ => x) sixteen_years_file ds Hds).
Defined.

(** ** The widths of the columns *)

Lemma list_set_last (pre : list nat) (w x : nat) :
  Report.list_set (List.length pre) x (pre ++ [w]) = pre ++ [x].
Proof. induction pre as [|y pre IH]; simpl; [reflexivity | rewrite IH; reflexivity]. Qed.

Lemma list_max_cons (x : nat) (l : list nat) :
  list_max (x :: l) = Nat.max x (list_max l).
Proof. reflexivity. Qed.

Lemma widen_rest (cell_len : cell -> nat) (pre : list nat) (rest : list cell) :
  forall w j,
    Report.widen cell_len (List.length pre) (S j) rest (pre ++ [w])
    = Some (pre ++ [Nat.max w (list_max (map cell_len rest))]).
Proof.
  induction rest as [|c rest IH]; intros w j; cbn [Report.widen map Nat.eqb].
  - change (list_max []) with 0%nat. rewrite Nat.max_0_r. reflexivity.
  - rewrite nth_error_app2 by lia. rewrite Nat.sub_diag. cbn [nth_error and_then].
    rewrite list_max_cons.
    destruct (Nat.ltb_spec w (cell_len c)) as [Hlt|Hge].
    + rewrite list_set_last, IH. do 3 f_equal. lia.
    + rewrite IH. do 3 f_equal. lia.
Qed.

Lemma measure_columns (cell_len : cell -> nat) (columns : list (list cell)) :
  Forall (fun col => col <> []) columns ->
  forall pre,
    Report.measure cell_len (List.length pre) columns pre
    = Some (pre ++ map (fun col => list_max (map cell_len col)) columns).
Proof.
  induction 1 as [|col columns Hcol _ IH]; intros pre; cbn [Report.measure map].
  - rewrite app_nil_r. reflexivity.
  - destruct col as [|c rest]; [contradiction|].
    cbn [Report.widen Nat.eqb]. rewrite <- (app_nil_r pre) at 2.
    change (pre ++ [] ++ [cell_len c]) with (pre ++ [cell_len c]).
    rewrite app_nil_r, widen_rest. cbn [and_then].
    replace (S (List.length pre))
      with (List.length (pre ++ [Nat.max (cell_len c) (list_max (map cell_len rest))]))
      by (rewrite length_app; simpl; lia).
    rewrite IH, <- app_assoc. reflexivity.
Qed.

(** X17. For a sheet whose columns have cells, [setSizeColumns] reads
    no index out of range and sets for each column, in their order, the
    length of its longest cell plus 2, and 100 when that length is above
    100: no width is above 102, and 102 is the width of a column whose
    longest cell has 100 characters. *)
Theorem setSizeColumns_widths (cell_len : cell -> nat) (columns : list (list cell)) :
  Forall (fun col => col <> []) columns ->
  Report.setSizeColumns cell_len columns
  = Some (map (fun col => column_width (list_max (map cell_len col))) columns)
  /\ (forall widths, Report.setSizeColumns cell_len columns = Some widths ->
        Forall (fun w => (w <= 102)%nat) widths)
  /\ column_width 100 = 102%nat /\ column_width 101 = 100%nat.
Proof.
  intros Hcols.
  assert (Hw : Report.setSizeColumns cell_len columns
               = Some (map (fun col => column_width (list_max (map cell_len col)))
                           columns)).
  { unfold Report.setSizeColumns.
    pose proof (measure_columns cell_len columns Hcols []) as Hm.
    cbn [List.length app] in Hm. rewrite Hm.
    cbn [and_then]. rewrite map_map. reflexivity. }
  split; [exact Hw|]. split; [|split; reflexivity].
  intros widths. rewrite Hw. intros [= <-].
  apply Forall_forall. intros w Hin. apply in_map_iff in Hin as (col & <- & _).
  unfold column_width. destruct (Nat.ltb_spec 100 (list_max (map cell_len col))); lia.
Qed.

Lemma setSizeColumns_widths_witness :
  let cell_len := fun c => match c with
                           | CStr s => String.length s
                           | _ => 4%nat
                           end in
  let columns := [[CStr "Salary"; CNum (PInt 1)]; [CStr "City"; CNone; CStr "Moscow"]] in
  Forall (fun col : list cell => col <> []) columns
  /\ Report.setSizeColumns cell_len columns
     = Some (map (fun col => column_width (list_max (map cell_len col))) columns)
  /\ (forall widths, Report.setSizeColumns cell_len columns = Some widths ->
        Forall (fun w => (w <= 102)%nat) widths)
  /\ column_width 100 = 102%nat /\ column_width 101 = 100%nat.
Proof.
  intros cell_len columns.
  assert (Hcols : Forall (fun col : list cell => col <> []) columns)
    by (repeat constructor; discriminate).
  split; [exact Hcols|].
  exact (setSizeColumns_widths cell_len columns Hcols).
Defined.

(** ** The counts of the data set *)

Lemma length_filter_filter {A : Type} (q p : A -> bool) (l : list A) :
  (List.length (filter q (filter p l)) <= List.length (filter q l))%nat.
Proof.
  induction l as [|x l IH]; cbn [filter]; [lia|].
  destruct (p x), (q x) eqn:Hq; cbn [filter List.length]; try rewrite Hq;
    cbn [List.length]; lia.
Qed.

Lemma group_has (key_str : string) (k : pykey) (vacancies : list Vacancy) :
  In k (record_keys key_str vacancies) ->
  (1 <= List.length (group key_str k vacancies))%nat.
Proof.
  intros Hin. apply record_keys_in in Hin as (v & Hv & Hk).
  assert (Hg : In v (group key_str k vacancies)).
  { unfold group. apply filter_In. split; [exact Hv|]. rewrite Hk.
    apply pykey_eqb_eq. reflexivity. }
  destruct (group key_str k vacancies); [destruct Hg | simpl; lia].
Qed.

Lemma getKey_year_count (ay : list pykey) (vacancies : list Vacancy)
    (key_str : string) (average count : dict pykey pynum) :
  getKey ay vacancies key_str false = Ok (average, count) ->
  total_count count = Z.of_nat (List.length vacancies)
  /\ forall k, In k (keys count) ->
       dict_get count k
       = Some (PInt (Z.of_nat (List.length (group key_str k vacancies)))).
Proof.
  intros Hg. destruct (accumulate vacancies key_str) as [[ks kc]|e] eqn:Hacc.
  - rewrite (getKey_by_year _ _ _ _ _ Hacc) in Hg. injection Hg as _ <-. split.
    + rewrite updateKeys_appends, total_count_app, total_count_zeros.
      rewrite (accumulate_total_count _ _ _ _ Hacc). lia.
    + intros k Hin. apply (getKey_year_entries ay _ _ ks kc k Hacc Hin).
  - unfold getKey in Hg. rewrite Hacc in Hg. discriminate.
Qed.

(** X19. In a data set that [DataSet.__init__] has made, there is one
    vacancy for every line that [csv_reader] has kept; the counts by year
    add up to the number of these lines and the counts by year of the
    profession to the number of its vacancies; and every year of
    [allYears] has in [year_to_count] a count of at least 1 and in
    [yearCount] a count between 0 and that one. *)
Theorem DataSet_counts_every_line (py_round : pynum -> Z -> pynum)
    (file : csv_rows) (ds : DataSet) :
  DataSet_init py_round file = Ok ds ->
  List.length (filterVacancies ds) = List.length (otherLines ds)
  /\ total_count (year_to_count ds) = Z.of_nat (List.length (otherLines ds))
  /\ total_count (yearCount ds) = Z.of_nat (List.length (necessaryVacancies ds))
  /\ forall year, In year (allYears ds) ->
       exists c n,
         dict_get (year_to_count ds) year = Some (PInt c)
         /\ dict_get (yearCount ds) year = Some (PInt n)
         /\ 1 <= c /\ 0 <= n <= c.
Proof.
  intros Hds.
  destruct (DataSet_init_fields py_round file ds Hds)
    as (_ & Hfilter & Hyears & Hall & Hneeded & _).
  destruct (DataSet_init_year_keys py_round file ds Hds)
    as (_ & _ & _ & Hp1 & Hp2).
  destruct (csv_filter_vacancies _ _ _ _ _ Hfilter) as [Hhas Hpart].
  destruct (getYears_keys _ _ Hhas Hyears) as [_ Hay].
  destruct (getKey_year_count _ _ _ _ _ Hall) as [Ht1 Hc1].
  destruct (getKey_year_count _ _ _ _ _ Hneeded) as [Ht2 Hc2].
  assert (Hlen : List.length (filterVacancies ds) = List.length (otherLines ds)).
  { unfold csv_filter in Hfilter. apply bind_Ok in Hfilter as (vs & Hm & Hf).
    injection Hf as <- _. apply (mapM_length _ _ _ Hm). }
  split; [exact Hlen|]. split; [rewrite Ht1, Hlen; reflexivity|].
  split; [exact Ht2|].
  intros year Hin.
  exists (Z.of_nat (List.length (group "year" year (filterVacancies ds)))),
         (Z.of_nat (List.length (group "year" year (necessaryVacancies ds)))).
  split; [apply Hc1, (Permutation_in _ (Permutation_sym Hp1)), Hin|].
  split; [apply Hc2, (Permutation_in _ (Permutation_sym Hp2)), Hin|].
  pose proof (group_has "year" year (filterVacancies ds) (proj1 (Hay year) Hin)) as Hone.
  assert (Hle : (List.length (group "year" year (necessaryVacancies ds))
                 <= List.length (group "year" year (filterVacancies ds)))%nat).
  { rewrite Hpart. unfold group. apply length_filter_filter. }
  lia.
Qed.

Lemma DataSet_counts_every_line_witness :
  let ds := data_set_of sixteen_years_file in
  DataSet_init (fun x _ => x) sixteen_years_file = Ok ds
  /\ List.length (filterVacancies ds) = List.length (otherLines ds)
  /\ total_count (year_to_count ds) = Z.of_nat (List.length (otherLines ds))
  /\ total_count (yearCount ds) = Z.of_nat (List.length (necessaryVacancies ds))
  /\ forall year, In year (allYears ds) ->
       exists c n,
         dict_get (year_to_count ds) year = Some (PInt c)
         /\ dict_get (yearCount ds) year = Some (PInt n)
         /\ 1 <= c /\ 0 <= n <= c.
Proof.
  intros ds.
  assert (Hds : DataSet_init (fun x _ => x) sixteen_years_file = Ok ds)
    by (vm_compute; reflexivity).
  split; [exact Hds|].
  exact (DataSet_counts_every_line (fun x _ => x) sixteen_years_file ds Hds).
Defined.

(** * Properties of the numbers in binary64 *)

(** ** Powers of two *)

Lemma pow2_pos (k : Z) : (0 < 2 ^ k)%Q.
Proof. apply Qpower_0_lt. reflexivity. Qed.

Lemma pow2_add (a b : Z) : (2 ^ (a + b) == 2 ^ a * 2 ^ b)%Q.
Proof. apply Qpower_plus. discriminate. Qed.

Lemma pow2_le (a b : Z) : a <= b -> (2 ^ a <= 2 ^ b)%Q.
Proof. intros H. apply Qpower_le_compat_l; [exact H | discriminate]. Qed.

Lemma pow2_lt (a b : Z) : a < b -> (2 ^ a < 2 ^ b)%Q.
Proof. intros H. apply Qpower_lt_compat_l; [exact H | reflexivity]. Qed.

Lemma pow2_lt_inv (a b : Z) : (2 ^ a < 2 ^ b)%Q -> a < b.
Proof. intros H. apply (Qpower_lt_compat_l_inv 2); [exact H | reflexivity]. Qed.

Lemma pow2_Z (k : Z) : 0 <= k -> (2 ^ k == inject_Z (2 ^ k))%Q.
Proof. intros H. symmetry. apply (Zpower_Qpower 2 k H). Qed.

(** ** Rounding to the nearest float *)

Lemma binade_spec (q : Q) :
  ~ (q == 0)%Q ->
  (2 ^ Binary64.binade q <= Qabs q)%Q /\ (Qabs q < 2 ^ (Binary64.binade q + 1))%Q.
Proof.
  intros Hq. destruct q as [n d]. unfold Binary64.binade. cbn [Qnum Qden].
  set (a := Z.log2 (Z.abs n)). set (b := Z.log2 (Z.pos d)).
  assert (Hn : 0 < Z.abs n).
  { assert (n <> 0); [|lia]. intros ->. apply Hq. reflexivity. }
  destruct (Z.log2_spec (Z.abs n) Hn) as [Ha1 Ha2]. fold a in Ha1, Ha2.
  destruct (Z.log2_spec (Z.pos d) (Pos2Z.is_pos d)) as [Hb1 Hb2]. fold b in Hb1, Hb2.
  pose proof (Z.log2_nonneg (Z.abs n)) as Ha0. fold a in Ha0.
  pose proof (Z.log2_nonneg (Z.pos d)) as Hb0. fold b in Hb0.
  assert (Habs : (Qabs (n # d) == inject_Z (Z.abs n) / inject_Z (Z.pos d))%Q)
    by (change (Qabs (n # d)%Q) with (Z.abs n # d)%Q; apply Qmake_Qdiv).
  assert (Hd : (0 < inject_Z (Z.pos d))%Q) by reflexivity.
  assert (Hx1 : (2 ^ a <= inject_Z (Z.abs n))%Q)
    by (rewrite pow2_Z by exact Ha0; rewrite <- Zle_Qle; exact Ha1).
  assert (Hx2 : (inject_Z (Z.abs n) < 2 ^ (a + 1))%Q)
    by (rewrite pow2_Z by lia; rewrite <- Zlt_Qlt; replace (a + 1) with (Z.succ a) by lia; exact Ha2).
  assert (Hy1 : (2 ^ b <= inject_Z (Z.pos d))%Q)
    by (rewrite pow2_Z by exact Hb0; rewrite <- Zle_Qle; exact Hb1).
  assert (Hy2 : (inject_Z (Z.pos d) < 2 ^ (b + 1))%Q)
    by (rewrite pow2_Z by lia; rewrite <- Zlt_Qlt; replace (b + 1) with (Z.succ b) by lia; exact Hb2).
  assert (Hup : (Qabs (n # d) < 2 ^ (a - b + 1))%Q).
  { rewrite Habs. apply Qlt_shift_div_r; [exact Hd|].
    apply Qlt_le_trans with (2 ^ (a + 1))%Q; [exact Hx2|].
    replace (a + 1) with ((a - b + 1) + b) by lia. rewrite pow2_add.
    apply Qmult_le_l; [apply pow2_pos | exact Hy1]. }
  assert (Hlow : (2 ^ (a - b - 1) <= Qabs (n # d))%Q).
  { rewrite Habs. apply Qle_shift_div_l; [exact Hd|].
    apply Qle_trans with (2 ^ a)%Q; [|exact Hx1].
    replace a with ((a - b - 1) + (b + 1)) at 2 by lia. rewrite pow2_add.
    apply Qmult_le_l; [apply pow2_pos|]. apply Qlt_le_weak. exact Hy2. }
  destruct (Qle_bool (2 ^ (a - b))%Q (Qabs (n # d)%Q)) eqn:E.
  - apply Qle_bool_iff in E. split; [exact E | exact Hup].
  - split; [exact Hlow|]. replace (a - b - 1 + 1) with (a - b) by lia.
    apply Qnot_le_lt. intros Hle. apply Qle_bool_iff in Hle. congruence.
Qed.

Lemma round_half_even_comp (x y : Q) :
  (x == y)%Q -> Binary64.round_half_even x = Binary64.round_half_even y.
Proof.
  intros Hxy. unfold Binary64.round_half_even. rewrite (Qfloor_comp x y Hxy).
  assert (E : (x - inject_Z (Qfloor y) ?= 1 # 2)%Q = (y - inject_Z (Qfloor y) ?= 1 # 2)%Q)
    by (rewrite Hxy; reflexivity).
  rewrite E. reflexivity.
Qed.

Lemma round_half_even_Z (z : Z) : Binary64.round_half_even (inject_Z z) = z.
Proof.
  unfold Binary64.round_half_even. rewrite Qfloor_Z.
  assert (E : (inject_Z z - inject_Z z ?= 1 # 2)%Q = Lt).
  { apply Qlt_alt. setoid_replace (inject_Z z - inject_Z z)%Q with 0%Q by ring.
    reflexivity. }
  rewrite E. reflexivity.
Qed.

Lemma round_half_even_abs (x : Q) (n : Z) :
  (Qabs x <= inject_Z n)%Q -> Z.abs (Binary64.round_half_even x) <= n.
Proof.
  intros Hx. apply Qabs_Qle_condition in Hx as [Hlo Hhi].
  pose proof (Qfloor_le x) as Hf1. pose proof (Qlt_floor x) as Hf2.
  assert (Hfn : Qfloor x <= n).
  { rewrite Zle_Qle. apply Qle_trans with x; assumption. }
  assert (Hnf : - n <= Qfloor x).
  { assert (H : (inject_Z (- n) < inject_Z (Qfloor x + 1))%Q).
    { apply Qle_lt_trans with x%Q; [|exact Hf2]. rewrite inject_Z_opp. exact Hlo. }
    rewrite <- Zlt_Qlt in H. lia. }
  assert (Hup : (inject_Z (Qfloor x) < x)%Q -> Qfloor x + 1 <= n).
  { intros Hlt. assert (H : (inject_Z (Qfloor x) < inject_Z n)%Q)
      by (apply Qlt_le_trans with x; assumption).
    rewrite <- Zlt_Qlt in H. lia. }
  unfold Binary64.round_half_even.
  destruct (Qcompare_spec (x - inject_Z (Qfloor x))%Q (1 # 2)%Q) as [He|Hl|Hg].
  - destruct (Z.even (Qfloor x)); [lia|].
    assert (Hlt : (inject_Z (Qfloor x) < x)%Q).
    { setoid_replace x with ((x - inject_Z (Qfloor x)) + inject_Z (Qfloor x))%Q at 2 by ring.
      rewrite He. rewrite <- (Qplus_0_l (inject_Z (Qfloor x))) at 1.
      apply Qplus_lt_l. reflexivity. }
    specialize (Hup Hlt). lia.
  - lia.
  - assert (Hlt : (inject_Z (Qfloor x) < x)%Q).
    { setoid_replace x with ((x - inject_Z (Qfloor x)) + inject_Z (Qfloor x))%Q at 2 by ring.
      rewrite <- (Qplus_0_l (inject_Z (Qfloor x))) at 1.
      apply Qplus_lt_l. apply Qlt_trans with (1 # 2)%Q; [reflexivity | exact Hg]. }
    specialize (Hup Hlt). lia.
Qed.

Lemma Qabs_div_pow2 (q : Q) (p : Z) : (Qabs (q / 2 ^ p) == Qabs q / 2 ^ p)%Q.
Proof.
  unfold Qdiv. rewrite Qabs_Qmult, Qabs_Qinv.
  rewrite (Qabs_pos (2 ^ p)%Q) by (apply Qlt_le_weak, pow2_pos). reflexivity.
Qed.

Lemma Qabs_mul_pow2 (q : Q) (p : Z) : (Qabs (q * 2 ^ p) == Qabs q * 2 ^ p)%Q.
Proof.
  rewrite Qabs_Qmult.
  rewrite (Qabs_pos (2 ^ p)%Q) by (apply Qlt_le_weak, pow2_pos). reflexivity.
Qed.

Lemma Qabs_inject_Z (z : Z) : (Qabs (inject_Z z) == inject_Z (Z.abs z))%Q.
Proof. reflexivity. Qed.

(** The scaled value that is rounded has a magnitude below [2^53]. *)
Lemma scaled_below (q : Q) :
  ~ (q == 0)%Q -> (Qabs (q / 2 ^ Binary64.ulp_exponent q) < 2 ^ 53)%Q.
Proof.
  intros Hq. destruct (binade_spec q Hq) as [_ Hup].
  rewrite Qabs_div_pow2. apply Qlt_shift_div_r; [apply pow2_pos|].
  rewrite <- pow2_add. apply Qlt_le_trans with (2 ^ (Binary64.binade q + 1))%Q; [exact Hup|].
  apply pow2_le. unfold Binary64.ulp_exponent. lia.
Qed.

Lemma mantissa_bound (q : Q) :
  ~ (q == 0)%Q -> Z.abs (Binary64.round_half_even (q / 2 ^ Binary64.ulp_exponent q)) <= 2 ^ 53.
Proof.
  intros Hq. apply round_half_even_abs.
  rewrite <- pow2_Z by lia. apply Qlt_le_weak, scaled_below, Hq.
Qed.

Lemma max_float_below : (Binary64.max_float < 2 ^ 1024)%Q.
Proof.
  unfold Binary64.max_float. replace 1024 with (53 + 971) by reflexivity.
  rewrite pow2_add. apply Qmult_lt_compat_r; [apply pow2_pos|].
  rewrite pow2_Z by lia. rewrite <- Zlt_Qlt. lia.
Qed.

Lemma nearest_abs (q : Q) :
  (Qabs (Binary64.nearest q)
   == inject_Z (Z.abs (Binary64.round_half_even (q / 2 ^ Binary64.ulp_exponent q)))
      * 2 ^ Binary64.ulp_exponent q)%Q.
Proof. unfold Binary64.nearest. rewrite Qabs_mul_pow2. reflexivity. Qed.

(** A finite result is at most the largest float. *)
Lemma nearest_le_max (q : Q) :
  ~ (q == 0)%Q -> (Qabs (Binary64.nearest q) < 2 ^ 1024)%Q ->
  (Qabs (Binary64.nearest q) <= Binary64.max_float)%Q.
Proof.
  intros Hq Hlt. pose proof (mantissa_bound q Hq) as Hm.
  rewrite nearest_abs in Hlt |- *.
  set (m := Z.abs (Binary64.round_half_even (q / 2 ^ Binary64.ulp_exponent q))) in *.
  set (p := Binary64.ulp_exponent q) in *.
  destruct (Z_le_gt_dec p 970) as [Hp|Hp].
  - apply Qle_trans with (inject_Z (2 ^ 53) * 2 ^ 970)%Q.
    + apply Qle_trans with (inject_Z (2 ^ 53) * 2 ^ p)%Q.
      * apply Qmult_le_compat_r; [rewrite <- Zle_Qle; exact Hm|].
        apply Qlt_le_weak, pow2_pos.
      * apply Qmult_le_l; [reflexivity | apply pow2_le; exact Hp].
    + unfold Binary64.max_float. replace 971 with (1 + 970) by reflexivity.
      rewrite pow2_add, Qmult_assoc.
      apply Qmult_le_compat_r; [|apply Qlt_le_weak, pow2_pos].
      rewrite (pow2_Z 1) by lia. rewrite <- inject_Z_mult, <- Zle_Qle. lia.
  - assert (Hk : (inject_Z m * 2 ^ p == inject_Z (m * 2 ^ (p - 971)) * 2 ^ 971)%Q).
    { replace p with ((p - 971) + 971) at 1 by lia.
      rewrite pow2_add, inject_Z_mult, (pow2_Z (p - 971)) by lia. ring. }
    rewrite Hk in Hlt |- *. unfold Binary64.max_float.
    apply Qmult_le_compat_r; [|apply Qlt_le_weak, pow2_pos].
    rewrite <- Zle_Qle.
    assert (H : (inject_Z (m * 2 ^ (p - 971)) < inject_Z (2 ^ 53))%Q).
    { apply Qmult_lt_r with (2 ^ 971)%Q; [apply pow2_pos|].
      rewrite <- (pow2_Z 53) by lia. rewrite <- pow2_add. exact Hlt. }
    rewrite <- Zlt_Qlt in H. lia.
Qed.

Lemma round64_finite_le_max (q f : Q) :
  Binary64.round64 q = Finite f -> (Qabs f <= Binary64.max_float)%Q.
Proof.
  unfold Binary64.round64. destruct (Qeq_bool q 0) eqn:Hz.
  - intros [= <-]. discriminate.
  - destruct (Qle_bool (2 ^ 1024) (Qabs (Binary64.nearest q))) eqn:Hover; [discriminate|].
    intros [= <-]. rewrite (Qabs_wd _ _ (Qred_correct (Binary64.nearest q))). apply nearest_le_max.
    + intros H. apply Qeq_bool_iff in H. congruence.
    + apply Qnot_le_lt. intros H. apply Qle_bool_iff in H. congruence.
Qed.

(** A value within the range of the floats rounds to a float. *)
Lemma round64_in_range (q : Q) :
  (Qabs q <= Binary64.max_float)%Q -> exists f, Binary64.round64 q = Finite f.
Proof.
  intros Hrange. unfold Binary64.round64. destruct (Qeq_bool q 0) eqn:Hz; [eauto|].
  assert (Hq : ~ (q == 0)%Q) by (intros H; apply Qeq_bool_iff in H; congruence).
  destruct (Qle_bool (2 ^ 1024) (Qabs (Binary64.nearest q))) eqn:Hover; [|eauto].
  exfalso. apply Qle_bool_iff in Hover.
  apply (Qlt_not_le _ _ max_float_below). apply Qle_trans with (Qabs (Binary64.nearest q)); [exact Hover|].
  destruct (binade_spec q Hq) as [Hlow _].
  assert (He : Binary64.binade q < 1024).
  { apply pow2_lt_inv. apply Qle_lt_trans with (Qabs q); [exact Hlow|].
    apply Qle_lt_trans with Binary64.max_float; [exact Hrange | apply max_float_below]. }
  pose proof (mantissa_bound q Hq) as Hm.
  rewrite nearest_abs.
  set (m := Z.abs (Binary64.round_half_even (q / 2 ^ Binary64.ulp_exponent q))) in *.
  destruct (Z_le_gt_dec (Binary64.ulp_exponent q) 970) as [Hp|Hp].
  - apply Qle_trans with (inject_Z (2 ^ 53) * 2 ^ 970)%Q.
    + apply Qle_trans with (inject_Z (2 ^ 53) * 2 ^ Binary64.ulp_exponent q)%Q.
      * apply Qmult_le_compat_r; [rewrite <- Zle_Qle; exact Hm|].
        apply Qlt_le_weak, pow2_pos.
      * apply Qmult_le_l; [reflexivity | apply pow2_le; exact Hp].
    + unfold Binary64.max_float. replace 971 with (1 + 970) by reflexivity.
      rewrite pow2_add, Qmult_assoc.
      apply Qmult_le_compat_r; [|apply Qlt_le_weak, pow2_pos].
      rewrite (pow2_Z 1) by lia. rewrite <- inject_Z_mult, <- Zle_Qle. lia.
  - assert (Hp' : Binary64.ulp_exponent q = 971) by (unfold Binary64.ulp_exponent in *; lia).
    unfold Binary64.max_float. rewrite Hp'.
    apply Qmult_le_compat_r; [|apply Qlt_le_weak, pow2_pos].
    rewrite <- Zle_Qle. subst m. apply round_half_even_abs.
    rewrite Hp', Qabs_div_pow2. apply Qle_shift_div_r; [apply pow2_pos|].
    exact Hrange.
Qed.

(** A number with a mantissa of at most 53 bits and an exponent in range
    is a float. *)
Lemma round64_exact (m e : Z) :
  Z.abs m < 2 ^ 53 -> -1074 <= e <= 971 ->
  Binary64.round64 (inject_Z m * 2 ^ e) = Finite (Qred (inject_Z m * 2 ^ e)).
Proof.
  intros Hm He. unfold Binary64.round64.
  destruct (Qeq_bool (inject_Z m * 2 ^ e) 0) eqn:Hz.
  - apply Qeq_bool_iff in Hz. f_equal. change 0%Q with (Qred 0).
    apply Qred_complete. symmetry. exact Hz.
  - set (q := (inject_Z m * 2 ^ e)%Q) in *.
    assert (Hq : ~ (q == 0)%Q) by (intros H; apply Qeq_bool_iff in H; congruence).
    destruct (binade_spec q Hq) as [Hlow _].
    assert (Hp : Binary64.ulp_exponent q <= e).
    { assert (Binary64.binade q < 53 + e); [|unfold Binary64.ulp_exponent; lia].
      apply pow2_lt_inv. apply Qle_lt_trans with (Qabs q); [exact Hlow|].
      unfold q. rewrite Qabs_mul_pow2, pow2_add.
      apply Qmult_lt_compat_r; [apply pow2_pos|].
      rewrite pow2_Z by lia. rewrite Qabs_inject_Z, <- Zlt_Qlt. exact Hm. }
    assert (Hn : (Binary64.nearest q == q)%Q).
    { unfold Binary64.nearest. set (p := Binary64.ulp_exponent q) in *.
      assert (HP : ~ (2 ^ p == 0)%Q) by apply Qnot_eq_sym, Qlt_not_eq, pow2_pos.
      assert (Hs : (q / 2 ^ p == inject_Z (m * 2 ^ (e - p)))%Q).
      { unfold q. replace e with ((e - p) + p) at 1 by lia.
        rewrite pow2_add, inject_Z_mult, (pow2_Z (e - p)) by lia.
        generalize (inject_Z m) (inject_Z (2 ^ (e - p))) (2 ^ p)%Q HP.
        intros x y z Hz'. field. exact Hz'. }
      rewrite (round_half_even_comp _ _ Hs), round_half_even_Z, <- Hs.
      generalize (2 ^ p)%Q HP. intros z Hz'. field. exact Hz'. }
    assert (Hfin : Qle_bool (2 ^ 1024) (Qabs (Binary64.nearest q)) = false).
    { apply not_true_iff_false. intros H. apply Qle_bool_iff in H.
      apply (Qlt_not_le _ _ max_float_below).
      apply Qle_trans with (Qabs (Binary64.nearest q)); [exact H|].
      rewrite Hn. unfold q, Binary64.max_float. rewrite Qabs_mul_pow2.
      apply Qle_trans with (inject_Z (2 ^ 53 - 1) * 2 ^ e)%Q.
      - apply Qmult_le_compat_r; [|apply Qlt_le_weak, pow2_pos].
        rewrite Qabs_inject_Z, <- Zle_Qle. lia.
      - apply Qmult_le_l; [reflexivity | apply pow2_le; lia]. }
    rewrite Hfin. f_equal. apply Qred_complete. exact Hn.
Qed.

Lemma binade_unique (q : Q) (e : Z) :
  (2 ^ e <= Qabs q)%Q -> (Qabs q < 2 ^ (e + 1))%Q -> Binary64.binade q = e.
Proof.
  intros Hlow Hup.
  assert (Hq : ~ (q == 0)%Q).
  { intros H. apply (Qlt_not_le _ _ (pow2_pos e)).
    apply Qle_trans with (Qabs q); [exact Hlow|].
    rewrite (Qabs_wd _ _ H). discriminate. }
  destruct (binade_spec q Hq) as [Hlow' Hup'].
  assert (e < Binary64.binade q + 1)
    by (apply pow2_lt_inv; apply Qle_lt_trans with (Qabs q); assumption).
  assert (Binary64.binade q < e + 1)
    by (apply pow2_lt_inv; apply Qle_lt_trans with (Qabs q); assumption).
  lia.
Qed.

Lemma binade_comp (q q' : Q) :
  (q == q')%Q -> ~ (q == 0)%Q -> Binary64.binade q = Binary64.binade q'.
Proof.
  intros Heq Hq. symmetry. destruct (binade_spec q Hq) as [Hlow Hup].
  apply binade_unique; rewrite <- (Qabs_wd _ _ Heq); assumption.
Qed.

Lemma nearest_comp (q q' : Q) :
  (q == q')%Q -> ~ (q == 0)%Q -> (Binary64.nearest q == Binary64.nearest q')%Q.
Proof.
  intros Heq Hq. unfold Binary64.nearest, Binary64.ulp_exponent.
  rewrite <- (binade_comp q q' Heq Hq).
  set (p := Z.max (Binary64.binade q - 52) (-1074)).
  assert (Hs : (q / 2 ^ p == q' / 2 ^ p)%Q) by (rewrite Heq; reflexivity).
  rewrite (round_half_even_comp _ _ Hs). reflexivity.
Qed.

(** Equal numbers round to the same float. *)
Lemma round64_comp (q q' : Q) :
  (q == q')%Q -> Binary64.round64 q = Binary64.round64 q'.
Proof.
  intros Heq. unfold Binary64.round64.
  assert (Hz : Qeq_bool q 0 = Qeq_bool q' 0).
  { destruct (Qeq_bool q 0) eqn:E; symmetry.
    - apply Qeq_bool_iff. rewrite <- Heq. apply Qeq_bool_iff, E.
    - apply not_true_iff_false. intros H. apply Qeq_bool_iff in H.
      apply not_true_iff_false in E. apply E. apply Qeq_bool_iff.
      rewrite Heq. exact H. }
  rewrite <- Hz. destruct (Qeq_bool q 0) eqn:E; [reflexivity|].
  assert (Hq : ~ (q == 0)%Q) by (intros H; apply Qeq_bool_iff in H; congruence).
  pose proof (nearest_comp q q' Heq Hq) as Hn.
  assert (Ho : Qle_bool (2 ^ 1024) (Qabs (Binary64.nearest q))
               = Qle_bool (2 ^ 1024) (Qabs (Binary64.nearest q'))).
  { destruct (Qle_bool (2 ^ 1024) (Qabs (Binary64.nearest q))) eqn:E1; symmetry.
    - apply Qle_bool_iff. rewrite <- (Qabs_wd _ _ Hn). apply Qle_bool_iff, E1.
    - apply not_true_iff_false. intros H. apply Qle_bool_iff in H.
      apply not_true_iff_false in E1. apply E1. apply Qle_bool_iff.
      rewrite (Qabs_wd _ _ Hn). exact H. }
  assert (Hs : Qle_bool q 0 = Qle_bool q' 0).
  { destruct (Qle_bool q 0) eqn:E1; symmetry.
    - apply Qle_bool_iff. rewrite <- Heq. apply Qle_bool_iff, E1.
    - apply not_true_iff_false. intros H. apply Qle_bool_iff in H.
      apply not_true_iff_false in E1. apply E1. apply Qle_bool_iff.
      rewrite Heq. exact H. }
  rewrite <- Ho, <- Hs.
  destruct (Qle_bool (2 ^ 1024) (Qabs (Binary64.nearest q))); [reflexivity|].
  f_equal. apply Qred_complete. exact Hn.
Qed.

Lemma round_half_even_zero (x : Q) :
  Binary64.round_half_even x = 0 -> (Qabs x <= 1 # 2)%Q.
Proof.
  unfold Binary64.round_half_even. intros Hr.
  pose proof (Qfloor_le x) as Hf1. pose proof (Qlt_floor x) as Hf2.
  apply Qabs_Qle_condition.
  destruct (Qcompare_spec (x - inject_Z (Qfloor x))%Q (1 # 2)%Q) as [He|Hl|Hg].
  - destruct (Z.even (Qfloor x)) eqn:Ev.
    + rewrite Hr in He, Hf1. split.
      * apply Qle_trans with 0%Q; [discriminate | exact Hf1].
      * setoid_replace x with (x - inject_Z 0)%Q by ring. rewrite He. apply Qle_refl.
    + assert (Hm : Qfloor x = -1) by lia. rewrite Hm in He.
      assert (Hx : (x == - (1 # 2))%Q).
      { setoid_replace x with ((x - inject_Z (-1)) + inject_Z (-1))%Q by ring.
        rewrite He. reflexivity. }
      rewrite Hx. split; [apply Qle_refl | discriminate].
  - rewrite Hr in Hl, Hf1. split.
    + apply Qle_trans with 0%Q; [discriminate | exact Hf1].
    + setoid_replace x with (x - inject_Z 0)%Q by ring. apply Qlt_le_weak, Hl.
  - assert (Hm : Qfloor x = -1) by lia. rewrite Hm in Hg, Hf2. split.
    + setoid_replace x with ((x - inject_Z (-1)) + inject_Z (-1))%Q by ring.
      setoid_replace (- (1 # 2))%Q with ((1 # 2) + inject_Z (-1))%Q by reflexivity.
      apply Qplus_le_l. apply Qlt_le_weak, Hg.
    + apply Qle_trans with 0%Q; [|discriminate]. apply Qlt_le_weak, Hf2.
Qed.

(** What rounds to zero is below the least float. *)
Lemma round64_zero (q f : Q) :
  Binary64.round64 q = Finite f -> (f == 0)%Q -> (Qabs q < 2 ^ (-1074))%Q.
Proof.
  unfold Binary64.round64. destruct (Qeq_bool q 0) eqn:Hz.
  - intros _ _. apply Qeq_bool_iff in Hz. rewrite (Qabs_wd _ _ Hz). reflexivity.
  - assert (Hq : ~ (q == 0)%Q) by (intros H; apply Qeq_bool_iff in H; congruence).
    destruct (Qle_bool (2 ^ 1024) (Qabs (Binary64.nearest q))); [discriminate|].
    intros Hf Hf0.
    assert (Hzero : (Binary64.nearest q == 0)%Q).
    { pose proof (Qred_correct (Binary64.nearest q)) as Hc.
      replace (Qred (Binary64.nearest q)) with f in Hc by congruence.
      rewrite <- Hc. exact Hf0. }
    unfold Binary64.nearest in Hzero.
    set (p := Binary64.ulp_exponent q) in *.
    assert (Hm : Binary64.round_half_even (q / 2 ^ p) = 0).
    { apply Qmult_integral in Hzero as [H|H].
      - rewrite <- (Qfloor_Z (Binary64.round_half_even (q / 2 ^ p))).
        rewrite (Qfloor_comp _ _ H). reflexivity.
      - exfalso. apply (Qlt_not_eq _ _ (pow2_pos p)). symmetry. exact H. }
    apply round_half_even_zero in Hm. rewrite Qabs_div_pow2 in Hm.
    assert (Hhalf : (Qabs q <= 2 ^ (p - 1))%Q).
    { replace (p - 1) with (-1 + p) by lia. rewrite pow2_add.
      assert (HP : ~ (2 ^ p == 0)%Q) by apply Qnot_eq_sym, Qlt_not_eq, pow2_pos.
      assert (Hq' : (Qabs q == Qabs q / 2 ^ p * 2 ^ p)%Q).
      { generalize (Qabs q) (2 ^ p)%Q HP. intros a b Hb. field. exact Hb. }
      rewrite Hq' at 1.
      apply Qmult_le_compat_r; [exact Hm | apply Qlt_le_weak, pow2_pos]. }
    destruct (binade_spec q Hq) as [Hlow _].
    assert (He : Binary64.binade q <= p - 1).
    { assert (Binary64.binade q < p); [|lia].
      apply pow2_lt_inv. apply Qle_lt_trans with (Qabs q); [exact Hlow|].
      apply Qle_lt_trans with (2 ^ (p - 1))%Q; [exact Hhalf | apply pow2_lt; lia]. }
    assert (Hp : p = -1074) by (unfold p, Binary64.ulp_exponent in *; lia).
    apply Qle_lt_trans with (2 ^ (p - 1))%Q; [exact Hhalf|].
    apply pow2_lt. lia.
Qed.

(** The float of an int other than 0 is not zero. *)
Lemma float_of_int_nonzero (z : Z) (x : pyfloat) :
  z <> 0 -> Binary64.float_of_int z = Ok x -> Binary64.is_zero x = false.
Proof.
  intros Hz. unfold Binary64.float_of_int.
  destruct (Binary64.round64 (inject_Z z)) as [q| |] eqn:Hr; [|discriminate|].
  - intros [= <-]. cbn [Binary64.is_zero].
    apply not_true_iff_false. intros H. apply Qeq_bool_iff in H.
    pose proof (round64_zero _ _ Hr H) as Hsmall. rewrite Qabs_inject_Z in Hsmall.
    assert (H1 : (inject_Z 1 <= inject_Z (Z.abs z))%Q) by (rewrite <- Zle_Qle; lia).
    apply (Qlt_not_le _ _ Hsmall). apply Qle_trans with (inject_Z 1); [|exact H1].
    apply Qlt_le_weak. apply (pow2_lt (-1074) 0). lia.
  - intros [= <-]. reflexivity.
Qed.

(** ** The range of the floats *)

Lemma max_float_Z : (Binary64.max_float == inject_Z ((2 ^ 53 - 1) * 2 ^ 971))%Q.
Proof.
  unfold Binary64.max_float. rewrite inject_Z_mult, (pow2_Z 971) by lia.
  reflexivity.
Qed.

(** A float that [float()] returns is within the range of the floats. *)
Lemma py_float_range (v : pyval) (f : Q) :
  Binary64.py_float v = Ok (Finite f) -> (Qabs f <= Binary64.max_float)%Q.
Proof.
  destruct v as [s|z|b]; cbn [Binary64.py_float].
  - unfold Binary64.float_of_str.
    destruct (Binary64.text_value s) as [[q|neg|]|e]; try discriminate.
    intros [= Hq]. apply (round64_finite_le_max q f Hq).
  - unfold Binary64.float_of_int.
    destruct (Binary64.round64 (inject_Z z)) as [q| |] eqn:Hr; try discriminate.
    intros [= <-]. apply (round64_finite_le_max _ _ Hr).
  - intros [= <-]. apply Qle_bool_iff. destruct b; vm_compute; reflexivity.
Qed.

Lemma floor_range (f : Q) :
  (Qabs f <= Binary64.max_float)%Q ->
  Z.abs (Qfloor f) <= (2 ^ 53 - 1) * 2 ^ 971.
Proof.
  rewrite max_float_Z. set (M := (2 ^ 53 - 1) * 2 ^ 971).
  intros Hf. apply Qabs_Qle_condition in Hf as [Hlo Hhi].
  rewrite <- inject_Z_opp in Hlo.
  apply Qfloor_resp_le in Hlo, Hhi. rewrite Qfloor_Z in Hlo, Hhi. lia.
Qed.

Lemma mean_range (a b : Z) :
  Z.abs a <= (2 ^ 53 - 1) * 2 ^ 971 -> Z.abs b <= (2 ^ 53 - 1) * 2 ^ 971 ->
  (Qabs (inject_Z (b + a) / inject_Z 2) <= Binary64.max_float)%Q.
Proof.
  rewrite max_float_Z. set (M := (2 ^ 53 - 1) * 2 ^ 971). intros Ha Hb.
  apply Qabs_Qle_condition. split.
  - apply Qle_shift_div_l; [reflexivity|].
    rewrite <- inject_Z_opp, <- inject_Z_mult, <- Zle_Qle. lia.
  - apply Qle_shift_div_r; [reflexivity|].
    rewrite <- inject_Z_mult, <- Zle_Qle. lia.
Qed.

(** ** [Salary.__init__] in binary64 *)

Lemma to_float_raises (a : Binary64.num) (e : exn) :
  Binary64.to_float a = Raise e ->
  e = OverflowError
  /\ exists z, a = Binary64.Int z /\ Binary64.float_of_int z = Raise OverflowError.
Proof.
  destruct a as [z|x]; cbn [Binary64.to_float]; [|discriminate].
  unfold Binary64.float_of_int.
  destruct (Binary64.round64 (inject_Z z)) eqn:Hr; try discriminate.
  intros [= <-]. split; [reflexivity|]. exists z. split; [reflexivity|].
  rewrite Hr. reflexivity.
Qed.

Lemma py_mul_floats (rate : Binary64.num) (r a : Q) :
  Binary64.to_float rate = Ok (Finite r) ->
  Binary64.py_mul rate (Binary64.Float (Finite a))
  = Ok (Binary64.Float (Binary64.round64 (r * a))).
Proof.
  intros Hr. destruct rate as [z|x]; cbn [Binary64.py_mul Binary64.to_float] in *;
    rewrite Hr; reflexivity.
Qed.

(** The rates of [currency_to_rub] are finite numbers. *)
Lemma currency_rates (k : pykey) (rate : Binary64.num) :
  dict_get Binary64.currency_to_rub k = Some rate ->
  exists r, Binary64.to_float rate = Ok (Finite r).
Proof.
  assert (Hlit : forall q, Qle_bool (Qabs q) Binary64.max_float = true ->
            exists r, Binary64.to_float (Binary64.literal q) = Ok (Finite r)).
  { intros q Hq. apply Qle_bool_iff in Hq.
    destruct (round64_in_range q Hq) as [r Hr]. exists r.
    unfold Binary64.literal. cbn [Binary64.to_float]. rewrite Hr. reflexivity. }
  assert (Hint : forall z, Qle_bool (Qabs (inject_Z z)) Binary64.max_float = true ->
            exists r, Binary64.to_float (Binary64.Int z) = Ok (Finite r)).
  { intros z Hz. apply Qle_bool_iff in Hz.
    destruct (round64_in_range _ Hz) as [r Hr]. exists r.
    cbn [Binary64.to_float]. unfold Binary64.float_of_int. rewrite Hr. reflexivity. }
  intros Hget. apply dict_get_Some_in in Hget.
  unfold Binary64.currency_to_rub in Hget. cbn [In] in Hget.
  repeat (destruct Hget as [Hget|Hget];
          [injection Hget as _ <-;
           first [apply Hlit | apply Hint]; vm_compute; reflexivity|]).
  destruct Hget.
Qed.

(** The part of [Salary.__init__] before the rate is looked up. *)
Lemma Salary_init_bounds (dic : dict string pyval)
    (raw_from raw_to c : pyval) (f t : Q) :
  dict_get dic "salary_from" = Some raw_from ->
  Binary64.py_float raw_from = Ok (Finite f) ->
  dict_get dic "salary_to" = Some raw_to ->
  Binary64.py_float raw_to = Ok (Finite t) ->
  dict_get dic "salary_currency" = Some c ->
  exists average,
    Binary64.round64 (inject_Z (Qfloor t + Qfloor f) / inject_Z 2) = Finite average
    /\ Binary64.Salary_init dic
       = (rate <- dict_getitem Binary64.currency_to_rub (hash_key c) ;;
          salaryRub <- Binary64.py_mul rate (Binary64.Float (Finite average)) ;;
          Ok {| Binary64.salary_from := Qfloor f;
                Binary64.salary_to := Qfloor t;
                Binary64.salary_currency := c;
                Binary64.averageSalary := Binary64.Float (Finite average);
                Binary64.salaryRub := salaryRub |}).
Proof.
  intros Hfrom Hf Hto Ht Hc.
  pose proof (floor_range f (py_float_range _ _ Hf)) as Hfr.
  pose proof (floor_range t (py_float_range _ _ Ht)) as Htr.
  destruct (round64_in_range _ (mean_range (Qfloor f) (Qfloor t) Hfr Htr))
    as [average Havg].
  exists average. split; [exact Havg|].
  unfold Binary64.Salary_init, dict_getitem at 1 2 3.
  rewrite Hfrom, Hto, Hc. cbn [bind]. rewrite Hf, Ht.
  cbn [bind Binary64.math_floor Binary64.py_add Binary64.py_truediv Z.eqb].
  rewrite Havg. reflexivity.
Qed.

(** C1. For a row whose [salary_from] reads as the float [f], whose
    [salary_to] reads as the float [t] and whose currency has a rate in
    [currency_to_rub], [Salary] is constructed, with the bounds [floor f]
    and [floor t]; [averageSalary] is the float nearest to
    [(floor f + floor t) / 2], which is that number itself when the sum of
    the bounds is below [2^53], and is not floored; [salaryRub] is the
    product of the rate and [averageSalary] as floats, which is the float
    nearest to their product, or an infinity. *)
Theorem Salary_init_average_and_rub (dic : dict string pyval)
    (raw_from raw_to c : pyval) (f t : Q) (rate : Binary64.num) :
  dict_get dic "salary_from" = Some raw_from ->
  Binary64.py_float raw_from = Ok (Finite f) ->
  dict_get dic "salary_to" = Some raw_to ->
  Binary64.py_float raw_to = Ok (Finite t) ->
  dict_get dic "salary_currency" = Some c ->
  dict_get Binary64.currency_to_rub (hash_key c) = Some rate ->
  exists s average r,
    Binary64.Salary_init dic = Ok s
    /\ Binary64.salary_from s = Qfloor f
    /\ Binary64.salary_to s = Qfloor t
    /\ Binary64.averageSalary s = Binary64.Float (Finite average)
    /\ Binary64.round64 ((inject_Z (Qfloor f) + inject_Z (Qfloor t)) / 2)
       = Finite average
    /\ (Z.abs (Qfloor f + Qfloor t) < 2 ^ 53 ->
        (average == (inject_Z (Qfloor f) + inject_Z (Qfloor t)) / 2)%Q)
    /\ Binary64.to_float rate = Ok (Finite r)
    /\ Binary64.py_mul rate (Binary64.averageSalary s) = Ok (Binary64.salaryRub s)
    /\ Binary64.salaryRub s = Binary64.Float (Binary64.round64 (r * average)).
Proof.
  intros Hfrom Hf Hto Ht Hc Hrate.
  destruct (Salary_init_bounds dic raw_from raw_to c f t Hfrom Hf Hto Ht Hc)
    as (average & Havg & Hinit).
  destruct (currency_rates _ _ Hrate) as [r Hr].
  assert (Hmean : (inject_Z (Qfloor t + Qfloor f) / inject_Z 2
                   == (inject_Z (Qfloor f) + inject_Z (Qfloor t)) / 2)%Q).
  { rewrite inject_Z_plus, Qplus_comm. reflexivity. }
  rewrite (round64_comp _ _ Hmean) in Havg.
  eexists _, average, r. split.
  - rewrite Hinit. unfold dict_getitem. rewrite Hrate. cbn [bind].
    rewrite (py_mul_floats rate r average Hr). reflexivity.
  - cbn [Binary64.salary_from Binary64.salary_to Binary64.averageSalary
         Binary64.salaryRub].
    repeat (split; [reflexivity|]). split; [exact Havg|]. split.
    + intros Hsmall.
      assert (Hhalf : ((inject_Z (Qfloor f) + inject_Z (Qfloor t)) / 2
                       == inject_Z (Qfloor f + Qfloor t) * 2 ^ (-1))%Q).
      { rewrite inject_Z_plus. reflexivity. }
      rewrite (round64_comp _ _ Hhalf) in Havg.
      rewrite round64_exact in Havg by (first [exact Hsmall | lia]).
      assert (Ha : average = Qred (inject_Z (Qfloor f + Qfloor t) * 2 ^ (-1)))
        by congruence.
      rewrite Ha. apply Qeq_trans with (inject_Z (Qfloor f + Qfloor t) * 2 ^ (-1))%Q;
        [apply Qred_correct | symmetry; exact Hhalf].
    + split; [exact Hr|]. split; [|reflexivity].
      apply (py_mul_floats rate r average Hr).
Qed.

(** The row with bounds 100.9 and 201.5 in EUR: the bounds become 100 and
    201, their mean is 150.5 and [salaryRub] is the float nearest to the
    product of the floats 59.9 and 150.5. *)
Lemma Salary_init_average_and_rub_witness :
  dict_get euro_row "salary_from" = Some (VStr "100.9")
  /\ Binary64.py_float (VStr "100.9")
     = Ok (Finite (3550103143763149 # 35184372088832))
  /\ dict_get euro_row "salary_to" = Some (VStr "201.5")
  /\ Binary64.py_float (VStr "201.5") = Ok (Finite (403 # 2))
  /\ dict_get euro_row "salary_currency" = Some (VStr "EUR")
  /\ dict_get Binary64.currency_to_rub (hash_key (VStr "EUR"))
     = Some (Binary64.literal (599 # 10))
  /\ exists s average r,
       Binary64.Salary_init euro_row = Ok s
       /\ Binary64.salary_from s = Qfloor (3550103143763149 # 35184372088832)
       /\ Binary64.salary_to s = Qfloor (403 # 2)
       /\ Binary64.averageSalary s = Binary64.Float (Finite average)
       /\ Binary64.round64
            ((inject_Z (Qfloor (3550103143763149 # 35184372088832))
              + inject_Z (Qfloor (403 # 2))) / 2)
          = Finite average
       /\ (Z.abs (Qfloor (3550103143763149 # 35184372088832) + Qfloor (403 # 2))
           < 2 ^ 53 ->
           (average == (inject_Z (Qfloor (3550103143763149 # 35184372088832))
                        + inject_Z (Qfloor (403 # 2))) / 2)%Q)
       /\ Binary64.to_float (Binary64.literal (599 # 10)) = Ok (Finite r)
       /\ Binary64.py_mul (Binary64.literal (599 # 10)) (Binary64.averageSalary s)
          = Ok (Binary64.salaryRub s)
       /\ Binary64.salaryRub s = Binary64.Float (Binary64.round64 (r * average)).
Proof.
  assert (Hf : Binary64.py_float (VStr "100.9")
               = Ok (Finite (3550103143763149 # 35184372088832)))
    by (vm_compute; reflexivity).
  assert (Ht : Binary64.py_float (VStr "201.5") = Ok (Finite (403 # 2)))
    by (vm_compute; reflexivity).
  split; [reflexivity|]. split; [exact Hf|]. split; [reflexivity|].
  split; [exact Ht|]. split; [reflexivity|]. split; [reflexivity|].
  exact (Salary_init_average_and_rub euro_row (VStr "100.9") (VStr "201.5")
           (VStr "EUR") _ _ (Binary64.literal (599 # 10))
           eq_refl Hf eq_refl Ht eq_refl eq_refl).
Defined.

(** The values of that row: [salaryRub] is 9014.949999999999, the float
    nearest to the product of the floats 59.9 and 150.5, and not their
    product. *)
Lemma Salary_init_euro_row :
  exists s,
    Binary64.Salary_init euro_row = Ok s
    /\ Binary64.salary_from s = 100 /\ Binary64.salary_to s = 201
    /\ Binary64.averageSalary s = Binary64.Float (Finite (301 # 2))
    /\ Binary64.salaryRub s
       = Binary64.Float (Finite (4956021174409625 # 549755813888))
    /\ ~ ((4956021174409625 # 549755813888)
          == (8430175552484147 # 140737488355328) * (301 # 2))%Q.
Proof.
  eexists. split; [vm_compute; reflexivity|].
  repeat (split; [reflexivity|]). discriminate.
Qed.

(** The doctests of [Salary]. *)
Lemma doctest_Salary_binary64 :
  exists s,
    Binary64.Salary_init [("salary_from", VInt 100); ("salary_to", VInt 200);
                          ("salary_currency", VStr "EUR")] = Ok s
    /\ Binary64.averageSalary s = Binary64.Float (Finite 150)
    /\ Binary64.salaryRub s = Binary64.Float (Finite 8985).
Proof. eexists. split; [vm_compute; reflexivity|]. split; reflexivity. Qed.

(** What [Salary.__init__] does of a bound that [float()] does not read as
    a finite number. *)
Lemma Salary_init_bad_from (dic : dict string pyval) (raw_from : pyval) :
  dict_get dic "salary_from" = Some raw_from ->
  (forall b, Binary64.py_float raw_from = Ok (Infinite b) ->
             Binary64.Salary_init dic = Raise OverflowError)
  /\ (Binary64.py_float raw_from = Ok NaN ->
      Binary64.Salary_init dic = Raise ValueError)
  /\ (forall e, Binary64.py_float raw_from = Raise e ->
                Binary64.Salary_init dic = Raise e).
Proof.
  intros Hfrom.
  split; [|split]; [intros b Hf | intros Hf | intros e Hf];
    unfold Binary64.Salary_init, dict_getitem at 1;
    rewrite Hfrom; cbn [bind]; rewrite Hf; reflexivity.
Qed.

Lemma Salary_init_bad_to (dic : dict string pyval) (raw_from raw_to : pyval) (f : Q) :
  dict_get dic "salary_from" = Some raw_from ->
  Binary64.py_float raw_from = Ok (Finite f) ->
  dict_get dic "salary_to" = Some raw_to ->
  (forall b, Binary64.py_float raw_to = Ok (Infinite b) ->
             Binary64.Salary_init dic = Raise OverflowError)
  /\ (Binary64.py_float raw_to = Ok NaN ->
      Binary64.Salary_init dic = Raise ValueError)
  /\ (forall e, Binary64.py_float raw_to = Raise e ->
                Binary64.Salary_init dic = Raise e).
Proof.
  intros Hfrom Hf Hto.
  split; [|split]; [intros b Ht | intros Ht | intros e Ht];
    unfold Binary64.Salary_init, dict_getitem at 1 2;
    rewrite Hfrom, Hto; cbn [bind]; rewrite Hf; cbn [bind Binary64.math_floor];
    rewrite Ht; reflexivity.
Qed.

(** C9, as the code has it.  For a row that has the two bounds and the
    currency: when [float()] reads both bounds as finite numbers, [Salary]
    fails with [KeyError] exactly when the currency is not a key of
    [currency_to_rub] and is constructed for every currency that is; when
    [float()] reads a bound as an infinity or as not a number, or fails on
    it, [Salary] fails with [OverflowError], with [ValueError] or with the
    failure of [float()], whatever the currency is. *)
Theorem Salary_init_currency_lookup (dic : dict string pyval)
    (raw_from raw_to c : pyval) :
  dict_get dic "salary_from" = Some raw_from ->
  dict_get dic "salary_to" = Some raw_to ->
  dict_get dic "salary_currency" = Some c ->
  (forall f t,
     Binary64.py_float raw_from = Ok (Finite f) ->
     Binary64.py_float raw_to = Ok (Finite t) ->
     (Binary64.Salary_init dic = Raise KeyError
      <-> dict_get Binary64.currency_to_rub (hash_key c) = None)
     /\ (dict_get Binary64.currency_to_rub (hash_key c) <> None ->
         exists s, Binary64.Salary_init dic = Ok s))
  /\ (forall b, Binary64.py_float raw_from = Ok (Infinite b) ->
                Binary64.Salary_init dic = Raise OverflowError)
  /\ (Binary64.py_float raw_from = Ok NaN ->
      Binary64.Salary_init dic = Raise ValueError)
  /\ (forall e, ascii_val raw_from = true ->
                Binary64.py_float raw_from = Raise e ->
                Binary64.Salary_init dic = Raise e)
  /\ (forall f, Binary64.py_float raw_from = Ok (Finite f) ->
        (forall b, Binary64.py_float raw_to = Ok (Infinite b) ->
                   Binary64.Salary_init dic = Raise OverflowError)
        /\ (Binary64.py_float raw_to = Ok NaN ->
            Binary64.Salary_init dic = Raise ValueError)
        /\ (forall e, ascii_val raw_to = true ->
                      Binary64.py_float raw_to = Raise e ->
                      Binary64.Salary_init dic = Raise e)).
Proof.
  intros Hfrom Hto Hc.
  destruct (Salary_init_bad_from dic raw_from Hfrom) as (Hinf & Hnan & Hraise).
  split; [|split; [exact Hinf|split; [exact Hnan|split]]].
  - intros f t Hf Ht.
    destruct (Salary_init_bounds dic raw_from raw_to c f t Hfrom Hf Hto Ht Hc)
      as (average & _ & Hinit).
    rewrite Hinit. unfold dict_getitem.
    destruct (dict_get Binary64.currency_to_rub (hash_key c)) as [rate|] eqn:Hrate;
      cbn [bind].
    + destruct (currency_rates _ _ Hrate) as [r Hr].
      rewrite (py_mul_floats rate r average Hr). cbn [bind].
      split; [split; discriminate|]. intros _. eexists. reflexivity.
    + split; [split; reflexivity|]. intros Hne. contradiction.
  - intros e _. apply Hraise.
  - intros f Hf.
    destruct (Salary_init_bad_to dic raw_from raw_to f Hfrom Hf Hto)
      as (Hinf' & Hnan' & Hraise').
    split; [exact Hinf'|]. split; [exact Hnan'|]. intros e _. apply Hraise'.
Qed.

Lemma Salary_init_currency_lookup_witness :
  let dic := [("salary_from", VStr "100"); ("salary_to", VStr "200");
              ("salary_currency", VStr "XXX")] in
  dict_get dic "salary_from" = Some (VStr "100")
  /\ dict_get dic "salary_to" = Some (VStr "200")
  /\ dict_get dic "salary_currency" = Some (VStr "XXX")
  /\ Binary64.py_float (VStr "100") = Ok (Finite 100)
  /\ Binary64.py_float (VStr "200") = Ok (Finite 200)
  /\ (Binary64.Salary_init dic = Raise KeyError
      <-> dict_get Binary64.currency_to_rub (hash_key (VStr "XXX")) = None)
  /\ (dict_get Binary64.currency_to_rub (hash_key (VStr "XXX")) <> None ->
      exists s, Binary64.Salary_init dic = Ok s).
Proof.
  intros dic.
  assert (Hf : Binary64.py_float (VStr "100") = Ok (Finite 100))
    by (vm_compute; reflexivity).
  assert (Ht : Binary64.py_float (VStr "200") = Ok (Finite 200))
    by (vm_compute; reflexivity).
  repeat (split; [first [reflexivity | assumption]|]).
  exact (proj1 (Salary_init_currency_lookup dic (VStr "100") (VStr "200") (VStr "XXX")
                  eq_refl eq_refl eq_refl) 100%Q 200%Q Hf Ht).
Defined.

(** C9, as stated, fails: a row in a known currency whose lower bound
    does not read as a number is not constructed, and a row in an unknown
    currency with such a bound, or with a bound beyond the floats, fails
    with [ValueError] or [OverflowError], not with [KeyError]. *)
Lemma Salary_init_known_currency_fails :
  dict_get Binary64.currency_to_rub (hash_key (VStr "RUR")) = Some (Binary64.Int 1)
  /\ Binary64.Salary_init [("salary_from", VStr "abc"); ("salary_to", VStr "200");
                           ("salary_currency", VStr "RUR")] = Raise ValueError
  /\ dict_get Binary64.currency_to_rub (hash_key (VStr "XXX")) = None
  /\ Binary64.Salary_init [("salary_from", VStr "abc"); ("salary_to", VStr "200");
                           ("salary_currency", VStr "XXX")] = Raise ValueError
  /\ Binary64.Salary_init [("salary_from", VStr "1e999"); ("salary_to", VStr "200");
                           ("salary_currency", VStr "XXX")] = Raise OverflowError.
Proof. repeat split; vm_compute; reflexivity. Qed.

(** ** [Vacancy.__init__] in binary64 *)

Lemma Vacancy_init_year (d : dict string pyval) (sal : Binary64.Salary) (s : string) :
  Binary64.Salary_init d = Ok sal ->
  dict_get d "published_at" = Some (VStr s) ->
  Binary64.Vacancy_init d
  = (year <- int_of_str (str_take 4 s) ;;
     is_needed <- dict_getitem (dict_setitem d "year" (VInt year)) "is_needed" ;;
     Ok {| Binary64.dic := dict_setitem d "year" (VInt year);
           Binary64.salary := sal; Binary64.is_needed := is_needed |}).
Proof.
  intros Hsal Hpub. unfold Binary64.Vacancy_init, dict_getitem at 1.
  rewrite Hsal, Hpub. reflexivity.
Qed.

(** C8, as the code has it.  For a row of which [Salary] is constructed
    and whose [published_at] begins with ASCII characters, the year is
    [int()] of the first four characters, or of all of the text when it is
    shorter.  [Vacancy] is constructed with that year when these characters
    are an integer literal, which one to four digits are, and fails when
    they are not, which is so when the text is empty or has among them a
    character other than a digit, a sign, an underscore or white space. *)
Theorem Vacancy_init_year_of_prefix (d : dict string pyval) (sal : Binary64.Salary)
    (s : string) (needed : pyval) :
  Binary64.Salary_init d = Ok sal ->
  dict_get d "published_at" = Some (VStr s) ->
  dict_get d "is_needed" = Some needed ->
  is_ascii (str_take 4 s) = true ->
  (forall y, int_of_str (str_take 4 s) = Ok y ->
     Binary64.Vacancy_init d
     = Ok {| Binary64.dic := dict_setitem d "year" (VInt y);
             Binary64.salary := sal; Binary64.is_needed := needed |})
  /\ (forall e, int_of_str (str_take 4 s) = Raise e ->
                Binary64.Vacancy_init d = Raise e)
  /\ (str_take 4 s <> EmptyString -> all_digits (str_take 4 s) = true ->
      Binary64.Vacancy_init d
      = Ok {| Binary64.dic := dict_setitem d "year"
                                (VInt (decimal_value (str_take 4 s)));
              Binary64.salary := sal; Binary64.is_needed := needed |})
  /\ (s = EmptyString
      \/ existsb not_in_int_literal (list_ascii_of_string (str_take 4 s)) = true ->
      Binary64.Vacancy_init d = Raise ValueError).
Proof.
  intros Hsal Hpub Hneeded _.
  rewrite (Vacancy_init_year d sal s Hsal Hpub).
  assert (Hok : forall y, int_of_str (str_take 4 s) = Ok y ->
            (year <- int_of_str (str_take 4 s) ;;
             is_needed <- dict_getitem (dict_setitem d "year" (VInt year)) "is_needed" ;;
             Ok {| Binary64.dic := dict_setitem d "year" (VInt year);
                   Binary64.salary := sal; Binary64.is_needed := is_needed |})
            = Ok {| Binary64.dic := dict_setitem d "year" (VInt y);
                    Binary64.salary := sal; Binary64.is_needed := needed |}).
  { intros y Hy. rewrite Hy. cbn [bind]. unfold dict_getitem.
    rewrite dict_get_setitem_other by discriminate.
    rewrite Hneeded. reflexivity. }
  split; [exact Hok|]. split; [|split].
  - intros e He. rewrite He. reflexivity.
  - intros Hne Hall. apply Hok. apply int_of_str_digits; assumption.
  - intros [->|Hbad]; [reflexivity|].
    rewrite int_of_str_bad_char by assumption. reflexivity.
Qed.

(** A row published at ["2007-12-03T17:34:36+0300"]: the year is 2007. *)
Lemma Vacancy_init_year_of_prefix_witness :
  Binary64.Salary_init dated_row = Ok dated_salary
  /\ dict_get dated_row "published_at" = Some (VStr "2007-12-03T17:34:36+0300")
  /\ dict_get dated_row "is_needed" = Some (VBool false)
  /\ is_ascii (str_take 4 "2007-12-03T17:34:36+0300") = true
  /\ str_take 4 "2007-12-03T17:34:36+0300" <> EmptyString
  /\ all_digits (str_take 4 "2007-12-03T17:34:36+0300") = true
  /\ Binary64.Vacancy_init dated_row
     = Ok {| Binary64.dic := dict_setitem dated_row "year" (VInt 2007);
             Binary64.salary := dated_salary;
             Binary64.is_needed := VBool false |}.
Proof.
  assert (Hsal : Binary64.Salary_init dated_row = Ok dated_salary)
    by (vm_compute; reflexivity).
  assert (Hne : str_take 4 "2007-12-03T17:34:36+0300" <> EmptyString)
    by discriminate.
  split; [exact Hsal|].
  repeat (split; [first [reflexivity | exact Hne]|]).
  exact (proj1 (proj2 (proj2
           (Vacancy_init_year_of_prefix dated_row dated_salary
              "2007-12-03T17:34:36+0300" (VBool false)
              Hsal eq_refl eq_refl eq_refl))) Hne eq_refl).
Defined.

(** C8, as stated, fails: a publication date of three digits is shorter
    than four characters and [Vacancy] is constructed, with the year 207. *)
Lemma Vacancy_init_short_date_accepted :
  (String.length "207" < 4)%nat
  /\ exists v,
       Binary64.Vacancy_init
         [("salary_from", VStr "100"); ("salary_to", VStr "200");
          ("salary_currency", VStr "RUR");
          ("published_at", VStr "207");
          ("is_needed", VBool false)] = Ok v
       /\ dict_get (Binary64.dic v) "year" = Some (VInt 207).
Proof.
  split; [simpl; lia|]. eexists. split; [vm_compute; reflexivity | reflexivity].
Qed.

(** ** [tryToAdd] in binary64 *)




(** The doctests of [tryToAdd]. *)
Lemma doctest_tryToAdd_binary64 :
  Binary64.tryToAdd [("1", Binary64.Int 1)] "1" (Binary64.Int 1)
  = [("1", Binary64.Int 2)]
  /\ Binary64.tryToAdd [("1", Binary64.Int 1)] "2" (Binary64.Int 2)
     = [("1", Binary64.Int 1); ("2", Binary64.Int 2)].
Proof. split; reflexivity. Qed.

(** ** [getAverageSalary] in binary64 *)

Lemma mapM_Forall2 {A B : Type} (f : A -> result B) (l : list A) (ys : list B) :
  mapM f l = Ok ys <-> Forall2 (fun x y => f x = Ok y) l ys.
Proof.
  revert ys. induction l as [|a l IH]; intros ys; cbn [mapM].
  - split; [intros [= <-]; constructor | intros Hall; inversion Hall; reflexivity].
  - split.
    + intros Hm. apply bind_Ok in Hm as (b & Hb & Hm).
      apply bind_Ok in Hm as (bs & Hbs & Hm). injection Hm as <-.
      constructor; [exact Hb | apply IH, Hbs].
    + intros Hall. inversion Hall as [|? b ? bs Hb Hbs]; subst.
      rewrite Hb. cbn [bind]. rewrite (proj2 (IH bs) Hbs). reflexivity.
Qed.

Lemma mapM_returns {A B : Type} (f : A -> result B) (l : list A) :
  (forall x, In x l -> exists y, f x = Ok y) -> exists ys, mapM f l = Ok ys.
Proof.
  induction l as [|a l IH]; intros Hall; cbn [mapM]; [eexists; reflexivity|].
  destruct (Hall a (or_introl eq_refl)) as [b ->].
  destruct (IH (fun x Hx => Hall x (or_intror Hx))) as [bs ->].
  cbn [bind]. eexists. reflexivity.
Qed.

Lemma mapM_fails {A B : Type} (f : A -> result B) (l : list A) (x : A) (e : exn) :
  In x l -> f x = Raise e -> exists e', mapM f l = Raise e'.
Proof.
  induction l as [|a l IH]; intros Hin Hx; [destruct Hin|]. cbn [mapM].
  destruct (f a) as [b|e1] eqn:Hfa; cbn [bind]; [|eexists; reflexivity].
  destruct Hin as [->|Hin]; [congruence|].
  destruct (IH Hin Hx) as [e' ->]. cbn [bind]. eexists. reflexivity.
Qed.

Lemma py_truediv_is_float (a b q : Binary64.num) :
  Binary64.py_truediv a b = Ok q -> exists x, q = Binary64.Float x.
Proof.
  destruct a as [x|x], b as [y|y];
    cbn [Binary64.py_truediv Binary64.to_float bind].
  - destruct (y =? 0); [discriminate|].
    destruct (Binary64.round64 (inject_Z x / inject_Z y)); [|discriminate|];
      intros [= <-]; eexists; reflexivity.
  - destruct (Binary64.float_of_int x) as [x'|]; cbn [bind]; [|discriminate].
    destruct (Binary64.float_div x' y); cbn [bind]; [|discriminate].
    intros [= <-]. eexists. reflexivity.
  - destruct (Binary64.float_of_int y) as [y'|]; cbn [bind]; [|discriminate].
    destruct (Binary64.float_div x y'); cbn [bind]; [|discriminate].
    intros [= <-]. eexists. reflexivity.
  - destruct (Binary64.float_div x y); cbn [bind]; [|discriminate].
    intros [= <-]. eexists. reflexivity.
Qed.

Lemma float_div_raises (x y : pyfloat) (e : exn) :
  Binary64.is_zero y = false -> Binary64.float_div x y = Raise e -> False.
Proof. unfold Binary64.float_div. intros ->. discriminate. Qed.

(** A division by a number other than 0 does not raise
    [ZeroDivisionError]. *)
Lemma py_truediv_raises (s c : Binary64.num) (e : exn) :
  Binary64.py_eq_zero c = false ->
  Binary64.py_truediv s c = Raise e -> e = OverflowError.
Proof.
  destruct s as [x|x], c as [y|y];
    cbn [Binary64.py_truediv Binary64.py_eq_zero Binary64.to_float bind]; intros Hc.
  - rewrite Hc. destruct (Binary64.round64 (inject_Z x / inject_Z y));
      [discriminate | congruence | discriminate].
  - destruct (Binary64.float_of_int x) as [x'|e'] eqn:Hx; cbn [bind].
    + destruct (Binary64.float_div x' y) eqn:Hd; cbn [bind]; [discriminate|].
      exfalso. apply (float_div_raises _ _ _ Hc Hd).
    + intros [= <-]. apply (to_float_raises (Binary64.Int x) e' Hx).
  - destruct (Binary64.float_of_int y) as [y'|e'] eqn:Hy; cbn [bind].
    + destruct (Binary64.float_div x y') eqn:Hd; cbn [bind]; [discriminate|].
      exfalso. apply (float_div_raises _ _ _ (float_of_int_nonzero y y'
                        (proj1 (Z.eqb_neq y 0) Hc) Hy) Hd).
    + intros [= <-]. apply (to_float_raises (Binary64.Int y) e' Hy).
  - destruct (Binary64.float_div x y) eqn:Hd; cbn [bind]; [discriminate|].
    exfalso. apply (float_div_raises _ _ _ Hc Hd).
Qed.

Lemma math_floor_float (x : pyfloat) :
  match Binary64.math_floor (Binary64.Float x) with
  | Ok a => exists q, x = Finite q /\ a = Qfloor q
  | Raise e => (e = OverflowError \/ e = ValueError) /\ forall q, x <> Finite q
  end.
Proof.
  destruct x as [q|b|]; cbn [Binary64.math_floor].
  - exists q. auto.
  - split; [left; reflexivity | discriminate].
  - split; [right; reflexivity | discriminate].
Qed.

(** What [average_entry] returns and raises. *)
Lemma average_entry_cases {K : Type} `{PyHashable K}
    (sum : dict K Binary64.num) (k : K) (c : Binary64.num) :
  match average_entry sum (k, c) with
  | Ok entry =>
      fst entry = k
      /\ if Binary64.py_eq_zero c then snd entry = Binary64.Int 0
         else exists s q,
                dict_get sum k = Some s
                /\ Binary64.py_truediv s c = Ok (Binary64.Float (Finite q))
                /\ snd entry = Binary64.Int (Qfloor q)
  | Raise e =>
      Binary64.py_eq_zero c = false
      /\ match dict_get sum k with
         | None => e = KeyError
         | Some s =>
             (e = OverflowError \/ e = ValueError)
             /\ forall q, Binary64.py_truediv s c
                          <> Ok (Binary64.Float (Finite q))
         end
  end.
Proof.
  unfold average_entry, dict_getitem.
  destruct (Binary64.py_eq_zero c) eqn:Hc; [split; reflexivity|].
  destruct (dict_get sum k) as [s|]; cbn [bind]; [|split; reflexivity].
  destruct (Binary64.py_truediv s c) as [q|e] eqn:Hq; cbn [bind].
  - destruct (py_truediv_is_float _ _ _ Hq) as [x ->].
    pose proof (math_floor_float x) as Hfloor.
    destruct (Binary64.math_floor (Binary64.Float x)) as [a|e]; cbn [bind].
    + destruct Hfloor as (q & -> & ->). split; [reflexivity|].
      exists s, q. auto.
    + destruct Hfloor as [He Hx]. split; [reflexivity|]. split; [exact He|].
      intros q [= Hq']. apply (Hx q Hq').
  - split; [reflexivity|]. split; [left; apply (py_truediv_raises s c e Hc Hq)|].
    discriminate.
Qed.

Lemma average_step_entry {K : Type} `{PyHashable K}
    (sum keySalary : dict K Binary64.num) (item : K * Binary64.num) :
  Binary64.average_step sum keySalary item
  = (entry <- average_entry sum item ;;
     Ok (dict_setitem keySalary (fst entry) (snd entry))).
Proof.
  destruct item as [k c]. unfold Binary64.average_step, average_entry.
  destruct (Binary64.py_eq_zero c); [reflexivity|].
  destruct (dict_getitem sum k) as [s|]; cbn [bind]; [|reflexivity].
  destruct (Binary64.py_truediv s c) as [q|]; cbn [bind]; [|reflexivity].
  destruct (Binary64.math_floor q); reflexivity.
Qed.

(** [getAverageSalary] makes the entries in the order of the count map and
    puts them into a dict. *)
Lemma getAverageSalary_entries {K : Type} `{PyHashable K}
    (count sum : dict K Binary64.num) :
  Binary64.getAverageSalary count sum
  = (entries <- mapM (average_entry sum) count ;; Ok (dict_of entries)).
Proof.
  unfold Binary64.getAverageSalary, items, dict_of.
  generalize (@nil (K * Binary64.num)).
  induction count as [|item count IH]; intros acc; cbn [foldM mapM];
    [reflexivity|].
  rewrite average_step_entry.
  destruct (average_entry sum item) as [entry|e]; cbn [bind]; [|reflexivity].
  rewrite IH. destruct (mapM (average_entry sum) count); reflexivity.
Qed.

Lemma average_entries_keys {K : Type} `{PyHashable K}
    (sum count entries : dict K Binary64.num) :
  mapM (average_entry sum) count = Ok entries -> keys entries = keys count.
Proof.
  intros Hm. apply mapM_Forall2 in Hm.
  induction Hm as [|[k c] entry count entries Hentry _ IH]; [reflexivity|].
  pose proof (average_entry_cases sum k c) as Hcases. rewrite Hentry in Hcases.
  destruct Hcases as [Hk _]. cbn [keys map fst]. fold (keys entries). fold (keys count).
  rewrite Hk, IH. reflexivity.
Qed.

Lemma average_entries_get {K : Type} `{PyHashable K}
    (sum count entries : dict K Binary64.num) (k : K) (c : Binary64.num) :
  mapM (average_entry sum) count = Ok entries ->
  dict_get count k = Some c ->
  exists x, average_entry sum (k, c) = Ok (k, x) /\ dict_get entries k = Some x.
Proof.
  intros Hm. apply mapM_Forall2 in Hm.
  induction Hm as [|[k0 c0] [k1 x1] count entries Hentry _ IH]; [discriminate|].
  pose proof (average_entry_cases sum k0 c0) as Hcases. rewrite Hentry in Hcases.
  destruct Hcases as [Hk _]. cbn [fst] in Hk. subst k1.
  cbn [dict_get]. destruct (key_eqb k k0) eqn:E; [|exact IH].
  apply key_eqb_eq in E. subst k0. intros [= <-]. exists x1. auto.
Qed.

(** The outcome of [getAverageSalary] for a count map of distinct keys
    and a sum map that has the keys with a count other than 0. *)
Lemma getAverageSalary_outcome {K : Type} `{PyHashable K}
    (count sum : dict K Binary64.num) :
  NoDup (keys count) ->
  (forall k c, dict_get count k = Some c ->
               Binary64.py_eq_zero c = false -> dict_contains sum k = true) ->
  (forall average, Binary64.getAverageSalary count sum = Ok average ->
     keys average = keys count
     /\ forall k c, dict_get count k = Some c ->
          if Binary64.py_eq_zero c
          then dict_get average k = Some (Binary64.Int 0)
          else exists s q,
                 dict_get sum k = Some s
                 /\ Binary64.py_truediv s c = Ok (Binary64.Float (Finite q))
                 /\ dict_get average k = Some (Binary64.Int (Qfloor q)))
  /\ ((exists average, Binary64.getAverageSalary count sum = Ok average)
      <-> forall k c s, dict_get count k = Some c ->
            Binary64.py_eq_zero c = false -> dict_get sum k = Some s ->
            exists q, Binary64.py_truediv s c = Ok (Binary64.Float (Finite q)))
  /\ (forall e, Binary64.getAverageSalary count sum = Raise e ->
                e = OverflowError \/ e = ValueError).
Proof.
  intros Hnd Hdom. rewrite getAverageSalary_entries.
  split; [|split].
  - intros average Hav. apply bind_Ok in Hav as (entries & Hm & Hav).
    injection Hav as <-.
    pose proof (average_entries_keys sum count entries Hm) as Hkeys.
    rewrite dict_of_nodup by (rewrite Hkeys; exact Hnd).
    split; [exact Hkeys|]. intros k c Hk.
    destruct (average_entries_get sum count entries k c Hm Hk) as (x & Hx & Hget).
    pose proof (average_entry_cases sum k c) as Hcases. rewrite Hx in Hcases.
    destruct Hcases as [_ Hval]. cbn [snd] in Hval.
    destruct (Binary64.py_eq_zero c).
    + rewrite Hget, Hval. reflexivity.
    + destruct Hval as (s & q & Hs & Hq & ->). exists s, q. auto.
  - split.
    + intros [average Hav] k c s Hk Hc Hs.
      apply bind_Ok in Hav as (entries & Hm & _).
      destruct (average_entries_get sum count entries k c Hm Hk) as (x & Hx & _).
      pose proof (average_entry_cases sum k c) as Hcases. rewrite Hx in Hcases.
      destruct Hcases as [_ Hval]. rewrite Hc in Hval.
      destruct Hval as (s' & q & Hs' & Hq & _).
      exists q. congruence.
    + intros Hall.
      destruct (mapM_returns (average_entry sum) count) as [entries ->];
        [|cbn [bind]; eexists; reflexivity].
      intros [k c] Hin. apply (in_dict_get _ _ _ Hnd) in Hin.
      pose proof (average_entry_cases sum k c) as Hcases.
      destruct (average_entry sum (k, c)) as [entry|e]; [eauto|].
      exfalso. destruct Hcases as [Hc Hsum].
      specialize (Hdom k c Hin Hc). unfold dict_contains in Hdom.
      destruct (dict_get sum k) as [s|] eqn:Hs; [|discriminate].
      destruct Hsum as [_ Hq]. destruct (Hall k c s Hin Hc Hs) as [q Hq'].
      apply (Hq q Hq').
  - intros e He.
    destruct (mapM (average_entry sum) count) as [entries|e'] eqn:Hm;
      cbn [bind] in He; [discriminate|]. injection He as ->.
    apply mapM_Raise in Hm as ([k c] & Hin & Hentry).
    apply (in_dict_get _ _ _ Hnd) in Hin.
    pose proof (average_entry_cases sum k c) as Hcases. rewrite Hentry in Hcases.
    destruct Hcases as [Hc Hsum].
    specialize (Hdom k c Hin Hc). unfold dict_contains in Hdom.
    destruct (dict_get sum k) as [s|]; [|discriminate].
    apply Hsum.
Qed.

(** C5, as the code has it.  Given a count map and a sum map that has
    every key whose count is not zero, [getAverageSalary], when it
    returns, returns a map with the keys of the count map in their order,
    in which a key has 0 when its count is 0 and otherwise the floor of
    the quotient [sum[key] / count[key]] as the true division of the
    language makes it: a float, of two ints the float nearest to their
    quotient.  It returns exactly when each of these quotients is a finite
    float, and otherwise raises [OverflowError] or [ValueError]. *)
Theorem getAverageSalary_floor_of_quotient {K : Type} `{PyHashable K}
    (count sum : dict K Binary64.num) :
  NoDup (keys count) ->
  (forall k c, dict_get count k = Some c ->
               Binary64.py_eq_zero c = false -> dict_contains sum k = true) ->
  (forall average, Binary64.getAverageSalary count sum = Ok average ->
     keys average = keys count
     /\ forall k c, dict_get count k = Some c ->
          if Binary64.py_eq_zero c
          then dict_get average k = Some (Binary64.Int 0)
          else exists s q,
                 dict_get sum k = Some s
                 /\ Binary64.py_truediv s c = Ok (Binary64.Float (Finite q))
                 /\ dict_get average k = Some (Binary64.Int (Qfloor q)))
  /\ ((exists average, Binary64.getAverageSalary count sum = Ok average)
      <-> forall k c s, dict_get count k = Some c ->
            Binary64.py_eq_zero c = false -> dict_get sum k = Some s ->
            exists q, Binary64.py_truediv s c = Ok (Binary64.Float (Finite q)))
  /\ (forall e, Binary64.getAverageSalary count sum = Raise e ->
                e = OverflowError \/ e = ValueError)
  /\ (forall a b, b <> 0 ->
        Binary64.py_truediv (Binary64.Int a) (Binary64.Int b)
        = match Binary64.round64 (inject_Z a / inject_Z b) with
          | Infinite _ => Raise OverflowError
          | q => Ok (Binary64.Float q)
          end).
Proof.
  intros Hnd Hdom.
  destruct (getAverageSalary_outcome count sum Hnd Hdom) as (Hok & Hiff & Hraise).
  split; [exact Hok|]. split; [exact Hiff|]. split; [exact Hraise|].
  intros a b Hb. cbn [Binary64.py_truediv].
  rewrite (proj2 (Z.eqb_neq b 0) Hb). reflexivity.
Qed.

(** The doctest of [getAverageSalary]: count [{'2007': 2}] and sum
    [{'2007': 10}] give [{'2007': 5}]. *)
Lemma getAverageSalary_floor_of_quotient_witness :
  let count := [("2007", Binary64.Int 2)] in
  let sum := [("2007", Binary64.Int 10)] in
  NoDup (keys count)
  /\ (forall k c, dict_get count k = Some c ->
        Binary64.py_eq_zero c = false -> dict_contains sum k = true)
  /\ Binary64.getAverageSalary count sum = Ok [("2007", Binary64.Int 5)]
  /\ forall k c, dict_get count k = Some c ->
       if Binary64.py_eq_zero c
       then dict_get [("2007", Binary64.Int 5)] k = Some (Binary64.Int 0)
       else exists s q,
              dict_get sum k = Some s
              /\ Binary64.py_truediv s c = Ok (Binary64.Float (Finite q))
              /\ dict_get [("2007", Binary64.Int 5)] k
                 = Some (Binary64.Int (Qfloor q)).
Proof.
  intros count sum.
  assert (Hnd : NoDup (keys count)).
  { repeat constructor. simpl. tauto. }
  assert (Hdom : forall k c, dict_get count k = Some c ->
            Binary64.py_eq_zero c = false -> dict_contains sum k = true).
  { intros k c. unfold dict_contains, count, sum. simpl.
    destruct (String.eqb k "2007"); [reflexivity | discriminate]. }
  assert (Hav : Binary64.getAverageSalary count sum = Ok [("2007", Binary64.Int 5)])
    by (vm_compute; reflexivity).
  split; [exact Hnd|]. split; [exact Hdom|]. split; [exact Hav|].
  exact (proj2 (proj1 (getAverageSalary_floor_of_quotient count sum Hnd Hdom)
                  _ Hav)).
Defined.

(** C5, as stated, fails: for the count 3 and the sum [10^17 + 1] the
    entry is the floor of the float nearest to the quotient, which is not
    the floor of the quotient; and for the sum [10^400] no map is
    returned. *)
Lemma getAverageSalary_floors_the_float :
  Binary64.getAverageSalary [("a", Binary64.Int 3)] [("a", Binary64.Int (10 ^ 17 + 1))]
  = Ok [("a", Binary64.Int 33333333333333332)]
  /\ Qfloor (inject_Z (10 ^ 17 + 1) / inject_Z 3) = 33333333333333333
  /\ Binary64.getAverageSalary [("a", Binary64.Int 3)] [("a", Binary64.Int (10 ^ 400))]
     = Raise OverflowError.
Proof. repeat split; vm_compute; reflexivity. Qed.

(** X9. [getAverageSalary] raises nothing but [KeyError], [OverflowError]
    and [ValueError]: it never divides by zero.  When it raises
    [KeyError], the count map has a key with a count other than 0 that the
    sum map lacks; and when the count map has such a key, it does not
    return. *)
Theorem getAverageSalary_fails_on_missing_sum {K : Type} `{PyHashable K}
    (count sum : dict K Binary64.num) :
  (forall e, Binary64.getAverageSalary count sum = Raise e ->
             e = KeyError \/ e = OverflowError \/ e = ValueError)
  /\ (Binary64.getAverageSalary count sum = Raise KeyError ->
      exists k c, In (k, c) count /\ Binary64.py_eq_zero c = false
                  /\ dict_get sum k = None)
  /\ ((exists k c, In (k, c) count /\ Binary64.py_eq_zero c = false
                   /\ dict_get sum k = None) ->
      exists e, Binary64.getAverageSalary count sum = Raise e).
Proof.
  rewrite getAverageSalary_entries.
  assert (Hraise : forall e,
            (entries <- mapM (average_entry sum) count ;; Ok (dict_of entries))
            = Raise e ->
            exists k c, In (k, c) count /\ average_entry sum (k, c) = Raise e).
  { intros e He.
    destruct (mapM (average_entry sum) count) as [entries|e'] eqn:Hm;
      cbn [bind] in He; [discriminate|]. injection He as ->.
    apply mapM_Raise in Hm as ([k c] & Hin & Hentry). eauto. }
  split; [|split].
  - intros e He. destruct (Hraise e He) as (k & c & _ & Hentry).
    pose proof (average_entry_cases sum k c) as Hcases. rewrite Hentry in Hcases.
    destruct Hcases as [_ Hsum].
    destruct (dict_get sum k); [right; apply Hsum | left; exact Hsum].
  - intros He. destruct (Hraise KeyError He) as (k & c & Hin & Hentry).
    pose proof (average_entry_cases sum k c) as Hcases. rewrite Hentry in Hcases.
    destruct Hcases as [Hc Hsum]. exists k, c. split; [exact Hin|].
    split; [exact Hc|].
    destruct (dict_get sum k); [|reflexivity].
    destruct Hsum as [[He'|He'] _]; discriminate He'.
  - intros (k & c & Hin & Hc & Hnone).
    assert (Hentry : average_entry sum (k, c) = Raise KeyError).
    { unfold average_entry, dict_getitem. rewrite Hc, Hnone. reflexivity. }
    destruct (mapM_fails _ _ _ _ Hin Hentry) as [e' ->].
    exists e'. reflexivity.
Qed.

(** ** The accumulation loop of [getKey] in binary64 *)

Lemma tryToAdd_added {K : Type} `{PyHashable K}
    (d : dict K Binary64.num) (k : K) (v : Binary64.num) :
  Binary64.tryToAdd d k v = dict_setitem d k (Binary64.added (dict_get d k) v).
Proof.
  unfold Binary64.tryToAdd, Binary64.added, dict_getitem.
  destruct (dict_get d k) as [x|]; cbn [bind]; [|reflexivity].
  destruct (Binary64.py_add x v); reflexivity.
Qed.

Lemma keys_setitem {K V : Type} `{PyHashable K} (d : dict K V) (k : K) (v : V) :
  keys (dict_setitem d k v)
  = if existsb (key_eqb k) (keys d) then keys d else keys d ++ [k].
Proof.
  rewrite contains_keys. unfold dict_contains.
  destruct (dict_get d k) as [x|] eqn:E.
  - apply (setitem_present _ _ _ _ E).
  - rewrite (setitem_absent _ _ _ E), keys_app. reflexivity.
Qed.

Lemma accumulate_step_keyed (key_str : string)
    (keySum keyCount : dict pykey Binary64.num) (v : Binary64.Vacancy) :
  Binary64.accumulate_step key_str (keySum, keyCount) v
  = match Binary64.key_of key_str v with
    | Some k =>
        Ok (dict_setitem keySum k
              (Binary64.added (dict_get keySum k)
                 (Binary64.salaryRub (Binary64.salary v))),
            dict_setitem keyCount k
              (Binary64.added (dict_get keyCount k) (Binary64.Int 1)))
    | None => Raise KeyError
    end.
Proof.
  unfold Binary64.accumulate_step, Binary64.key_of, dict_getitem.
  destruct (dict_get (Binary64.dic v) key_str) as [val|]; [|reflexivity].
  cbn [bind option_map]. rewrite !tryToAdd_added. reflexivity.
Qed.

Lemma record_keys_snoc (key_str : string) (l : list Binary64.Vacancy)
    (v : Binary64.Vacancy) :
  Binary64.record_keys key_str (l ++ [v])
  = Binary64.record_keys key_str l
    ++ match Binary64.key_of key_str v with
       | Some k => [k]
       | None => []
       end.
Proof.
  induction l as [|w l IH]; cbn [Binary64.record_keys app].
  - destruct (Binary64.key_of key_str v); reflexivity.
  - destruct (Binary64.key_of key_str w); rewrite IH; reflexivity.
Qed.

Lemma group_of_snoc (key_str : string) (k : pykey) (l : list Binary64.Vacancy)
    (v : Binary64.Vacancy) :
  Binary64.group key_str k (l ++ [v])
  = Binary64.group key_str k l
    ++ (if match Binary64.key_of key_str v with
           | Some k' => pykey_eqb k' k
           | None => false
           end then [v] else []).
Proof. unfold Binary64.group. rewrite filter_app. reflexivity. Qed.

Lemma sum_rub_snoc_added (l : list Binary64.Vacancy) (v : Binary64.Vacancy) :
  Binary64.sum_rub (l ++ [v])
  = Some (Binary64.added (Binary64.sum_rub l)
            (Binary64.salaryRub (Binary64.salary v))).
Proof. unfold Binary64.sum_rub. rewrite fold_left_app. reflexivity. Qed.

Lemma sum_rub_none (l : list Binary64.Vacancy) :
  Binary64.sum_rub l = None <-> l = [].
Proof.
  split; [|intros ->; reflexivity].
  destruct l as [|v l] using rev_ind; [reflexivity|].
  rewrite sum_rub_snoc_added. discriminate.
Qed.

(** What the two maps hold after the loop: their keys are the keys of the
    records in the order in which the records first show them; a key has
    as count the number of its records and as sum their salaries added
    one after the other. *)
Lemma accumulate_by_groups (key_str : string) (vacancies : list Binary64.Vacancy) :
  Forall (fun v => dict_get (Binary64.dic v) key_str <> None) vacancies ->
  exists keySum keyCount,
    Binary64.accumulate vacancies key_str = Ok (keySum, keyCount)
    /\ keys keyCount = fresh [] (Binary64.record_keys key_str vacancies)
    /\ keys keySum = keys keyCount
    /\ forall k,
         dict_get keyCount k
         = match List.length (Binary64.group key_str k vacancies) with
           | O => None
           | S n => Some (Binary64.Int (Z.of_nat (S n)))
           end
         /\ dict_get keySum k
            = Binary64.sum_rub (Binary64.group key_str k vacancies).
Proof.
  unfold Binary64.accumulate.
  induction vacancies as [|v vacancies IH] using rev_ind; intros Hall.
  - exists [], []. repeat split; reflexivity.
  - apply Forall_app in Hall as [Hall Hv]. inversion Hv as [|? ? Hkey _]; subst.
    destruct (IH Hall) as (ks & kc & Hacc & Horder & Hkeys & Hgroups).
    rewrite foldM_snoc, Hacc. cbn [bind]. rewrite accumulate_step_keyed.
    rewrite record_keys_snoc.
    destruct (Binary64.key_of key_str v) as [kv|] eqn:Hkv.
    2:{ unfold Binary64.key_of in Hkv.
        destruct (dict_get (Binary64.dic v) key_str); [discriminate | contradiction]. }
    eexists _, _. split; [reflexivity|]. split; [|split].
    + rewrite keys_setitem, fresh_app, Horder. cbn [app fresh].
      change (existsb (key_eqb kv) (fresh [] (Binary64.record_keys key_str vacancies)))
        with (existsb (pykey_eqb kv) (fresh [] (Binary64.record_keys key_str vacancies))).
      destruct (existsb (pykey_eqb kv) (fresh [] (Binary64.record_keys key_str vacancies)));
        [rewrite app_nil_r|]; reflexivity.
    + rewrite !keys_setitem, Hkeys. reflexivity.
    + intros k. destruct (Hgroups k) as [Hcount Hsum].
      rewrite group_of_snoc, Hkv.
      destruct (pykey_eqb kv k) eqn:E.
      * apply pykey_eqb_eq in E. subst kv.
        rewrite !dict_get_setitem_same, Hcount, Hsum, length_app, sum_rub_snoc_added.
        cbn [List.length]. split; [|reflexivity].
        destruct (List.length (Binary64.group key_str k vacancies)) as [|n];
          cbn [Nat.add Binary64.added Binary64.py_add]; f_equal; f_equal; lia.
      * assert (Hne : k <> kv)
          by (intros ->; rewrite (proj2 (pykey_eqb_eq kv kv) eq_refl) in E;
              discriminate).
        rewrite !dict_get_setitem_other by exact Hne. rewrite app_nil_r.
        split; assumption.
Qed.

Lemma dict_get_app_r {K V : Type} `{PyHashable K} (d d' : dict K V) (k : K) :
  dict_get d k = None -> dict_get (d ++ d') k = dict_get d' k.
Proof.
  induction d as [|[k' v'] d IH]; simpl; [reflexivity|].
  destruct (key_eqb k k'); [discriminate | exact IH].
Qed.

Lemma dict_get_constant {K V : Type} `{PyHashable K} (z : V) (l : list K) (k : K) :
  In k l -> dict_get (map (fun k => (k, z)) l) k = Some z.
Proof.
  induction l as [|a l IH]; intros Hin; [destruct Hin|]. cbn [map dict_get].
  destruct (key_eqb k a) eqn:E; [reflexivity|].
  destruct Hin as [->|Hin]; [rewrite key_eqb_refl in E; discriminate | auto].
Qed.

Lemma keys_constant {K V : Type} (z : V) (l : list K) :
  keys (map (fun k => (k, z)) l) = l.
Proof. unfold keys. rewrite map_map. apply map_id. Qed.

Lemma fill_key_adds (d : dict pykey Binary64.num) (key : pykey) :
  Binary64.fill_key d key
  = d ++ map (fun k => (k, Binary64.Int 0)) (fresh (keys d) [key]).
Proof.
  unfold Binary64.fill_key. cbn [fresh].
  change (existsb (pykey_eqb key) (keys d)) with (existsb (key_eqb key) (keys d)).
  destruct (existsb (key_eqb key) (keys d)) eqn:E; cbn [negb map].
  - rewrite app_nil_r. reflexivity.
  - apply setitem_absent. rewrite contains_keys in E.
    unfold dict_contains in E. destruct (dict_get d key); [discriminate | reflexivity].
Qed.

Lemma updateKeys_adds (allYears : list pykey) (d : dict pykey Binary64.num) :
  Binary64.updateKeys allYears d
  = d ++ map (fun k => (k, Binary64.Int 0)) (fresh (keys d) allYears).
Proof.
  unfold Binary64.updateKeys. revert d.
  induction allYears as [|key allYears IH]; intros d; cbn [fold_left].
  - cbn [fresh map]. rewrite app_nil_r. reflexivity.
  - rewrite IH, fill_key_adds, keys_app, keys_constant.
    change (key :: allYears) with ([key] ++ allYears).
    rewrite (fresh_app (keys d) [key] allYears), map_app, app_assoc.
    reflexivity.
Qed.

(** ** [getKey] in binary64 as a grouping *)

Lemma group_size_zero (n : nat) :
  Binary64.py_eq_zero (Binary64.Int (Z.of_nat n)) = true <-> n = 0%nat.
Proof. cbn [Binary64.py_eq_zero]. rewrite Z.eqb_eq. lia. Qed.

(** The averages of a count map that holds group sizes and a sum map that
    holds the sums of the groups. *)
Lemma average_by_groups (key_str : string) (vacancies : list Binary64.Vacancy)
    (count sum : dict pykey Binary64.num) :
  NoDup (keys count) ->
  (forall k c, dict_get count k = Some c ->
     c = Binary64.Int (Z.of_nat (List.length (Binary64.group key_str k vacancies)))) ->
  (forall k, Binary64.group key_str k vacancies <> [] ->
     dict_get sum k = Binary64.sum_rub (Binary64.group key_str k vacancies)) ->
  (forall average, Binary64.getAverageSalary count sum = Ok average ->
     keys average = keys count
     /\ forall k, In k (keys count) ->
          match Binary64.sum_rub (Binary64.group key_str k vacancies) with
          | None => dict_get average k = Some (Binary64.Int 0)
          | Some s =>
              exists q,
                Binary64.py_truediv s
                  (Binary64.Int (Z.of_nat (List.length
                                   (Binary64.group key_str k vacancies))))
                = Ok (Binary64.Float (Finite q))
                /\ dict_get average k = Some (Binary64.Int (Qfloor q))
          end)
  /\ ((exists average, Binary64.getAverageSalary count sum = Ok average)
      <-> forall k s, In k (keys count) ->
            Binary64.sum_rub (Binary64.group key_str k vacancies) = Some s ->
            exists q,
              Binary64.py_truediv s
                (Binary64.Int (Z.of_nat (List.length
                                 (Binary64.group key_str k vacancies))))
              = Ok (Binary64.Float (Finite q)))
  /\ (forall e, Binary64.getAverageSalary count sum = Raise e ->
                e = OverflowError \/ e = ValueError).
Proof.
  intros Hnd Hcount Hsum.
  assert (Hin : forall k, In k (keys count) ->
            dict_get count k
            = Some (Binary64.Int (Z.of_nat (List.length
                                    (Binary64.group key_str k vacancies))))).
  { intros k Hk. destruct (dict_get count k) as [c|] eqn:E.
    - rewrite (Hcount k c E). reflexivity.
    - apply dict_get_None in E. contradiction. }
  assert (Hempty : forall k,
            Binary64.py_eq_zero
              (Binary64.Int (Z.of_nat (List.length
                               (Binary64.group key_str k vacancies)))) = false ->
            Binary64.group key_str k vacancies <> []).
  { intros k Hz Hnil. rewrite Hnil in Hz. discriminate Hz. }
  assert (Hdom : forall k c, dict_get count k = Some c ->
            Binary64.py_eq_zero c = false -> dict_contains sum k = true).
  { intros k c Hk Hc. rewrite (Hcount k c Hk) in Hc.
    unfold dict_contains. rewrite (Hsum k (Hempty k Hc)).
    destruct (Binary64.sum_rub (Binary64.group key_str k vacancies)) eqn:E;
      [reflexivity|].
    apply sum_rub_none in E. destruct (Hempty k Hc E). }
  destruct (getAverageSalary_outcome count sum Hnd Hdom) as (Hok & Hiff & Hraise).
  split; [|split; [|exact Hraise]].
  - intros average Hav. destruct (Hok average Hav) as [Hkeys Hentries].
    split; [exact Hkeys|]. intros k Hk.
    specialize (Hentries k _ (Hin k Hk)).
    destruct (Binary64.py_eq_zero _) eqn:Hz in Hentries.
    + apply group_size_zero, length_zero_iff_nil in Hz. rewrite Hz. exact Hentries.
    + destruct Hentries as (s & q & Hs & Hq & Hget).
      rewrite (Hsum k (Hempty k Hz)) in Hs. rewrite Hs. exists q. auto.
  - rewrite Hiff. split.
    + intros Hall k s Hk Hs.
      assert (Hne : Binary64.group key_str k vacancies <> []).
      { intros Hnil. rewrite Hnil in Hs. discriminate Hs. }
      apply (Hall k _ s (Hin k Hk)).
      * apply not_true_iff_false. rewrite group_size_zero, length_zero_iff_nil.
        exact Hne.
      * rewrite (Hsum k Hne). exact Hs.
    + intros Hall k c s Hk Hc Hs. rewrite (Hcount k c Hk) in Hc |- *.
      apply Hall.
      * destruct (in_dec pykey_eq_dec k (keys count)) as [Hi|Ho]; [exact Hi|].
        apply dict_get_None in Ho. congruence.
      * rewrite <- (Hsum k (Hempty k Hc)). exact Hs.
Qed.

Lemma group_nonempty_key (key_str : string) (k : pykey)
    (vacancies : list Binary64.Vacancy) :
  Binary64.group key_str k vacancies <> [] ->
  In k (Binary64.record_keys key_str vacancies).
Proof.
  induction vacancies as [|v vacancies IH]; [intros Hne; destruct Hne; reflexivity|].
  unfold Binary64.group. cbn [filter Binary64.record_keys].
  destruct (Binary64.key_of key_str v) as [k'|]; [|exact IH].
  destruct (pykey_eqb k' k) eqn:E.
  - intros _. left. apply pykey_eqb_eq. exact E.
  - intros Hne. right. apply IH, Hne.
Qed.

(** The two maps of [getKey] in year mode, before the averages. *)
Lemma getKey_year_maps (ay : list pykey) (vacancies : list Binary64.Vacancy)
    (key_str : string) :
  Forall (fun v => dict_get (Binary64.dic v) key_str <> None) vacancies ->
  exists count sum,
    Binary64.getKey ay vacancies key_str false
    = (average <- Binary64.getAverageSalary count sum ;; Ok (average, count))
    /\ keys count = fresh [] (Binary64.record_keys key_str vacancies ++ ay)
    /\ (forall k, In k (keys count) ->
          dict_get count k
          = Some (Binary64.Int (Z.of_nat (List.length
                                  (Binary64.group key_str k vacancies)))))
    /\ (forall k, Binary64.group key_str k vacancies <> [] ->
          dict_get sum k = Binary64.sum_rub (Binary64.group key_str k vacancies)).
Proof.
  intros Hall.
  destruct (accumulate_by_groups key_str vacancies Hall)
    as (ks & kc & Hacc & Horder & Hkeys & Hgroups).
  exists (Binary64.updateKeys ay kc), (Binary64.updateKeys ay ks).
  split; [|split; [|split]].
  - unfold Binary64.getKey. rewrite Hacc. reflexivity.
  - rewrite updateKeys_adds, keys_app, keys_constant, Horder, fresh_app.
    reflexivity.
  - intros k Hk. rewrite updateKeys_adds in Hk |- *.
    rewrite keys_app, keys_constant, in_app_iff in Hk.
    destruct (Hgroups k) as [Hcount _].
    destruct (List.length (Binary64.group key_str k vacancies)) as [|n].
    + rewrite dict_get_app_r by exact Hcount.
      apply dict_get_constant. apply dict_get_None in Hcount. tauto.
    + apply dict_get_app_l. exact Hcount.
  - intros k Hne. rewrite updateKeys_adds. destruct (Hgroups k) as [_ Hsum].
    destruct (Binary64.sum_rub (Binary64.group key_str k vacancies)) as [s|] eqn:E.
    + apply dict_get_app_l. exact Hsum.
    + apply sum_rub_none in E. contradiction.
Qed.

(** X1. Grouping by year in binary64, for records that have the column.
    When [getKey] returns, the count map and the average map have the same
    keys: the keys of the records in the order in which the records first
    show them, followed by the other years of [allYears]; a key has as
    count the number of its records, and as average 0 when it has no
    record and otherwise the floor of the float that the division of the
    sum of its salaries, added one after the other as floats, by its count
    gives.  [getKey] returns exactly when each of these quotients is a
    finite float; otherwise it raises [OverflowError] or [ValueError]. *)
Theorem getKey_by_year_groups (ay : list pykey) (vacancies : list Binary64.Vacancy)
    (key_str : string) :
  Forall (fun v => dict_get (Binary64.dic v) key_str <> None) vacancies ->
  (forall average count,
     Binary64.getKey ay vacancies key_str false = Ok (average, count) ->
     keys count = fresh [] (Binary64.record_keys key_str vacancies ++ ay)
     /\ keys average = keys count
     /\ forall k, In k (keys count) ->
          dict_get count k
          = Some (Binary64.Int (Z.of_nat (List.length
                                  (Binary64.group key_str k vacancies))))
          /\ match Binary64.sum_rub (Binary64.group key_str k vacancies) with
             | None => dict_get average k = Some (Binary64.Int 0)
             | Some s =>
                 exists q,
                   Binary64.py_truediv s
                     (Binary64.Int (Z.of_nat (List.length
                                      (Binary64.group key_str k vacancies))))
                   = Ok (Binary64.Float (Finite q))
                   /\ dict_get average k = Some (Binary64.Int (Qfloor q))
             end)
  /\ ((exists maps, Binary64.getKey ay vacancies key_str false = Ok maps)
      <-> forall k s,
            Binary64.sum_rub (Binary64.group key_str k vacancies) = Some s ->
            exists q,
              Binary64.py_truediv s
                (Binary64.Int (Z.of_nat (List.length
                                 (Binary64.group key_str k vacancies))))
              = Ok (Binary64.Float (Finite q)))
  /\ (forall e, Binary64.getKey ay vacancies key_str false = Raise e ->
                e = OverflowError \/ e = ValueError).
Proof.
  intros Hall.
  destruct (getKey_year_maps ay vacancies key_str Hall)
    as (count & sum & -> & Hkeys & Hcount & Hsum).
  assert (Hnd : NoDup (keys count)) by (rewrite Hkeys; apply fresh_NoDup).
  assert (Hc : forall k c, dict_get count k = Some c ->
            c = Binary64.Int (Z.of_nat (List.length
                                (Binary64.group key_str k vacancies)))).
  { intros k c Hk.
    destruct (in_dec pykey_eq_dec k (keys count)) as [Hi|Ho].
    - rewrite (Hcount k Hi) in Hk. congruence.
    - apply dict_get_None in Ho. congruence. }
  destruct (average_by_groups key_str vacancies count sum Hnd Hc Hsum)
    as (Hok & Hiff & Hraise).
  split; [|split].
  - intros average count' Hg.
    destruct (Binary64.getAverageSalary count sum) as [av|] eqn:Hav;
      cbn [bind] in Hg; [|discriminate].
    injection Hg as <- <-. destruct (Hok av eq_refl) as [Hk Hentries].
    split; [exact Hkeys|]. split; [exact Hk|].
    intros k Hin. split; [apply Hcount, Hin | apply Hentries, Hin].
  - split.
    + intros [maps Hg] k s Hs.
      destruct (Binary64.getAverageSalary count sum) as [av|] eqn:Hav;
        cbn [bind] in Hg; [|discriminate].
      apply (proj1 Hiff (ex_intro _ av eq_refl)); [|exact Hs].
      rewrite Hkeys, fresh_in, in_app_iff. split; [left|intros []].
      apply group_nonempty_key. intros Hnil. rewrite Hnil in Hs. discriminate Hs.
    + intros Hq.
      destruct (proj2 Hiff (fun k s _ => Hq k s)) as [av ->].
      cbn [bind]. eexists. reflexivity.
  - intros e Hg.
    destruct (Binary64.getAverageSalary count sum) as [av|e'] eqn:Hav;
      cbn [bind] in Hg; [discriminate|].
    injection Hg as <-. apply Hraise. reflexivity.
Qed.

Lemma sample_vacancies_have_year64 :
  Forall (fun v => dict_get (Binary64.dic v) "year" <> None)
         (Binary64.vacancies_of sample_file).
Proof.
  apply Forall_forall. intros v Hv.
  assert (Hb : forallb (fun v => dict_contains (Binary64.dic v) "year")
                       (Binary64.vacancies_of sample_file) = true)
    by (vm_compute; reflexivity).
  rewrite forallb_forall in Hb. specialize (Hb v Hv).
  unfold dict_contains in Hb. intros Hnone. rewrite Hnone in Hb.
  discriminate Hb.
Qed.

(** The two rows of the sample file, with the year 2006 in [allYears]:
    the maps are [{2007: 150, 2008: 8985, 2006: 0}] and
    [{2007: 1, 2008: 1, 2006: 0}]. *)
Lemma getKey_by_year_groups_witness :
  Forall (fun v => dict_get (Binary64.dic v) "year" <> None)
         (Binary64.vacancies_of sample_file)
  /\ Binary64.getKey [KInt 2006] (Binary64.vacancies_of sample_file) "year" false
     = Ok ([(KInt 2007, Binary64.Int 150); (KInt 2008, Binary64.Int 8985);
            (KInt 2006, Binary64.Int 0)],
           [(KInt 2007, Binary64.Int 1); (KInt 2008, Binary64.Int 1);
            (KInt 2006, Binary64.Int 0)])
  /\ [KInt 2007; KInt 2008; KInt 2006]
     = fresh [] (Binary64.record_keys "year" (Binary64.vacancies_of sample_file)
                 ++ [KInt 2006]).
Proof.
  split; [exact sample_vacancies_have_year64|].
  assert (Hg : Binary64.getKey [KInt 2006] (Binary64.vacancies_of sample_file)
                 "year" false
               = Ok ([(KInt 2007, Binary64.Int 150); (KInt 2008, Binary64.Int 8985);
                      (KInt 2006, Binary64.Int 0)],
                     [(KInt 2007, Binary64.Int 1); (KInt 2008, Binary64.Int 1);
                      (KInt 2006, Binary64.Int 0)]))
    by (vm_compute; reflexivity).
  split; [exact Hg|].
  exact (proj1 (proj1 (getKey_by_year_groups [KInt 2006]
                         (Binary64.vacancies_of sample_file) "year"
                         sample_vacancies_have_year64) _ _ Hg)).
Defined.

(** ** Rounding keeps the order *)

Lemma round_half_even_mono (x y : Q) :
  (x <= y)%Q -> Binary64.round_half_even x <= Binary64.round_half_even y.
Proof.
  intros Hxy. pose proof (Qfloor_resp_le x y Hxy) as Hf.
  pose proof (Qfloor_le x) as Hx1. pose proof (Qlt_floor x) as Hx2.
  pose proof (Qfloor_le y) as Hy1. pose proof (Qlt_floor y) as Hy2.
  unfold Binary64.round_half_even.
  destruct (Z.eq_dec (Qfloor x) (Qfloor y)) as [E|E].
  - rewrite <- E in *.
    destruct (Qcompare_spec (x - inject_Z (Qfloor x)) (1 # 2)) as [Hx|Hx|Hx];
      destruct (Qcompare_spec (y - inject_Z (Qfloor x)) (1 # 2)) as [Hy|Hy|Hy];
      destruct (Z.even (Qfloor x)); try lia; exfalso; lra.
  - destruct (x - inject_Z (Qfloor x) ?= 1 # 2)%Q;
      destruct (y - inject_Z (Qfloor y) ?= 1 # 2)%Q;
      destruct (Z.even (Qfloor x)); destruct (Z.even (Qfloor y)); lia.
Qed.

Lemma binade_mono (q q' : Q) :
  (0 < q)%Q -> (q <= q')%Q -> Binary64.binade q <= Binary64.binade q'.
Proof.
  intros Hq Hle.
  assert (Hq' : (0 < q')%Q) by lra.
  destruct (binade_spec q) as [Hlo _]; [lra|].
  destruct (binade_spec q') as [_ Hup]; [lra|].
  rewrite Qabs_pos in Hlo by lra. rewrite Qabs_pos in Hup by lra.
  assert (Hlt : (2 ^ Binary64.binade q < 2 ^ (Binary64.binade q' + 1))%Q) by lra.
  apply pow2_lt_inv in Hlt. lia.
Qed.

(** A positive number in a binade of floats is rounded within it. *)
Lemma nearest_lower (q : Q) :
  (0 < q)%Q -> Binary64.ulp_exponent q <= Binary64.binade q ->
  (2 ^ Binary64.binade q <= Binary64.nearest q)%Q.
Proof.
  intros Hq Hu. destruct (binade_spec q) as [Hlo _]; [lra|].
  rewrite Qabs_pos in Hlo by lra.
  set (b := Binary64.binade q) in *. set (u := Binary64.ulp_exponent q) in *.
  pose proof (pow2_pos u) as Hp.
  assert (Hs : (inject_Z (2 ^ (b - u)) <= q / 2 ^ u)%Q).
  { rewrite <- pow2_Z by lia. apply Qle_shift_div_l; [exact Hp|].
    rewrite <- pow2_add. replace (b - u + u) with b by lia. exact Hlo. }
  apply round_half_even_mono in Hs. rewrite round_half_even_Z in Hs.
  unfold Binary64.nearest. fold u.
  replace b with (b - u + u) at 1 by lia. rewrite pow2_add.
  apply Qmult_le_compat_r; [|lra].
  rewrite pow2_Z by lia. rewrite <- Zle_Qle. exact Hs.
Qed.

Lemma nearest_upper (q : Q) :
  (0 < q)%Q ->
  (Binary64.nearest q
   <= 2 ^ Z.max (Binary64.binade q + 1) (Binary64.ulp_exponent q))%Q.
Proof.
  intros Hq. destruct (binade_spec q) as [_ Hup]; [lra|].
  rewrite Qabs_pos in Hup by lra.
  set (b := Binary64.binade q) in *. set (u := Binary64.ulp_exponent q) in *.
  pose proof (pow2_pos u) as Hp.
  set (m := Z.max (b + 1) u).
  assert (Hs : (q / 2 ^ u <= inject_Z (2 ^ (m - u)))%Q).
  { rewrite <- pow2_Z by lia. apply Qle_shift_div_r; [exact Hp|].
    rewrite <- pow2_add. replace (m - u + u) with m by lia.
    apply Qle_trans with (2 ^ (b + 1))%Q; [lra | apply pow2_le; lia]. }
  apply round_half_even_mono in Hs. rewrite round_half_even_Z in Hs.
  unfold Binary64.nearest. fold u.
  replace m with (m - u + u) by lia. rewrite pow2_add.
  apply Qmult_le_compat_r; [|lra].
  rewrite (pow2_Z (m - u)) by lia. rewrite <- Zle_Qle. exact Hs.
Qed.

(** Rounding keeps the order of positive numbers. *)
Lemma nearest_mono (q q' : Q) :
  (0 < q)%Q -> (q <= q')%Q -> (Binary64.nearest q <= Binary64.nearest q')%Q.
Proof.
  intros Hq Hle. assert (Hq' : (0 < q')%Q) by lra.
  pose proof (binade_mono q q' Hq Hle) as Hb.
  destruct (Z.eq_dec (Binary64.ulp_exponent q) (Binary64.ulp_exponent q')) as [E|E].
  - unfold Binary64.nearest. rewrite <- E.
    pose proof (pow2_pos (Binary64.ulp_exponent q)) as Hp.
    apply Qmult_le_compat_r; [|lra]. rewrite <- Zle_Qle.
    apply round_half_even_mono. apply Qmult_le_compat_r; [exact Hle|].
    apply Qlt_le_weak, Qinv_lt_0_compat, Hp.
  - apply Qle_trans with (2 ^ Binary64.binade q')%Q.
    + apply Qle_trans
        with (2 ^ Z.max (Binary64.binade q + 1) (Binary64.ulp_exponent q))%Q;
        [apply nearest_upper, Hq|].
      apply pow2_le. unfold Binary64.ulp_exponent in *. lia.
    + apply nearest_lower; [exact Hq'|]. unfold Binary64.ulp_exponent in *. lia.
Qed.

Lemma round64_positive (q f : Q) :
  (0 < q)%Q -> Binary64.round64 q = Finite f -> (f == Binary64.nearest q)%Q.
Proof.
  intros Hq. unfold Binary64.round64.
  destruct (Qeq_bool q 0) eqn:Hz.
  - apply Qeq_bool_iff in Hz. lra.
  - destruct (Qle_bool (2 ^ 1024) (Qabs (Binary64.nearest q))); [discriminate|].
    intros Hf. assert (E : f = Qred (Binary64.nearest q)) by congruence.
    rewrite E. apply Qred_correct.
Qed.

Lemma round64_mono (q q' f f' : Q) :
  (0 < q)%Q -> (q <= q')%Q ->
  Binary64.round64 q = Finite f -> Binary64.round64 q' = Finite f' -> (f <= f')%Q.
Proof.
  intros Hq Hle Hf Hf'.
  rewrite (round64_positive q f Hq Hf), (round64_positive q' f') by (exact Hf' || lra).
  apply nearest_mono; assumption.
Qed.

(** For at most [10^15] records, the share of a key is above the float
    0.01 as a float exactly when it is above 0.01. *)
Lemma large_share_exact (total n : nat) :
  (n <= total)%nat -> Z.of_nat total <= 10 ^ 15 ->
  Binary64.large_share total n = true
  <-> (1 # 100 < inject_Z (Z.of_nat n) / inject_Z (Z.of_nat total))%Q.
Proof.
  intros Hn Htotal. unfold Binary64.large_share.
  set (q := (inject_Z (Z.of_nat n) / inject_Z (Z.of_nat total))%Q).
  assert (Hc : Binary64.round64 (1 # 100)
               = Finite (5764607523034235 # 576460752303423488))
    by (vm_compute; reflexivity).
  rewrite Hc.
  destruct (Nat.eq_dec n 0) as [->|Hpos].
  - assert (Hq : (q == 0)%Q) by (unfold q, Qdiv; cbn [Z.of_nat]; ring).
    rewrite (round64_comp q 0 Hq). split; [discriminate|]. intros H. exfalso. lra.
  - assert (Ht : (0 < inject_Z (Z.of_nat total))%Q).
    { change 0%Q with (inject_Z 0). rewrite <- Zlt_Qlt. lia. }
    assert (Hq0 : (0 < q)%Q).
    { unfold q. apply Qlt_shift_div_l; [exact Ht|]. rewrite Qmult_0_l.
      change 0%Q with (inject_Z 0). rewrite <- Zlt_Qlt. lia. }
    assert (Hq1 : (q <= 1)%Q).
    { unfold q. apply Qle_shift_div_r; [exact Ht|]. rewrite Qmult_1_l.
      rewrite <- Zle_Qle. lia. }
    destruct (round64_in_range q) as [f Hf].
    { rewrite Qabs_pos by lra. apply Qle_trans with 1%Q; [exact Hq1|].
      rewrite max_float_Z. change 1%Q with (inject_Z 1). rewrite <- Zle_Qle.
      vm_compute. discriminate. }
    rewrite Hf. cbn [Binary64.float_gt].
    rewrite negb_true_iff, <- not_true_iff_false, Qle_bool_iff.
    split.
    + intros Hgt. apply Qnot_le_lt. intros Hle. apply Hgt.
      apply (round64_mono q (1 # 100) _ _ Hq0 Hle Hf Hc).
    + intros Hlt. apply Qlt_not_le.
      set (b := ((1 # 100) + (1 # 100000000000000000))%Q).
      assert (Hb : Binary64.round64 b
                   = Finite (5764607523034241 # 576460752303423488))
        by (vm_compute; reflexivity).
      apply Qlt_le_trans with (5764607523034241 # 576460752303423488)%Q;
        [reflexivity|].
      apply (round64_mono b q _ _); [reflexivity | | exact Hb | exact Hf].
      assert (Hm : ((1 # 100) * inject_Z (Z.of_nat total) < inject_Z (Z.of_nat n))%Q).
      { setoid_replace (inject_Z (Z.of_nat n))
          with (q * inject_Z (Z.of_nat total))%Q by (unfold q; field; lra).
        apply Qmult_lt_compat_r; assumption. }
      unfold q. apply Qle_shift_div_l; [exact Ht|].
      unfold Qlt, Qmult, inject_Z in Hm. cbn [Qnum Qden] in Hm.
      unfold b, Qle, Qmult, Qplus, inject_Z. cbn [Qnum Qden].
      lia.
Qed.

(** ** [getKey] by area in binary64 *)

Section FilteredMaps.
Context {K V : Type} `{PyHashable K}.

Lemma filter_keys_in (p : K * V -> bool) (d : dict K V) (k : K) :
  In k (keys (filter p d)) -> In k (keys d).
Proof.
  unfold keys. intros Hin. apply in_map_iff in Hin as (e & He & Hin).
  apply filter_In in Hin as [Hin _]. apply in_map_iff. exists e. auto.
Qed.

Lemma filter_keys_NoDup (p : K * V -> bool) (d : dict K V) :
  NoDup (keys d) -> NoDup (keys (filter p d)).
Proof.
  induction d as [|[k v] d IH]; simpl; intros Hnd; [constructor|].
  inversion Hnd as [|? ? Hout Hnd']; subst.
  destruct (p (k, v)); simpl; [|auto].
  constructor; [|auto].
  intros Hin. apply Hout. apply (filter_keys_in p d k Hin).
Qed.

Lemma filter_get (p : K * V -> bool) (d : dict K V) (k : K) :
  NoDup (keys d) ->
  dict_get (filter p d) k
  = match dict_get d k with
    | Some v => if p (k, v) then Some v else None
    | None => None
    end.
Proof.
  induction d as [|[k' v'] d IH]; simpl; [reflexivity|].
  intros Hnd. inversion Hnd as [|? ? Hout Hnd']; subst.
  destruct (key_eqb k k') eqn:E.
  - apply key_eqb_eq in E. subst k'.
    destruct (p (k, v')); simpl; [rewrite key_eqb_refl; reflexivity|].
    apply dict_get_None. intros Hin. apply Hout, (filter_keys_in p d k Hin).
  - destruct (p (k', v')); simpl; [rewrite E|]; auto.
Qed.

Lemma filter_keys_by_key (p : K * V -> bool) (q : K -> bool) (d : dict K V) :
  (forall k c, In (k, c) d -> p (k, c) = q k) ->
  keys (filter p d) = filter q (keys d).
Proof.
  unfold keys.
  induction d as [|[k c] d IH]; intros Hpq; [reflexivity|].
  cbn [filter map fst]. rewrite (Hpq k c) by (left; reflexivity).
  assert (Hrest : map fst (filter p d) = filter q (map fst d))
    by (apply IH; intros k' c' Hin; apply Hpq; right; exact Hin).
  destruct (q k); cbn [map fst]; rewrite Hrest; reflexivity.
Qed.
End FilteredMaps.

Lemma large_share_of_none (total : nat) : Binary64.large_share total 0 = false.
Proof.
  unfold Binary64.large_share.
  rewrite (round64_comp (inject_Z (Z.of_nat 0) / inject_Z (Z.of_nat total)) 0)
    by (unfold Qdiv; cbn [Z.of_nat]; ring).
  reflexivity.
Qed.

(** The condition of the filter for a key that [n] of [total] records
    have: the division does not fail. *)
Lemma share_kept_large (total n : nat) (k : pykey) :
  (0 < n <= total)%nat ->
  Binary64.share_kept total (k, Binary64.Int (Z.of_nat n))
  = Ok (Binary64.large_share total n).
Proof.
  intros Hn. unfold Binary64.share_kept, Binary64.large_share.
  cbn [snd Binary64.py_truediv].
  rewrite (proj2 (Z.eqb_neq (Z.of_nat total) 0)) by lia.
  set (q := (inject_Z (Z.of_nat n) / inject_Z (Z.of_nat total))%Q).
  assert (Ht : (0 < inject_Z (Z.of_nat total))%Q).
  { change 0%Q with (inject_Z 0). rewrite <- Zlt_Qlt. lia. }
  destruct (round64_in_range q) as [f Hf].
  { assert (Hq0 : (0 <= q)%Q).
    { unfold q. apply Qle_shift_div_l; [exact Ht|]. rewrite Qmult_0_l.
      change 0%Q with (inject_Z 0). rewrite <- Zle_Qle. lia. }
    rewrite Qabs_pos by exact Hq0. apply Qle_trans with 1%Q.
    - unfold q. apply Qle_shift_div_r; [exact Ht|]. rewrite Qmult_1_l.
      rewrite <- Zle_Qle. lia.
    - rewrite max_float_Z. change 1%Q with (inject_Z 1). rewrite <- Zle_Qle.
      vm_compute. discriminate. }
  rewrite Hf. reflexivity.
Qed.

Lemma group_size_le (key_str : string) (k : pykey) (vacancies : list Binary64.Vacancy) :
  (List.length (Binary64.group key_str k vacancies) <= List.length vacancies)%nat.
Proof. apply filter_length_le. Qed.

(** The two maps of [getKey] in area mode, before the averages. *)
Lemma getKey_area_maps (ay : list pykey) (vacancies : list Binary64.Vacancy)
    (key_str : string) :
  Forall (fun v => dict_get (Binary64.dic v) key_str <> None) vacancies ->
  exists count sum,
    Binary64.getKey ay vacancies key_str true
    = (average <- Binary64.getAverageSalary count sum ;; Ok (average, count))
    /\ keys count
       = filter (fun k => Binary64.large_share (List.length vacancies)
                            (List.length (Binary64.group key_str k vacancies)))
                (fresh [] (Binary64.record_keys key_str vacancies))
    /\ NoDup (keys count)
    /\ (forall k,
          dict_get count k
          = if Binary64.large_share (List.length vacancies)
                 (List.length (Binary64.group key_str k vacancies))
            then Some (Binary64.Int (Z.of_nat (List.length
                                       (Binary64.group key_str k vacancies))))
            else None)
    /\ (forall k, Binary64.group key_str k vacancies <> [] ->
          dict_get sum k = Binary64.sum_rub (Binary64.group key_str k vacancies)).
Proof.
  intros Hall.
  destruct (accumulate_by_groups key_str vacancies Hall)
    as (ks & kc & Hacc & Horder & Hkeys & Hgroups).
  assert (Hnd : NoDup (keys kc)) by (rewrite Horder; apply fresh_NoDup).
  set (keep := fun item : pykey * Binary64.num =>
                 Binary64.large_share (List.length vacancies)
                   (List.length (Binary64.group key_str (fst item) vacancies))).
  assert (Hentry : forall k c, In (k, c) kc ->
            c = Binary64.Int (Z.of_nat (List.length
                                (Binary64.group key_str k vacancies)))
            /\ (0 < List.length (Binary64.group key_str k vacancies))%nat).
  { intros k c Hin. apply (in_dict_get _ _ _ Hnd) in Hin.
    destruct (Hgroups k) as [Hc _]. rewrite Hin in Hc.
    destruct (List.length (Binary64.group key_str k vacancies)); [discriminate|].
    injection Hc as ->. split; [reflexivity | lia]. }
  assert (Hkept : filterM (Binary64.share_kept (List.length vacancies)) (items kc)
                  = Ok (filter keep kc)).
  { apply filterM_ok. intros [k c] Hin. destruct (Hentry k c Hin) as [-> Hpos].
    apply share_kept_large. split; [exact Hpos | apply group_size_le]. }
  exists (filter keep kc), ks. split; [|split; [|split; [|split]]].
  - unfold Binary64.getKey. rewrite Hacc. cbn [bind negb]. rewrite Hkept.
    cbn [bind]. rewrite dict_of_nodup by (apply filter_keys_NoDup, Hnd).
    reflexivity.
  - rewrite <- Horder. apply filter_keys_by_key. reflexivity.
  - apply filter_keys_NoDup, Hnd.
  - intros k. rewrite (filter_get keep kc k Hnd). destruct (Hgroups k) as [Hc _].
    rewrite Hc. unfold keep. cbn [fst].
    destruct (List.length (Binary64.group key_str k vacancies)) as [|n];
      [rewrite large_share_of_none|]; reflexivity.
  - intros k _. apply Hgroups.
Qed.

(** X3. Grouping by area in binary64, for records that have the column.
    When [getKey] returns, the count map has the keys of the records whose
    share of the records, as the float that the division of their number
    by the number of all records gives, is above the float [0.01], in the
    order in which the records first show them, each with the number of
    its records; the average map has the same keys, each with the floor of
    the float that the division of the sum of its salaries, added one
    after the other as floats, by its count gives; a key with a smaller
    share is in neither map.  [getKey] returns exactly when each of these
    quotients is a finite float, and otherwise raises [OverflowError] or
    [ValueError].  For at most [10^15] records the share as a float is
    above the float [0.01] exactly when the share is above 0.01. *)
Theorem getKey_by_area_groups (ay : list pykey) (vacancies : list Binary64.Vacancy)
    (key_str : string) :
  Forall (fun v => dict_get (Binary64.dic v) key_str <> None) vacancies ->
  (forall average count,
     Binary64.getKey ay vacancies key_str true = Ok (average, count) ->
     keys count
     = filter (fun k => Binary64.large_share (List.length vacancies)
                          (List.length (Binary64.group key_str k vacancies)))
              (fresh [] (Binary64.record_keys key_str vacancies))
     /\ keys average = keys count
     /\ forall k,
          if Binary64.large_share (List.length vacancies)
               (List.length (Binary64.group key_str k vacancies))
          then dict_get count k
               = Some (Binary64.Int (Z.of_nat (List.length
                                       (Binary64.group key_str k vacancies))))
               /\ exists s q,
                    Binary64.sum_rub (Binary64.group key_str k vacancies) = Some s
                    /\ Binary64.py_truediv s
                         (Binary64.Int (Z.of_nat (List.length
                                          (Binary64.group key_str k vacancies))))
                       = Ok (Binary64.Float (Finite q))
                    /\ dict_get average k = Some (Binary64.Int (Qfloor q))
          else dict_get count k = None /\ dict_get average k = None)
  /\ ((exists maps, Binary64.getKey ay vacancies key_str true = Ok maps)
      <-> forall k s,
            Binary64.large_share (List.length vacancies)
              (List.length (Binary64.group key_str k vacancies)) = true ->
            Binary64.sum_rub (Binary64.group key_str k vacancies) = Some s ->
            exists q,
              Binary64.py_truediv s
                (Binary64.Int (Z.of_nat (List.length
                                 (Binary64.group key_str k vacancies))))
              = Ok (Binary64.Float (Finite q)))
  /\ (forall e, Binary64.getKey ay vacancies key_str true = Raise e ->
                e = OverflowError \/ e = ValueError)
  /\ (forall n, (n <= List.length vacancies)%nat ->
        Z.of_nat (List.length vacancies) <= 10 ^ 15 ->
        Binary64.large_share (List.length vacancies) n = true
        <-> (1 # 100 < inject_Z (Z.of_nat n)
                       / inject_Z (Z.of_nat (List.length vacancies)))%Q).
Proof.
  intros Hall.
  destruct (getKey_area_maps ay vacancies key_str Hall)
    as (count & sum & -> & Hkeys & Hnd & Hcount & Hsum).
  assert (Hc : forall k c, dict_get count k = Some c ->
            c = Binary64.Int (Z.of_nat (List.length
                                (Binary64.group key_str k vacancies)))).
  { intros k c Hk. rewrite Hcount in Hk.
    destruct (Binary64.large_share _ _); congruence. }
  assert (Hin : forall k, In k (keys count)
            <-> Binary64.large_share (List.length vacancies)
                  (List.length (Binary64.group key_str k vacancies)) = true).
  { intros k. pose proof (dict_get_None count k) as Hnone. rewrite Hcount in Hnone.
    destruct (Binary64.large_share _ _).
    - split; [reflexivity|]. intros _.
      destruct (in_dec pykey_eq_dec k (keys count)) as [Hi|Ho]; [exact Hi|].
      apply Hnone in Ho. discriminate.
    - split; [|discriminate]. intros Hi. exfalso. apply (proj1 Hnone); auto. }
  destruct (average_by_groups key_str vacancies count sum Hnd Hc Hsum)
    as (Hok & Hiff & Hraise).
  split; [|split; [|split]].
  - intros average count' Hg.
    destruct (Binary64.getAverageSalary count sum) as [av|] eqn:Hav;
      cbn [bind] in Hg; [|discriminate].
    injection Hg as <- <-. destruct (Hok av eq_refl) as [Hk Hentries].
    split; [exact Hkeys|]. split; [exact Hk|].
    intros k. specialize (Hin k). specialize (Hcount k).
    destruct (Binary64.large_share _ _) eqn:Hshare.
    + split; [exact Hcount|].
      specialize (Hentries k (proj2 Hin eq_refl)).
      destruct (Binary64.sum_rub (Binary64.group key_str k vacancies)) as [s|] eqn:Hs.
      * destruct Hentries as (q & Hq & Hget). exists s, q. auto.
      * apply sum_rub_none in Hs. rewrite Hs in Hshare. cbn [List.length] in Hshare.
        rewrite large_share_of_none in Hshare. discriminate.
    + split; [exact Hcount|]. apply dict_get_None. rewrite Hk.
      intros Hi. apply Hin in Hi. discriminate.
  - split.
    + intros [maps Hg] k s Hshare Hs.
      destruct (Binary64.getAverageSalary count sum) as [av|] eqn:Hav;
        cbn [bind] in Hg; [|discriminate].
      apply (proj1 Hiff (ex_intro _ av eq_refl)); [apply Hin, Hshare | exact Hs].
    + intros Hq.
      destruct (proj2 Hiff (fun k s Hi => Hq k s (proj1 (Hin k) Hi))) as [av ->].
      cbn [bind]. eexists. reflexivity.
  - intros e Hg.
    destruct (Binary64.getAverageSalary count sum) as [av|e'] eqn:Hav;
      cbn [bind] in Hg; [discriminate|].
    injection Hg as <-. apply Hraise. reflexivity.
  - intros n. apply large_share_exact.
Qed.

Lemma crowded_vacancies_have_area64 :
  Forall (fun v => dict_get (Binary64.dic v) "area_name" <> None)
         (Binary64.vacancies_of crowded_file).
Proof.
  apply Forall_forall. intros v Hv.
  assert (Hb : forallb (fun v => dict_contains (Binary64.dic v) "area_name")
                       (Binary64.vacancies_of crowded_file) = true)
    by (vm_compute; reflexivity).
  rewrite forallb_forall in Hb. specialize (Hb v Hv).
  unfold dict_contains in Hb. intros Hnone. rewrite Hnone in Hb.
  discriminate Hb.
Qed.

(** Hundred rows, one of them in Kazan: its share is the float 0.01,
    which is not above the float 0.01, and only Moscow is kept. *)
Lemma getKey_by_area_groups_witness :
  Forall (fun v => dict_get (Binary64.dic v) "area_name" <> None)
         (Binary64.vacancies_of crowded_file)
  /\ Binary64.getKey [] (Binary64.vacancies_of crowded_file) "area_name" true
     = Ok ([(KStr "Москва", Binary64.Int 150)], [(KStr "Москва", Binary64.Int 99)])
  /\ [KStr "Москва"]
     = filter (fun k =>
                 Binary64.large_share
                   (List.length (Binary64.vacancies_of crowded_file))
                   (List.length (Binary64.group "area_name" k
                                   (Binary64.vacancies_of crowded_file))))
              (fresh [] (Binary64.record_keys "area_name"
                           (Binary64.vacancies_of crowded_file))).
Proof.
  split; [exact crowded_vacancies_have_area64|].
  assert (Hg : Binary64.getKey [] (Binary64.vacancies_of crowded_file)
                 "area_name" true
               = Ok ([(KStr "Москва", Binary64.Int 150)],
                     [(KStr "Москва", Binary64.Int 99)]))
    by (vm_compute; reflexivity).
  split; [exact Hg|].
  exact (proj1 (proj1 (getKey_by_area_groups []
                         (Binary64.vacancies_of crowded_file) "area_name"
                         crowded_vacancies_have_area64) _ _ Hg)).
Defined.

(** ** The lines of which [csv_filter] makes vacancies *)

(** [Salary.__init__] returns exactly for finite bounds and a currency of
    the table. *)
Lemma Salary_init_returns (d : dict string pyval) :
  (exists sal, Binary64.Salary_init d = Ok sal)
  <-> (exists v f, dict_get d "salary_from" = Some v
                   /\ Binary64.py_float v = Ok (Finite f))
      /\ (exists v t, dict_get d "salary_to" = Some v
                      /\ Binary64.py_float v = Ok (Finite t))
      /\ (exists c, dict_get d "salary_currency" = Some c
                    /\ dict_contains Binary64.currency_to_rub (hash_key c) = true).
Proof.
  split.
  - intros [sal Hsal].
    destruct (dict_get d "salary_from") as [raw_from|] eqn:Hfrom.
    2:{ unfold Binary64.Salary_init, dict_getitem in Hsal. rewrite Hfrom in Hsal.
        discriminate. }
    destruct (Salary_init_bad_from d raw_from Hfrom) as (Hinf & Hnan & Hraise).
    destruct (Binary64.py_float raw_from) as [[f|b|]|e] eqn:Hf;
      [|rewrite (Hinf b eq_refl) in Hsal; discriminate
       |rewrite (Hnan eq_refl) in Hsal; discriminate
       |rewrite (Hraise e eq_refl) in Hsal; discriminate].
    destruct (dict_get d "salary_to") as [raw_to|] eqn:Hto.
    2:{ unfold Binary64.Salary_init, dict_getitem in Hsal.
        rewrite Hfrom, Hto in Hsal. cbn [bind] in Hsal. rewrite Hf in Hsal.
        discriminate. }
    destruct (Salary_init_bad_to d raw_from raw_to f Hfrom Hf Hto)
      as (Hinf' & Hnan' & Hraise').
    destruct (Binary64.py_float raw_to) as [[t|b|]|e] eqn:Ht;
      [|rewrite (Hinf' b eq_refl) in Hsal; discriminate
       |rewrite (Hnan' eq_refl) in Hsal; discriminate
       |rewrite (Hraise' e eq_refl) in Hsal; discriminate].
    destruct (dict_get d "salary_currency") as [c|] eqn:Hc.
    2:{ unfold Binary64.Salary_init, dict_getitem in Hsal.
        rewrite Hfrom, Hto, Hc in Hsal. cbn [bind] in Hsal.
        rewrite Hf in Hsal. cbn [bind Binary64.math_floor] in Hsal.
        rewrite Ht in Hsal. discriminate. }
    split; [eauto|]. split; [eauto|]. exists c. split; [reflexivity|].
    destruct (Salary_init_bounds d raw_from raw_to c f t Hfrom Hf Hto Ht Hc)
      as (average & _ & Hinit).
    rewrite Hinit in Hsal. unfold dict_getitem, dict_contains in *.
    destruct (dict_get Binary64.currency_to_rub (hash_key c));
      [reflexivity | discriminate].
  - intros ((raw_from & f & Hfrom & Hf) & (raw_to & t & Hto & Ht) & (c & Hc & Hrate)).
    destruct (Salary_init_bounds d raw_from raw_to c f t Hfrom Hf Hto Ht Hc)
      as (average & _ & ->).
    unfold dict_getitem, dict_contains in *.
    destruct (dict_get Binary64.currency_to_rub (hash_key c)) as [rate|] eqn:Hr;
      [|discriminate].
    cbn [bind]. destruct (currency_rates _ _ Hr) as [r Hrf].
    rewrite (py_mul_floats rate r average Hrf). cbn [bind]. eexists. reflexivity.
Qed.

Lemma make_vacancy_returns (inputValues : InputConect) (header line : list string) :
  (exists v, Binary64.make_vacancy inputValues header line = Ok v)
  <-> accepted header line.
Proof.
  unfold accepted, row_of, Binary64.make_vacancy, dict_getitem. cbv zeta.
  set (row := dict_of (combine header (map VStr line))).
  destruct (dict_get row "name") as [name|] eqn:Hname; cbn [bind].
  2:{ split; [intros [v Hv]; discriminate | intros [Hn _]; contradiction]. }
  destruct (row_values_are_strings _ _ _ _ Hname) as [sn ->]. cbn [py_find bind].
  set (d := dict_setitem row "is_needed" (VBool (-1 <? str_find sn (professionName inputValues)))).
  assert (Hd : forall k, k <> "is_needed" -> dict_get d k = dict_get row k).
  { intros k Hk. unfold d. apply dict_get_setitem_other. exact Hk. }
  rewrite <- (Hd "salary_from"), <- (Hd "salary_to"), <- (Hd "salary_currency"),
    <- (Hd "published_at") by discriminate.
  pose proof (Salary_init_returns d) as Hsal.
  split.
  - intros [v Hv]. unfold Binary64.Vacancy_init in Hv.
    destruct (Binary64.Salary_init d) as [sal|] eqn:Hs; cbn [bind] in Hv;
      [|discriminate].
    destruct (proj1 Hsal (ex_intro _ sal eq_refl)) as (Hfrom & Hto & Hcur).
    split; [discriminate|]. split; [exact Hfrom|]. split; [exact Hto|].
    split; [exact Hcur|].
    unfold dict_getitem in Hv.
    destruct (dict_get d "published_at") as [p|] eqn:Hp; cbn [bind] in Hv;
      [|discriminate].
    assert (Hstr : exists s, p = VStr s).
    { rewrite Hd in Hp by discriminate. apply (row_values_are_strings _ _ _ _ Hp). }
    destruct Hstr as [s ->]. cbn [py_slice_to bind py_int] in Hv.
    destruct (int_of_str (str_take 4 s)) as [y|] eqn:Hy; [|discriminate].
    exists s, y. auto.
  - intros (_ & Hfrom & Hto & Hcur & (s & y & Hp & Hy)).
    destruct (proj2 Hsal (conj Hfrom (conj Hto Hcur))) as [sal Hs].
    rewrite (Vacancy_init_year d sal s Hs Hp), Hy. cbn [bind].
    unfold dict_getitem. rewrite dict_get_setitem_other by discriminate.
    unfold d at 1. rewrite dict_get_setitem_same. cbn [bind]. eexists. reflexivity.
Qed.

Lemma make_vacancy_errors (inputValues : InputConect) (header line : list string)
    (e : exn) :
  Binary64.make_vacancy inputValues header line = Raise e -> row_error e.
Proof.
  unfold Binary64.make_vacancy, dict_getitem, row_error. cbv zeta.
  set (row := dict_of (combine header (map VStr line))).
  destruct (dict_get row "name") as [name|] eqn:Hname; cbn [bind];
    [|intros [= <-]; auto].
  destruct (row_values_are_strings _ _ _ _ Hname) as [sn ->]. cbn [py_find bind].
  set (d := dict_setitem row "is_needed" (VBool (-1 <? str_find sn (professionName inputValues)))).
  assert (Hstr : forall k x, k <> "is_needed" -> dict_get d k = Some x ->
            exists s, x = VStr s).
  { intros k x Hk. unfold d. rewrite dict_get_setitem_other by exact Hk.
    apply row_values_are_strings. }
  assert (Hfloat : forall k x e', k <> "is_needed" -> dict_get d k = Some x ->
            Binary64.py_float x = Raise e' -> e' = ValueError).
  { intros k x e' Hk Hx. destruct (Hstr k x Hk Hx) as [s ->].
    cbn [Binary64.py_float]. unfold Binary64.float_of_str, Binary64.text_value.
    destruct (float_of_str s) as [[q|b|]|e1] eqn:Hs; try discriminate.
    intros [= <-]. apply (float_of_str_raises s e1 Hs). }
  unfold Binary64.Vacancy_init.
  destruct (Binary64.Salary_init d) as [sal|e1] eqn:Hsal; cbn [bind].
  - unfold dict_getitem.
    destruct (dict_get d "published_at") as [p|] eqn:Hp; cbn [bind];
      [|intros [= <-]; auto].
    destruct (Hstr "published_at" p ltac:(discriminate) Hp) as [s ->].
    cbn [py_slice_to bind py_int].
    destruct (int_of_str (str_take 4 s)) as [y|e2] eqn:Hy; cbn [bind];
      [|intros [= <-]; apply int_of_str_raises in Hy; auto].
    rewrite dict_get_setitem_other by discriminate.
    unfold d at 1. rewrite dict_get_setitem_same. discriminate.
  - intros [= <-].
    destruct (dict_get d "salary_from") as [raw_from|] eqn:Hfrom.
    2:{ unfold Binary64.Salary_init, dict_getitem in Hsal. rewrite Hfrom in Hsal.
        cbn [bind] in Hsal. left. congruence. }
    destruct (Salary_init_bad_from d raw_from Hfrom) as (Hinf & Hnan & Hraise).
    destruct (Binary64.py_float raw_from) as [[f|b|]|e] eqn:Hf;
      [|rewrite (Hinf b eq_refl) in Hsal; right; right; congruence
       |rewrite (Hnan eq_refl) in Hsal; right; left; congruence
       |rewrite (Hraise e eq_refl) in Hsal; right; left;
        rewrite <- (Hfloat "salary_from" _ _ ltac:(discriminate) Hfrom Hf); congruence].
    destruct (dict_get d "salary_to") as [raw_to|] eqn:Hto.
    2:{ unfold Binary64.Salary_init, dict_getitem in Hsal.
        rewrite Hfrom, Hto in Hsal. cbn [bind] in Hsal. rewrite Hf in Hsal.
        cbn [bind Binary64.math_floor] in Hsal. left. congruence. }
    destruct (Salary_init_bad_to d raw_from raw_to f Hfrom Hf Hto)
      as (Hinf' & Hnan' & Hraise').
    destruct (Binary64.py_float raw_to) as [[t|b|]|e] eqn:Ht;
      [|rewrite (Hinf' b eq_refl) in Hsal; right; right; congruence
       |rewrite (Hnan' eq_refl) in Hsal; right; left; congruence
       |rewrite (Hraise' e eq_refl) in Hsal; right; left;
        rewrite <- (Hfloat "salary_to" _ _ ltac:(discriminate) Hto Ht); congruence].
    destruct (dict_get d "salary_currency") as [c|] eqn:Hc.
    2:{ unfold Binary64.Salary_init, dict_getitem in Hsal.
        rewrite Hfrom, Hto, Hc in Hsal. cbn [bind] in Hsal.
        rewrite Hf in Hsal. cbn [bind Binary64.math_floor] in Hsal.
        rewrite Ht in Hsal. cbn [bind Binary64.math_floor] in Hsal.
        left. congruence. }
    destruct (Salary_init_bounds d raw_from raw_to c f t Hfrom Hf Hto Ht Hc)
      as (average & _ & Hinit).
    rewrite Hinit in Hsal. unfold dict_getitem in Hsal.
    destruct (dict_get Binary64.currency_to_rub (hash_key c)) as [rate|] eqn:Hr;
      cbn [bind] in Hsal; [|left; congruence].
    destruct (currency_rates _ _ Hr) as [r Hrf].
    rewrite (py_mul_floats rate r average Hrf) in Hsal. discriminate.
Qed.

(** X18. For lines whose salary bounds and date prefix are ASCII text,
    [csv_filter] returns exactly when every line gives a row with a
    ["name"] column, ["salary_from"] and ["salary_to"] fields that
    [float()] reads as finite floats, a ["salary_currency"] that is a key
    of [currency_to_rub] and a ["published_at"] whose first 4 characters
    [int()] reads; and whatever it raises is [KeyError], [ValueError] or
    [OverflowError]. *)
Theorem csv_filter_accepts (inputValues : InputConect)
    (firstLine : list string) (otherLines : list (list string)) :
  Forall (ascii_fields firstLine) otherLines ->
  ((exists vacancies,
      Binary64.csv_filter inputValues firstLine otherLines = Ok vacancies)
   <-> Forall (accepted firstLine) otherLines)
  /\ (forall e, Binary64.csv_filter inputValues firstLine otherLines = Raise e ->
                row_error e).
Proof.
  intros _. unfold Binary64.csv_filter. split; [split|].
  - intros [vacancies Hv].
    destruct (mapM (Binary64.make_vacancy inputValues firstLine) otherLines)
      as [all|] eqn:Hm; [|discriminate].
    apply mapM_Ok_all in Hm. apply Forall_forall. intros line Hin.
    rewrite Forall_forall in Hm.
    apply (proj1 (make_vacancy_returns inputValues firstLine line)), (Hm line Hin).
  - intros Hall.
    destruct (mapM_returns (Binary64.make_vacancy inputValues firstLine) otherLines)
      as [all ->]; [|cbn [bind]; eexists; reflexivity].
    intros line Hin. rewrite Forall_forall in Hall.
    apply (proj2 (make_vacancy_returns inputValues firstLine line)), Hall, Hin.
  - intros e.
    destruct (mapM (Binary64.make_vacancy inputValues firstLine) otherLines)
      as [all|e1] eqn:Hm; cbn [bind]; [discriminate|].
    intros [= <-]. apply mapM_Raise in Hm as (line & _ & Hline).
    apply (make_vacancy_errors _ _ _ _ Hline).
Qed.

(** The two lines of the sample file are accepted. *)
Lemma csv_filter_accepts_witness :
  Forall (ascii_fields sample_header) (tl sample_file)
  /\ Forall (accepted sample_header) (tl sample_file).
Proof.
  assert (Hascii : Forall (ascii_fields sample_header) (tl sample_file)).
  { repeat constructor; intros v Hv; vm_compute in Hv; injection Hv as <-;
      reflexivity. }
  split; [exact Hascii|].
  apply (proj1 (proj1 (csv_filter_accepts sample_input sample_header
                         (tl sample_file) Hascii))).
  eexists. vm_compute. reflexivity.
Defined.
